(** * The [submit] command of the exercism command-line client

    A shallow embedding of [runSubmit] (cmd/submit.go) and of the
    configuration precedence that [TestConfigure], the test of the
    configure command, exercises, with the properties of the
    submission pipeline proved over it.

    [runSubmit] is one long function of early returns around calls into
    the operating system ([os], [path/filepath]), the workspace package,
    the multipart writer and the API client.  The embedding keeps that
    shape: every call to a collaborator is logged in a call trace, an
    error ends the run, and the four [for ... range] loops are
    fixpoints over the argument list. *)

From Stdlib Require Import Permutation.
From Stdlib Require Import Ascii String.
From stdpp Require Import base option list strings gmap.

Local Open Scope string_scope.
Local Open Scope Z_scope.
Local Open Scope list_scope.

(** ** Strings, formats and the messages of submit.go *)

Definition LF : string := String (Ascii.ascii_of_nat 10) EmptyString.
Definition TAB : string := String (Ascii.ascii_of_nat 9) EmptyString.

(** [strings.Join]. *)
Fixpoint Join (l : list string) (sep : string) : string :=
  match l with
  | [] => ""
  | [x] => x
  | x :: l' => x +:+ sep +:+ Join l' sep
  end.

(** What [fmt] appends when operands are left over after the format. *)
Definition extra (a : list string) : string :=
  match a with
  | [] => ""
  | _ => "%!(EXTRA " +:+ Join ((fun x => "string=" +:+ x) <$> a) ", " +:+ ")"
  end.

(** [fmt.Sprintf] on string operands, for the two verbs the formats of
    this file use: [%s] takes the next operand, [%%] is a percent sign.
    A verb without an operand prints [%!s(MISSING)]. *)
Fixpoint Sprintf (format : string) (a : list string) : string :=
  match format with
  | EmptyString => extra a
  | String "%"%char (String "s"%char rest) =>
      match a with
      | x :: a' => x +:+ Sprintf rest a'
      | [] => "%!s(MISSING)" +:+ Sprintf rest []
      end
  | String "%"%char (String "%"%char rest) => String "%"%char (Sprintf rest a)
  | String c rest => String c (Sprintf rest a)
  end.

(** submit.go, lines 72-78. *)
Definition msgFileNotFound : string :=
  LF +:+ LF +:+
  "    The file you are trying to submit cannot be found." +:+ LF +:+ LF +:+
  "        %s" +:+ LF +:+ LF +:+
  TAB +:+ TAB.

(** submit.go, lines 84-94. *)
Definition msgDirectory : string :=
  LF +:+ LF +:+
  "    You are submitting a directory, which is not currently supported." +:+ LF +:+ LF +:+
  "        %s" +:+ LF +:+ LF +:+
  "    Please change into the directory and provide the path to the file(s) you wish to submit" +:+ LF +:+ LF +:+
  "        %s submit FILENAME" +:+ LF +:+ LF +:+
  TAB +:+ TAB +:+ TAB.

(** submit.go, lines 120-125. *)
Definition msgDifferentSolutions : string :=
  LF +:+ LF +:+
  "    You are submitting files belonging to different solutions." +:+ LF +:+
  "    Please submit the files for one solution at a time." +:+ LF +:+ LF +:+
  TAB +:+ TAB.

(** submit.go, lines 140-147. *)
Definition msgNotRequester : string :=
  LF +:+ LF +:+
  "    The solution you are submitting is not connected to your account." +:+ LF +:+
  "    Please re-download the exercise to make sure it has the data it needs." +:+ LF +:+ LF +:+
  "        %s download --exercise=%s --track=%s" +:+ LF +:+ LF +:+
  TAB +:+ TAB.

(** submit.go, lines 160-165. *)
Definition msgSkippingEmpty : string :=
  LF +:+ LF +:+
  "    WARNING: Skipping empty file" +:+ LF +:+
  "             %s" +:+ LF +:+ LF +:+
  TAB +:+ TAB.

(** submit.go, lines 177-181. *)
Definition msgNoFiles : string :=
  LF +:+ LF +:+
  "    No files found to submit." +:+ LF +:+ LF +:+
  TAB +:+ TAB.

(** submit.go, lines 233-237. *)
Definition msgSubmitted : string :=
  LF +:+ LF +:+
  "    Your solution has been submitted successfully." +:+ LF +:+
  "    %s" +:+ LF.

(** submit.go, lines 238 and 240. *)
Definition suffixView : string := "View it at:" +:+ LF +:+ LF +:+ "    ".
Definition suffixAutoApprove : string :=
  "You can complete the exercise and unlock the next core exercise at:" +:+ LF.

(** The format of line 243. *)
Definition fmtURL : string := "    %s" +:+ LF +:+ LF.

(** ** Errors *)

Inductive Errno := ENOENT | EISDIR | EACCES | EIO.

(** A Go [error] value: one made here by [errors.New] or [fmt.Errorf],
    an [*os.PathError], the workspace's missing-metadata sentinel, or
    any other failure of a collaborator. *)
Inductive error :=
| errorString (s : string)
| PathError (op path : string) (errno : Errno)
| ErrMissingMetadata
| otherError (s : string).

Definition errorsNew (msg : string) : error := errorString msg.
Definition Errorf (format : string) (a : list string) : error :=
  errorString (Sprintf format a).

(** [os.IsNotExist]. *)
Definition IsNotExist (e : error) : bool :=
  match e with PathError _ _ ENOENT => true | _ => false end.

(** [workspace.IsMissingMetadata]. *)
Definition IsMissingMetadata (e : error) : bool :=
  match e with ErrMissingMetadata => true | _ => false end.

Inductive result (A : Type) :=
| Ok (a : A)
| Err (e : error).
Arguments Ok {A} a.
Arguments Err {A} e.

(** ** Data *)

Definition bytes := list Byte.byte.

Inductive FileMode := ModeRegular | ModeDir | ModeSymlink | ModeOther.

(** [os.FileInfo], the two fields [runSubmit] reads. *)
Record FileInfo := { Mode : FileMode; Size : Z }.

Definition IsDir (info : FileInfo) : bool :=
  match Mode info with ModeDir => true | _ => false end.

(** [workspace.Workspace]. *)
Record Workspace := { Dir : string }.

(** [workspace.Solution], the fields [runSubmit] reads. *)
Record Solution := {
  ID : string;
  Exercise : string;
  Track : string;
  IsRequester : bool;
  AutoApprove : bool;
  URL : string
}.

(** Modelled from the spec: [workspace.Document] is declared outside
    submit.go; a document has a logical path, relative to the exercise
    root ([doc.Path()]), and an absolute file path ([doc.Filepath()]). *)
Record Document := { Path : string; Filepath : string }.

(** [workspace.Exercise]: [exercise.Filepath()] and the [Documents]
    slice that [runSubmit] fills. *)
Record ExerciseT := { ExFilepath : string; Documents : list Document }.

(** One part of a multipart body, as [CreateFormFile] declares it and
    [io.Copy] fills it. *)
Record Part := { FormName : string; FileName : string; Content : bytes }.

(** [multipart.Writer] over its buffer: the boundary chosen when the
    writer is made, the parts written so far, whether [Close] has
    written the final boundary.  The buffer is the request body. *)
Record Writer := { Boundary : string; Parts : list Part; Closed : bool }.

Definition NewWriter (boundary : string) : Writer :=
  {| Boundary := boundary; Parts := []; Closed := false |}.

(** [writer.CreateFormFile]: starts a new part.  Writing to a
    [bytes.Buffer] does not fail, the error branch of the caller is
    kept all the same. *)
Definition CreateFormFile (wr : Writer) (fieldname filename : string) : result Writer :=
  Ok {| Boundary := Boundary wr;
        Parts := Parts wr ++ [{| FormName := fieldname; FileName := filename; Content := [] |}];
        Closed := Closed wr |}.

(** Writing through the [io.Writer] of the current (last) part. *)
Definition writeLast (ps : list Part) (data : bytes) : list Part :=
  match reverse ps with
  | [] => []
  | p :: before =>
      reverse before ++
      [{| FormName := FormName p; FileName := FileName p; Content := Content p ++ data |}]
  end.

Definition WritePart (wr : Writer) (data : bytes) : Writer :=
  {| Boundary := Boundary wr; Parts := writeLast (Parts wr) data; Closed := Closed wr |}.

(** [writer.Close]. *)
Definition WriterClose (wr : Writer) : result Writer :=
  Ok {| Boundary := Boundary wr; Parts := Parts wr; Closed := true |}.

(** [writer.FormDataContentType]; the boundaries [multipart.NewWriter]
    draws are hexadecimal and need no quoting. *)
Definition FormDataContentType (wr : Writer) : string :=
  "multipart/form-data; boundary=" +:+ Boundary wr.

(** [api.Client]. *)
Record Client := { Token : string; APIBaseURL : string }.

(** [http.Request]: method, URL, header and body. *)
Record Request := {
  Method : string;
  ReqURL : string;
  Header : gmap string string;
  Body : Writer
}.

(** [req.Header.Set]. *)
Definition HeaderSet (req : Request) (k v : string) : Request :=
  {| Method := Method req; ReqURL := ReqURL req;
     Header := <[k := v]> (Header req); Body := Body req |}.

(** [http.Response]: what reading its body to the end gives. *)
Record Response := { RespBody : result bytes }.

(** The two output streams of the package, [Out] and [Err] ([Err_]
    here, [Err] being the failed [result]). *)
Inductive stream := Out | Err_.

(** ** Calls, traces and the run monad *)

(** One constructor per call [runSubmit] makes to a collaborator, with
    the operands of the call.  The getters ([GetString], [Filepath],
    [Path], [NewExerciseFromDir], [FormDataContentType]) compute on
    values already in memory and are not logged. *)
Inductive event :=
| EvAbs (arg : string)
| EvLstat (path : string)
| EvEvalSymlinks (path : string)
| EvWorkspaceNew (dir : string)
| EvSolutionDir (path : string)
| EvNewSolution (dir : string)
| EvStat (path : string)
| EvNewDocument (root path : string)
| EvNewWriter
| EvOpen (path : string)
| EvCreateFormFile (fieldname filename : string)
| EvCopy (path : string)
| EvWriterClose
| EvNewClient (token baseURL : string)
| EvNewRequest (method url : string) (body : Writer)
| EvHeaderSet (key value : string)
| EvDo (req : Request)
| EvReadFrom
| EvFprintf (s : stream) (text : string).

(** A run is the trace of its calls and how it ended. *)
Definition M (A : Type) : Type := (list event * result A)%type.

Definition ret {A} (a : A) : M A := ([], Ok a).
Definition fail {A} (e : error) : M A := ([], Err e).

(** [return err] is the only thing the function does with an error: the
    calls of [k] are made only when [m] gave a value. *)
Definition bind {A B} (m : M A) (k : A -> M B) : M B :=
  match m with
  | (t, Ok a) => let '(t', r) := k a in (t ++ t', r)
  | (t, Err e) => (t, Err e)
  end.

Notation "x <- c1 ;; c2" := (bind c1 (fun x => c2))
  (at level 100, c1 at next level, right associativity).

(** A call to a collaborator: logged, then its outcome. *)
Definition call {A} (e : event) (r : result A) : M A := ([e], r).

(** Replacing the error of a failed step, as the [if os.IsNotExist(err)]
    and [if workspace.IsMissingMetadata(err)] blocks do. *)
Definition mapErr {A} (f : error -> error) (m : M A) : M A :=
  match m with
  | (t, Err e) => (t, Err (f e))
  | (t, Ok a) => (t, Ok a)
  end.

Definition trace {A} (m : M A) : list event := fst m.
Definition outcome {A} (m : M A) : result A := snd m.

(** [fmt.Fprintf] to one of the two streams. *)
Definition Fprintf (s : stream) (format : string) (a : list string) : M unit :=
  call (EvFprintf s (Sprintf format a)) (Ok tt).

(** What a stream has received in a trace, in order. *)
Definition written (s : stream) (t : list event) : list string :=
  omap (fun e => match e, s with
                 | EvFprintf Out text, Out => Some text
                 | EvFprintf Err_ text, Err_ => Some text
                 | _, _ => None
                 end) t.

(** Calls that reach the network. *)
Definition is_network (e : event) : bool :=
  match e with EvDo _ => true | _ => false end.

(** Calls that build the request: the multipart body, the client, the
    request and its header. *)
Definition is_packaging (e : event) : bool :=
  match e with
  | EvNewWriter | EvOpen _ | EvCreateFormFile _ _ | EvCopy _ | EvWriterClose
  | EvNewClient _ _ | EvNewRequest _ _ _ | EvHeaderSet _ _ => true
  | _ => false
  end.

(** The calls of the document collection loop: the stat of a file, the
    warning for an empty one, the document of another. *)
Definition is_collection (e : event) : bool :=
  match e with
  | EvStat _ | EvNewDocument _ _ | EvFprintf Err_ _ => true
  | _ => false
  end.

(** The calls of the first loop. *)
Definition is_resolution (e : event) : bool :=
  match e with EvAbs _ | EvLstat _ | EvEvalSymlinks _ => true | _ => false end.

(** The call of the second loop. *)
Definition is_solutionDir (e : event) : bool :=
  match e with EvSolutionDir _ => true | _ => false end.

(** The calls that write the multipart body. *)
Definition is_writing (e : event) : bool :=
  match e with
  | EvNewWriter | EvOpen _ | EvCreateFormFile _ _ | EvCopy _ | EvWriterClose => true
  | _ => false
  end.

(** The calls up to line 138: resolving the arguments, opening the
    workspace, finding and loading the solution. *)
Definition is_location (e : event) : bool :=
  match e with
  | EvAbs _ | EvLstat _ | EvEvalSymlinks _ | EvWorkspaceNew _ | EvSolutionDir _
  | EvNewSolution _ => true
  | _ => false
  end.

(** Neither building the request nor sending it. *)
Definition before_packaging (e : event) : bool :=
  negb (is_packaging e) && negb (is_network e).

(** Not collecting documents either. *)
Definition before_collection (e : event) : bool :=
  negb (is_collection e) && before_packaging e.

(** ** The collaborators *)

(** [viper.Viper] as [runSubmit] reads it: keys to strings, and
    [GetString] gives the empty string for a key that is not set. *)
Definition GetString (v : gmap string string) (key : string) : string :=
  default "" (v !! key).

(** [config.Config], the field [runSubmit] reads. *)
Record Config := { UserViperConfig : gmap string string }.

(** The names of package [cmd] and [config] that submit.go uses and
    that are declared in other files. *)
Record CmdPkg := {
  BinaryName : string;
  msgWelcomePleaseConfigure : string;
  msgRerunConfigure : string;
  msgMissingMetadata : string;
  config_SettingsURL : string -> string
}.

(** The operating system, the workspace package and the API client, as
    the functions [runSubmit] calls.  A run reads the file system and
    does not change it, so each is a function of its operands. *)
Record World := {
  filepath_Abs : string -> result string;
  os_Lstat : string -> result FileInfo;
  filepath_EvalSymlinks : string -> result string;
  workspace_New : string -> result Workspace;
  ws_SolutionDir : Workspace -> string -> result string;
  workspace_NewExerciseFromDir : string -> ExerciseT;
  workspace_NewSolution : string -> result Solution;
  os_Stat : string -> result FileInfo;
  workspace_NewDocument : string -> string -> result Document;
  (** the error of [os.Open], if any *)
  os_OpenErr : string -> option error;
  (** what [io.Copy] reads from the file opened at a path *)
  io_Copy : string -> result bytes;
  (** the boundary [multipart.NewWriter] draws *)
  randomBoundary : string;
  api_NewClient : string -> string -> result Client;
  (** whether [client.NewRequest] fails, and the header it starts with *)
  client_NewRequestErr : Client -> string -> string -> option error;
  client_Header : Client -> gmap string string;
  client_Do : Client -> Request -> result Response
}.

(** Modelled from the spec: [client.NewRequest] is declared in package
    api, a black box that makes requests; a request it makes carries
    the method, the URL and the body it was given. *)
Definition client_NewRequest (w : World) (c : Client) (method url : string)
    (body : Writer) : result Request :=
  match client_NewRequestErr w c method url with
  | Some e => Err e
  | None => Ok {| Method := method; ReqURL := url;
                  Header := client_Header w c; Body := body |}
  end.

(** [*os.File]: the name it was opened with. *)
Record File := { Name : string }.

(** [os.Open]. *)
Definition os_Open (w : World) (name : string) : result File :=
  match os_OpenErr w name with
  | Some e => Err e
  | None => Ok {| Name := name |}
  end.

(** ** runSubmit *)

Section RunSubmit.

Context (pkg : CmdPkg) (w : World).

(** Lines 63-102, the body of the first loop: the argument is made
    absolute, must exist, must not be a directory, and its symlinks are
    resolved. *)
Definition resolveArg (arg : string) : M string :=
  arg <- call (EvAbs arg) (filepath_Abs w arg) ;;
  info <- mapErr (fun err => if IsNotExist err
                             then Errorf msgFileNotFound [arg] else err)
                 (call (EvLstat arg) (os_Lstat w arg)) ;;
  if IsDir info
  then fail (Errorf msgDirectory [arg; BinaryName pkg])
  else call (EvEvalSymlinks arg) (filepath_EvalSymlinks w arg).

(** Lines 62-103: [args[i] = src] for every argument in turn. *)
Fixpoint resolveArgs (args : list string) : M (list string) :=
  match args with
  | [] => ret []
  | arg :: rest =>
      src <- resolveArg arg ;;
      rest <- resolveArgs rest ;;
      ret (src :: rest)
  end.

(** Lines 110-129: the solution directory of every argument; the
    variable [exerciseDir] is the state of the loop. *)
Fixpoint solutionDirs (ws : Workspace) (exerciseDir : string)
    (args : list string) : M string :=
  match args with
  | [] => ret exerciseDir
  | arg :: rest =>
      dir <- mapErr (fun err => if IsMissingMetadata err
                                then errorsNew (msgMissingMetadata pkg) else err)
                    (call (EvSolutionDir arg) (ws_SolutionDir w ws arg)) ;;
      if negb (String.eqb exerciseDir "") && negb (String.eqb dir exerciseDir)
      then fail (errorsNew msgDifferentSolutions)
      else solutionDirs ws dir rest
  end.

(** Lines 152-174: the documents of the files that are not empty, in
    [exercise.Documents]. *)
Fixpoint collectDocuments (exercise : ExerciseT) (args : list string) : M ExerciseT :=
  match args with
  | [] => ret exercise
  | file :: rest =>
      info <- call (EvStat file) (os_Stat w file) ;;
      if Size info =? 0
      then
        _ <- Fprintf Err_ msgSkippingEmpty [file] ;;
        collectDocuments exercise rest
      else
        doc <- call (EvNewDocument (ExFilepath exercise) file)
                    (workspace_NewDocument w (ExFilepath exercise) file) ;;
        collectDocuments {| ExFilepath := ExFilepath exercise;
                            Documents := Documents exercise ++ [doc] |} rest
  end.

(** Lines 188-203: one form file per document. *)
Fixpoint writeDocuments (writer : Writer) (docs : list Document) : M Writer :=
  match docs with
  | [] => ret writer
  | doc :: rest =>
      file <- call (EvOpen (Filepath doc)) (os_Open w (Filepath doc)) ;;
      writer <- call (EvCreateFormFile "files[]" (Path doc))
                     (CreateFormFile writer "files[]" (Path doc)) ;;
      data <- call (EvCopy (Name file)) (io_Copy w (Name file)) ;;
      writeDocuments (WritePart writer data) rest
  end.

(** Lines 185-208: the multipart body of the documents.  The buffer
    [body] and the [writer] over it are one value here. *)
Definition packageDocuments (docs : list Document) : M Writer :=
  writer <- call EvNewWriter (Ok (NewWriter (randomBoundary w))) ;;
  writer <- writeDocuments writer docs ;;
  call EvWriterClose (WriterClose writer).

(** Line 214: the URL of the solution on the API. *)
Definition submitURL (usrCfg : gmap string string) (solution : Solution) : string :=
  Sprintf "%s/solutions/%s" [GetString usrCfg "apibaseurl"; ID solution].

(** Lines 210-244: the request, the response and the two messages. *)
Definition transmit (usrCfg : gmap string string) (solution : Solution)
    (body : Writer) : M unit :=
  client <- call (EvNewClient (GetString usrCfg "token") (GetString usrCfg "apibaseurl"))
                 (api_NewClient w (GetString usrCfg "token") (GetString usrCfg "apibaseurl")) ;;
  let url := submitURL usrCfg solution in
  req <- call (EvNewRequest "PATCH" url body)
              (client_NewRequest w client "PATCH" url body) ;;
  req <- call (EvHeaderSet "Content-Type" (FormDataContentType body))
              (Ok (HeaderSet req "Content-Type" (FormDataContentType body))) ;;
  resp <- call (EvDo req) (client_Do w client req) ;;
  _ <- call EvReadFrom (RespBody resp) ;;
  let suffix := if AutoApprove solution then suffixAutoApprove else suffixView in
  _ <- Fprintf Err_ msgSubmitted [suffix] ;;
  Fprintf Out fmtURL [URL solution].

(** [runSubmit], lines 51-245.  [flags] is a parameter the body never
    reads. *)
Definition runSubmit (cfg : Config) (flags : gmap string string)
    (args : list string) : M unit :=
  let usrCfg := UserViperConfig cfg in
  if String.eqb (GetString usrCfg "token") ""
  then fail (Errorf (msgWelcomePleaseConfigure pkg)
               [config_SettingsURL pkg (GetString usrCfg "apibaseurl"); BinaryName pkg])
  else if String.eqb (GetString usrCfg "workspace") ""
  then fail (Errorf (msgRerunConfigure pkg) [BinaryName pkg])
  else
    args <- resolveArgs args ;;
    ws <- call (EvWorkspaceNew (GetString usrCfg "workspace"))
               (workspace_New w (GetString usrCfg "workspace")) ;;
    exerciseDir <- solutionDirs ws "" args ;;
    let exercise := workspace_NewExerciseFromDir w exerciseDir in
    solution <- call (EvNewSolution exerciseDir) (workspace_NewSolution w exerciseDir) ;;
    if negb (IsRequester solution)
    then fail (Errorf msgNotRequester
                 [BinaryName pkg; Exercise solution; Track solution])
    else
      exercise <- collectDocuments {| ExFilepath := ExFilepath exercise;
                                      Documents := [] |} args ;;
      if Nat.eqb (length (Documents exercise)) 0
      then fail (errorsNew msgNoFiles)
      else
        body <- packageDocuments (Documents exercise) ;;
        transmit usrCfg solution body.

End RunSubmit.

(** ** How far a run gets *)

Section Progress.

Context (pkg : CmdPkg) (w : World).

Abbreviation token cfg := (GetString (UserViperConfig cfg) "token").
Abbreviation workspace cfg := (GetString (UserViperConfig cfg) "workspace").

(** The exercise that line 131 makes and line 151 empties. *)
Definition exerciseAt (dir : string) : ExerciseT :=
  {| ExFilepath := ExFilepath (workspace_NewExerciseFromDir w dir); Documents := [] |}.

(** The run passes the two configuration checks, resolves its
    arguments to [args'] and finds the workspace [ws]: it is at line
    110. *)
Record resolved (cfg : Config) (args args' : list string) (ws : Workspace) : Prop := {
  res_token : String.eqb (token cfg) "" = false;
  res_workspace : String.eqb (workspace cfg) "" = false;
  res_args : outcome (resolveArgs pkg w args) = Ok args';
  res_ws : workspace_New w (workspace cfg) = Ok ws
}.

(** The run finds the one solution directory [dir] of its arguments
    and loads its [solution]: it is at line 138. *)
Record located (cfg : Config) (args args' : list string) (ws : Workspace)
    (dir : string) (solution : Solution) : Prop := {
  loc_resolved : resolved cfg args args' ws;
  loc_dir : outcome (solutionDirs pkg w ws "" args') = Ok dir;
  loc_solution : workspace_NewSolution w dir = Ok solution
}.

(** The run collects the documents of its arguments in [exercise]: it
    is at line 176. *)
Record collected (cfg : Config) (args args' : list string) (ws : Workspace)
    (dir : string) (solution : Solution) (exercise : ExerciseT) : Prop := {
  col_located : located cfg args args' ws dir solution;
  col_requester : IsRequester solution = true;
  col_exercise : outcome (collectDocuments w (exerciseAt dir) args') = Ok exercise
}.

(** Lines 138-244, what is left to do at line 138. *)
Definition fromSolution (cfg : Config) (args' : list string) (dir : string)
    (solution : Solution) : M unit :=
  if negb (IsRequester solution)
  then fail (Errorf msgNotRequester
               [BinaryName pkg; Exercise solution; Track solution])
  else
    exercise <- collectDocuments w (exerciseAt dir) args' ;;
    if Nat.eqb (length (Documents exercise)) 0
    then fail (errorsNew msgNoFiles)
    else
      body <- packageDocuments w (Documents exercise) ;;
      transmit w (UserViperConfig cfg) solution body.

(** Lines 105-244, what is left to do at line 105. *)
Definition fromWorkspace (cfg : Config) (args' : list string) : M unit :=
  ws <- call (EvWorkspaceNew (workspace cfg)) (workspace_New w (workspace cfg)) ;;
  exerciseDir <- solutionDirs pkg w ws "" args' ;;
  solution <- call (EvNewSolution exerciseDir) (workspace_NewSolution w exerciseDir) ;;
  fromSolution cfg args' exerciseDir solution.

(** The calls of a run up to line 138. *)
Definition locatedTrace (cfg : Config) (args args' : list string) (ws : Workspace)
    (dir : string) : list event :=
  trace (resolveArgs pkg w args) ++ EvWorkspaceNew (workspace cfg) ::
  trace (solutionDirs pkg w ws "" args') ++ [EvNewSolution dir].

(** The calls of a run up to line 176. *)
Definition collectedTrace (cfg : Config) (args args' : list string) (ws : Workspace)
    (dir : string) : list event :=
  locatedTrace cfg args args' ws dir ++ trace (collectDocuments w (exerciseAt dir) args').

(** A part as [CreateFormFile] and [io.Copy] make it from a document. *)
Definition part_of (doc : Document) (part : Part) : Prop :=
  FormName part = "files[]" /\ FileName part = Path doc /\
  io_Copy w (Filepath doc) = Ok (Content part).

(** The request that leaves [transmit]. *)
Definition requestOf (usrCfg : gmap string string) (solution : Solution)
    (client : Client) (body : Writer) : Request :=
  HeaderSet {| Method := "PATCH"; ReqURL := submitURL usrCfg solution;
               Header := client_Header w client; Body := body |}
            "Content-Type" (FormDataContentType body).

(** The test of line 158 on a resolved argument. *)
Definition nonEmpty (file : string) : bool :=
  match os_Stat w file with
  | Ok info => negb (Size info =? 0)
  | Err _ => false
  end.

(** The same test on an argument as it was given. *)
Definition nonEmptyArg (arg : string) : bool :=
  match outcome (resolveArg pkg w arg) with
  | Ok file => nonEmpty file
  | Err _ => false
  end.

(** The part a resolved argument gives in the exercise at [root]. *)
Definition part_of_file (root file : string) (part : Part) : Prop :=
  exists doc, workspace_NewDocument w root file = Ok doc /\ part_of doc part.

End Progress.

(** ** What a trace shows *)

(** The files a trace opens, in order. *)
Definition opened (t : list event) : list string :=
  omap (fun e => match e with EvOpen path => Some path | _ => None end) t.

(** The calls of a run that ends before line 185. *)
Definition is_early (e : event) : bool := is_location e || is_collection e.

(** The warning of lines 160-166 for a file. *)
Definition warning (file : string) : string := Sprintf msgSkippingEmpty [file].

(** The form files a trace creates, in order: field name and file
    name. *)
Definition formFiles (t : list event) : list (string * string) :=
  omap (fun e => match e with
                 | EvCreateFormFile fieldname filename => Some (fieldname, filename)
                 | _ => None
                 end) t.

(** The calls of lines 210-244. *)
Definition is_sending (e : event) : bool :=
  match e with
  | EvNewClient _ _ | EvNewRequest _ _ _ | EvHeaderSet _ _ | EvDo _ | EvReadFrom
  | EvFprintf _ _ => true
  | _ => false
  end.

(** Lines 152-244, what is left to do in the third loop when
    [exercise] holds the documents so far and [files] are still to
    come. *)
Definition fromCollection (w : World) (usrCfg : gmap string string)
    (solution : Solution) (exercise : ExerciseT) (files : list string) : M unit :=
  exercise <- collectDocuments w exercise files ;;
  if Nat.eqb (length (Documents exercise)) 0
  then fail (errorsNew msgNoFiles)
  else
    body <- packageDocuments w (Documents exercise) ;;
    transmit w usrCfg solution body.

(** ** The command *)

(** [config.NewConfig] and the configuration files of its directory,
    as [viper] reads them: [ReadInConfig] on a viper with a path, a
    name and a type gives the keys of the file or an error. *)
Record ConfigFiles := {
  config_Dir : string;
  viper_ReadInConfig : string -> string -> string -> result (gmap string string)
}.

(** [viper.New], [AddConfigPath], [SetConfigName], [SetConfigType] and
    [ReadInConfig] with its error dropped, lines 32-37 and 40-45: a
    viper that could not be read has no key. *)
Definition readConfig (files : ConfigFiles) (name : string) : gmap string string :=
  match viper_ReadInConfig files (config_Dir files) name "json" with
  | Ok keys => keys
  | Err _ => ∅
  end.

(** [submitCmd.RunE], lines 29-48.  The viper [v] of the "cli" file is
    read and not used. *)
Definition submitCmd_RunE (pkg : CmdPkg) (w : World) (files : ConfigFiles)
    (flags : gmap string string) (args : list string) : M unit :=
  let usrCfg := readConfig files "user" in
  let cfg := {| UserViperConfig := usrCfg |} in
  let v := readConfig files "cli" in
  runSubmit pkg w cfg flags args.

(** ** Configuration precedence *)

Module ConfigResolver.

(** Modelled from the spec: the configure command (cmd/configure.go)
    and package config are not among the sources, only the test of the
    command is.  The effective configuration is an explicit merge of
    three ordered sources, the flags, the persisted map and the
    defaults map: a flag value comes first, a persisted value second,
    and the built-in default, which exists for the API base URL alone,
    last. *)
Definition defaults : gmap string string :=
  {[ "apibaseurl" := "https://api.exercism.com/v1" ]}.

Definition resolve (flags persisted : gmap string string) : gmap string string :=
  flags ∪ persisted ∪ defaults.

(** The [EffectiveConfig] of the data model. *)
Record EffectiveConfig := {
  token : string;
  workspaceRoot : string;
  apiBaseURL : string
}.

Definition effective (flags persisted : gmap string string) : EffectiveConfig :=
  {| token := GetString (resolve flags persisted) "token";
     workspaceRoot := GetString (resolve flags persisted) "workspace";
     apiBaseURL := GetString (resolve flags persisted) "apibaseurl" |}.

(** The flags of a command line of [TestConfigure]: [--token],
    [--workspace] and [--api], each followed by its value; the program
    name and the subcommand are not flags. *)
Fixpoint parseFlags (args : list string) : gmap string string :=
  match args with
  | [] => ∅
  | flag :: rest =>
      match rest with
      | value :: rest' =>
          if String.eqb flag "--token" then <["token" := value]> (parseFlags rest')
          else if String.eqb flag "--workspace" then <["workspace" := value]> (parseFlags rest')
          else if String.eqb flag "--api" then <["apibaseurl" := value]> (parseFlags rest')
          else parseFlags rest
      | [] => ∅
      end
  end.

(** [config.UserConfig] and [config.APIConfig] as the test uses them. *)
Record UserConfig := { Token : string; Workspace : string }.
Record APIConfig := { BaseURL : string }.

(** One row of the table of [TestConfigure], lines 31-63. *)
Record row := {
  args : list string;
  existingUsrCfg : option UserConfig;
  expectedUsrCfg : UserConfig;
  existingAPICfg : option APIConfig;
  expectedAPICfg : APIConfig
}.

Definition tests : list row :=
  [ {| args := ["fakeapp"; "configure"; "--token"; "a"; "--workspace"; "/a";
                "--api"; "http://example.com"];
       existingUsrCfg := None;
       expectedUsrCfg := {| Token := "a"; Workspace := "/a" |};
       existingAPICfg := None;
       expectedAPICfg := {| BaseURL := "http://example.com" |} |};
    {| args := ["fakeapp"; "configure"; "--token"; "b"; "--workspace"; "/b";
                "--api"; "http://example.com/v2"];
       existingUsrCfg := Some {| Token := "token-b"; Workspace := "/workspace-b" |};
       expectedUsrCfg := {| Token := "b"; Workspace := "/b" |};
       existingAPICfg := Some {| BaseURL := "http://example.com/v1" |};
       expectedAPICfg := {| BaseURL := "http://example.com/v2" |} |};
    {| args := ["fakeapp"; "configure"; "--token"; "c"];
       existingUsrCfg := Some {| Token := "token-c"; Workspace := "/workspace-c" |};
       expectedUsrCfg := {| Token := "c"; Workspace := "/workspace-c" |};
       existingAPICfg := Some {| BaseURL := "" |};
       expectedAPICfg := {| BaseURL := "https://api.exercism.com/v1" |} |} ].

(** What the loop of the test persists before it runs the command,
    lines 74-81: the user configuration of the row when it has one.
    The existing API configuration of a row is never written. *)
Definition persistedOf (r : row) : gmap string string :=
  match existingUsrCfg r with
  | Some u => {[ "token" := Token u; "workspace" := Workspace u ]}
  | None => ∅
  end.

(** The assertions of lines 98, 99 and 104 on one row. *)
Definition passes (r : row) : bool :=
  let c := effective (parseFlags (args r)) (persistedOf r) in
  String.eqb (token c) (Token (expectedUsrCfg r)) &&
  String.eqb (workspaceRoot c) (Workspace (expectedUsrCfg r)) &&
  String.eqb (apiBaseURL c) (BaseURL (expectedAPICfg r)).

End ConfigResolver.

(** ** A small workspace to run the command on

    A file system given as a finite map from absolute paths to nodes,
    and the collaborators of [runSubmit] read off it.  It is the input
    of the examples below; the theorems hold for every [World]. *)
Module Fixture.

Inductive node :=
| RegularFile (content : bytes)
| Directory
| Symlink (target : string).

Definition filesystem := gmap string node.

Definition info_of (n : node) : FileInfo :=
  match n with
  | RegularFile content => {| Mode := ModeRegular; Size := Z.of_nat (length content) |}
  | Directory => {| Mode := ModeDir; Size := 4096 |}
  | Symlink target => {| Mode := ModeSymlink; Size := Z.of_nat (String.length target) |}
  end.

(** [lstat(2)]: the node itself, a symlink is not followed. *)
Definition lstat (fs : filesystem) (path : string) : result FileInfo :=
  match fs !! path with
  | Some n => Ok (info_of n)
  | None => Err (PathError "lstat" path ENOENT)
  end.

(** Following the symlink a path names, to the node at its end. *)
Fixpoint follow (fuel : nat) (fs : filesystem) (path : string) : result string :=
  match fs !! path with
  | None => Err (PathError "lstat" path ENOENT)
  | Some (Symlink target) =>
      match fuel with
      | O => Err (otherError "EvalSymlinks: too many links")
      | S fuel' => follow fuel' fs target
      end
  | Some _ => Ok path
  end.

Definition evalSymlinks (fs : filesystem) (path : string) : result string :=
  follow 255 fs path.

(** [stat(2)]: the node a path leads to. *)
Definition stat (fs : filesystem) (path : string) : result FileInfo :=
  match evalSymlinks fs path with
  | Ok target => lstat fs target
  | Err _ => Err (PathError "stat" path ENOENT)
  end.

Definition openErr (fs : filesystem) (path : string) : option error :=
  match evalSymlinks fs path with
  | Ok _ => None
  | Err _ => Some (PathError "open" path ENOENT)
  end.

(** Reading an open file to its end; a directory cannot be read. *)
Definition readAll (fs : filesystem) (path : string) : result bytes :=
  match evalSymlinks fs path with
  | Ok target =>
      match fs !! target with
      | Some (RegularFile content) => Ok content
      | _ => Err (PathError "read" path EISDIR)
      end
  | Err _ => Err (PathError "read" path EIO)
  end.

(** [filepath.Abs] in a working directory, for paths already clean. *)
Definition abs (cwd arg : string) : result string :=
  if String.prefix "/" arg then Ok arg else Ok (cwd +:+ "/" +:+ arg).

(** The last slash of a path splits it in directory and base name. *)
Fixpoint splitLast (s : string) : option (string * string) :=
  match s with
  | EmptyString => None
  | String c r =>
      match splitLast r with
      | Some (d, b) => Some (String c d, b)
      | None => if Ascii.eqb c "/" then Some (EmptyString, r) else None
      end
  end.

(** [filepath.Dir], for clean paths. *)
Definition dir (path : string) : string :=
  match splitLast path with
  | Some (EmptyString, _) => "/"
  | Some (d, _) => d
  | None => "."
  end.

(** [ws.SolutionDir]: the nearest directory at or above the path that
    holds a solution file, looked for below the workspace root. *)
Fixpoint solutionDirFrom (fuel : nat) (fs : filesystem) (root path : string)
    : result string :=
  if String.eqb path root then Err ErrMissingMetadata
  else match fs !! path with
       | None => Err (PathError "lstat" path ENOENT)
       | Some _ =>
           match fs !! (path +:+ "/.solution.json") with
           | Some _ => Ok path
           | None =>
               match fuel with
               | O => Err ErrMissingMetadata
               | S fuel' => solutionDirFrom fuel' fs root (dir path)
               end
           end
       end.

Definition solutionDir (fs : filesystem) (ws : Workspace) (path : string)
    : result string :=
  if String.prefix (Dir ws) path
  then solutionDirFrom (String.length path) fs (Dir ws) path
  else Err (otherError "not in workspace").

(** [workspace.NewDocument]: the path of the file below the root. *)
Definition newDocument (root path : string) : result Document :=
  if String.prefix (root +:+ "/") path
  then Ok {| Path := String.substring (String.length root + 1)
                       (String.length path - (String.length root + 1)) path;
             Filepath := path |}
  else Err (otherError "Rel: cannot make the path relative to the root").

Definition newSolution (solutions : gmap string Solution) (d : string)
    : result Solution :=
  match solutions !! d with
  | Some s => Ok s
  | None => Err (PathError "open" (d +:+ "/.solution.json") ENOENT)
  end.

(** The world over a file system, the solutions its metadata files
    describe and a server that answers every request. *)
Definition world (cwd : string) (fs : filesystem)
    (solutions : gmap string Solution) : World :=
  {| filepath_Abs := abs cwd;
     os_Lstat := lstat fs;
     filepath_EvalSymlinks := evalSymlinks fs;
     workspace_New := fun d => Ok {| Dir := d |};
     ws_SolutionDir := solutionDir fs;
     workspace_NewExerciseFromDir := fun d => {| ExFilepath := d; Documents := [] |};
     workspace_NewSolution := newSolution solutions;
     os_Stat := stat fs;
     workspace_NewDocument := newDocument;
     os_OpenErr := openErr fs;
     io_Copy := readAll fs;
     randomBoundary := "5f3d8a0c9e";
     api_NewClient := fun token url => Ok {| Token := token; APIBaseURL := url |};
     client_NewRequestErr := fun _ _ _ => None;
     client_Header := fun c => {[ "Authorization" := "Bearer " +:+ Token c ]};
     client_Do := fun _ _ => Ok {| RespBody := Ok [] |} |}.

Definition pkg : CmdPkg :=
  {| BinaryName := "exercism";
     msgWelcomePleaseConfigure := "Welcome to Exercism! Visit %s, then run %s configure --token=YOUR_TOKEN";
     msgRerunConfigure := "Please re-run the configure command: %s configure";
     msgMissingMetadata := "The exercise you are submitting has no metadata.";
     config_SettingsURL := fun api => api +:+ "/my/settings" |}.

Definition src (s : string) : bytes := list_byte_of_string s.

Definition fs : filesystem :=
  list_to_map
    [ ("/ws", Directory);
      ("/ws/go", Directory);
      ("/ws/go/hello", Directory);
      ("/ws/go/hello/.solution.json", RegularFile (src "{}"));
      ("/ws/go/hello/hello.go", RegularFile (src "package hello"));
      ("/ws/go/hello/hello_test.go", RegularFile (src "package hello_test"));
      ("/ws/go/hello/empty.go", RegularFile []);
      ("/ws/go/hello/alias.go", Symlink "/ws/go/hello/hello.go");
      ("/ws/go/hello/twin.go", Symlink "/ws/go/hello/hello.go");
      ("/ws/go/hello/sub", Directory);
      ("/ws/go/hello/link", Symlink "/ws/go/hello/sub");
      ("/ws/go/leap", Directory);
      ("/ws/go/leap/.solution.json", RegularFile (src "{}"));
      ("/ws/go/leap/leap.go", RegularFile (src "package leap"));
      ("/ws/go/bob", Directory);
      ("/ws/go/bob/.solution.json", RegularFile (src "{}"));
      ("/ws/go/bob/bob.go", RegularFile (src "package bob")) ].

Definition hello : Solution :=
  {| ID := "1a2b3c"; Exercise := "hello"; Track := "go";
     IsRequester := true; AutoApprove := false;
     URL := "https://exercism.io/my/solutions/1a2b3c" |}.

Definition leap : Solution :=
  {| ID := "4d5e6f"; Exercise := "leap"; Track := "go";
     IsRequester := true; AutoApprove := true;
     URL := "https://exercism.io/my/solutions/4d5e6f" |}.

Definition bob : Solution :=
  {| ID := "778899"; Exercise := "bob"; Track := "go";
     IsRequester := false; AutoApprove := false;
     URL := "https://exercism.io/my/solutions/778899" |}.

Definition solutions : gmap string Solution :=
  list_to_map [ ("/ws/go/hello", hello); ("/ws/go/leap", leap); ("/ws/go/bob", bob) ].

Definition w : World := world "/ws/go/hello" fs solutions.

Definition cfg : Config :=
  {| UserViperConfig :=
       list_to_map [ ("token", "abc123"); ("workspace", "/ws");
                     ("apibaseurl", "https://api.exercism.com/v1") ] |}.

(** The values of the runs the theorems are tried on. *)
Definition ws0 : Workspace := {| Dir := "/ws" |}.

Definition helloDoc : Document :=
  {| Path := "hello.go"; Filepath := "/ws/go/hello/hello.go" |}.

Definition helloPart : Part :=
  {| FormName := "files[]"; FileName := "hello.go"; Content := src "package hello" |}.

(** [hello.go], the empty file, and a symlink to [hello.go]. *)
Definition args0 : list string := ["hello.go"; "empty.go"; "alias.go"].

Definition args0' : list string :=
  ["/ws/go/hello/hello.go"; "/ws/go/hello/empty.go"; "/ws/go/hello/hello.go"].

Definition exercise0 : ExerciseT :=
  {| ExFilepath := "/ws/go/hello"; Documents := [helloDoc; helloDoc] |}.

Definition body0 : Writer :=
  {| Boundary := "5f3d8a0c9e"; Parts := [helloPart; helloPart]; Closed := true |}.

Definition client0 : Client :=
  {| Token := "abc123"; APIBaseURL := "https://api.exercism.com/v1" |}.

Definition noToken : Config :=
  {| UserViperConfig := list_to_map [ ("workspace", "/ws") ] |}.

End Fixture.

(** ** Workspaces where something goes wrong *)
Module Faults.

Import Fixture.

(** The workspace of [Fixture] with a symlink to a file that is gone
    and a file that belongs to no solution. *)
Definition fs : filesystem :=
  <["/ws/go/hello/dangling.go" := Symlink "/ws/go/hello/gone.go"]>
    (<["/ws/notes.txt" := RegularFile (src "notes")]> Fixture.fs).

Definition w : World := world "/ws/go/hello" fs solutions.

(** A world where [os.Stat] answers as [stat] says. *)
Definition withStat (w0 : World) (stat : string -> result FileInfo) : World :=
  {| filepath_Abs := filepath_Abs w0;
     os_Lstat := os_Lstat w0;
     filepath_EvalSymlinks := filepath_EvalSymlinks w0;
     workspace_New := workspace_New w0;
     ws_SolutionDir := ws_SolutionDir w0;
     workspace_NewExerciseFromDir := workspace_NewExerciseFromDir w0;
     workspace_NewSolution := workspace_NewSolution w0;
     os_Stat := stat;
     workspace_NewDocument := workspace_NewDocument w0;
     os_OpenErr := os_OpenErr w0;
     io_Copy := io_Copy w0;
     randomBoundary := randomBoundary w0;
     api_NewClient := api_NewClient w0;
     client_NewRequestErr := client_NewRequestErr w0;
     client_Header := client_Header w0;
     client_Do := client_Do w0 |}.

(** A world where [client.Do] answers as [do] says. *)
Definition withDo (w0 : World) (do : Client -> Request -> result Response) : World :=
  {| filepath_Abs := filepath_Abs w0;
     os_Lstat := os_Lstat w0;
     filepath_EvalSymlinks := filepath_EvalSymlinks w0;
     workspace_New := workspace_New w0;
     ws_SolutionDir := ws_SolutionDir w0;
     workspace_NewExerciseFromDir := workspace_NewExerciseFromDir w0;
     workspace_NewSolution := workspace_NewSolution w0;
     os_Stat := os_Stat w0;
     workspace_NewDocument := workspace_NewDocument w0;
     os_OpenErr := os_OpenErr w0;
     io_Copy := io_Copy w0;
     randomBoundary := randomBoundary w0;
     api_NewClient := api_NewClient w0;
     client_NewRequestErr := client_NewRequestErr w0;
     client_Header := client_Header w0;
     client_Do := do |}.

(** The test file cannot be looked at any more when the third loop
    comes to it. *)
Definition denied : World :=
  withStat Fixture.w
    (fun path => if String.eqb path "/ws/go/hello/hello_test.go"
                 then Err (PathError "stat" path EACCES)
                 else os_Stat Fixture.w path).

(** The server cannot be reached. *)
Definition offline : World :=
  withDo Fixture.w (fun _ _ => Err (otherError "connection refused")).

(** A configuration without the key "apibaseurl". *)
Definition noURL : Config :=
  {| UserViperConfig := list_to_map [ ("token", "abc123"); ("workspace", "/ws") ] |}.

(** A configuration directory without files. *)
Definition noFiles : ConfigFiles :=
  {| config_Dir := "/home/user/.config/exercism";
     viper_ReadInConfig := fun d name _ =>
       Err (PathError "open" (d +:+ "/" +:+ name +:+ ".json") ENOENT) |}.

Definition subDoc : Document :=
  {| Path := "sub"; Filepath := "/ws/go/hello/sub" |}.

End Faults.

(** ** Runs step by step *)

Arguments Sprintf : simpl never.

Lemma run_eta {A} (m : M A) : m = (trace m, outcome m).
Proof. by destruct m. Qed.

Section Runs.

Context {A B : Type}.

Lemma trace_bind (m : M A) (k : A -> M B) :
  trace (bind m k) =
  trace m ++ match outcome m with Ok a => trace (k a) | Err _ => [] end.
Proof.
  destruct m as [t [a|e]]; cbn.
  - by destruct (k a).
  - by rewrite app_nil_r.
Qed.

Lemma outcome_bind (m : M A) (k : A -> M B) :
  outcome (bind m k) =
  match outcome m with Ok a => outcome (k a) | Err e => Err e end.
Proof. destruct m as [t [a|e]]; cbn; [by destruct (k a)|done]. Qed.

Lemma bind_Ok (m : M A) (k : A -> M B) a :
  outcome m = Ok a ->
  bind m k = (trace m ++ trace (k a), outcome (k a)).
Proof.
  intros H. rewrite (run_eta (bind m k)), trace_bind, outcome_bind.
  by rewrite H.
Qed.

Lemma bind_Err (m : M A) (k : A -> M B) e :
  outcome m = Err e -> bind m k = (trace m, Err e).
Proof.
  intros H. rewrite (run_eta (bind m k)), trace_bind, outcome_bind.
  by rewrite H, app_nil_r.
Qed.

Lemma bind_call_Ok (ev : event) (r : result A) (k : A -> M B) a :
  r = Ok a ->
  bind (call ev r) k = (ev :: trace (k a), outcome (k a)).
Proof. intros ->. cbn. by destruct (k a). Qed.

Lemma outcome_mapErr_Ok (f : error -> error) (m : M A) a :
  outcome (mapErr f m) = Ok a <-> outcome m = Ok a.
Proof. destruct m as [t [x|e]]; cbn; split; congruence. Qed.

Lemma trace_mapErr (f : error -> error) (m : M A) :
  trace (mapErr f m) = trace m.
Proof. by destruct m as [t [x|e]]. Qed.

End Runs.

(** A list that is split in two ways, at an element the first part of
    one of them does not have. *)
Lemma app_split_at {X} (pre post t1 t2 : list X) (x : X) :
  pre ++ post = t1 ++ x :: t2 ->
  x ∉ pre ->
  exists t1', t1 = pre ++ t1' /\ post = t1' ++ x :: t2.
Proof.
  revert t1. induction pre as [|y pre IH]; intros t1 Heq Hnot.
  - exists t1. by split.
  - destruct t1 as [|z t1]; cbn in Heq.
    + injection Heq as -> _. exfalso. apply Hnot. left.
    + injection Heq as -> Heq.
      destruct (IH t1 Heq) as (t1' & -> & ->).
      * intros Hin. apply Hnot. by right.
      * by exists t1'.
Qed.

(** ** The events of each part of the function *)

Section Phases.

Context (pkg : CmdPkg) (w : World).

Lemma resolveArg_trace arg :
  Forall (fun e => is_resolution e = true) (trace (resolveArg pkg w arg)).
Proof.
  unfold resolveArg.
  destruct (filepath_Abs w arg) as [a|e]; cbn; [|by repeat constructor].
  destruct (os_Lstat w a) as [info|e]; cbn; [|by repeat constructor].
  destruct (IsDir info); cbn; by repeat constructor.
Qed.

Lemma resolveArgs_trace args :
  Forall (fun e => is_resolution e = true) (trace (resolveArgs pkg w args)).
Proof.
  induction args as [|arg rest IH]; cbn [resolveArgs]; [constructor|].
  rewrite trace_bind. apply Forall_app. split; [apply resolveArg_trace|].
  destruct (outcome (resolveArg pkg w arg)); [|constructor].
  rewrite trace_bind. apply Forall_app. split; [done|].
  destruct (outcome (resolveArgs pkg w rest)); constructor.
Qed.

Lemma solutionDirs_trace ws cur args :
  Forall (fun e => is_solutionDir e = true) (trace (solutionDirs pkg w ws cur args)).
Proof.
  revert cur. induction args as [|arg rest IH]; intros cur; cbn [solutionDirs];
    [constructor|].
  rewrite trace_bind, trace_mapErr. apply Forall_app. split; [by repeat constructor|].
  destruct (outcome _); [|constructor].
  destruct (_ && _); [constructor|apply IH].
Qed.

Lemma collectDocuments_trace ex args :
  Forall (fun e => is_collection e = true) (trace (collectDocuments w ex args)).
Proof.
  revert ex. induction args as [|file rest IH]; intros ex; cbn [collectDocuments];
    [constructor|].
  rewrite trace_bind. apply Forall_app. split; [by repeat constructor|].
  destruct (outcome _) as [info|]; [|constructor].
  destruct (Size info =? 0).
  - rewrite trace_bind. apply Forall_app. split; [by repeat constructor|].
    cbn. apply IH.
  - rewrite trace_bind. apply Forall_app. split; [by repeat constructor|].
    destruct (outcome _); [apply IH|constructor].
Qed.

Lemma writeDocuments_trace wr docs :
  Forall (fun e => is_writing e = true) (trace (writeDocuments w wr docs)).
Proof.
  revert wr. induction docs as [|doc rest IH]; intros wr; cbn [writeDocuments];
    [constructor|].
  rewrite trace_bind. apply Forall_app. split; [by repeat constructor|].
  destruct (outcome _) as [file|]; [|constructor].
  rewrite trace_bind. apply Forall_app. split; [by repeat constructor|].
  destruct (outcome _) as [wr1|]; [|constructor].
  rewrite trace_bind. apply Forall_app. split; [by repeat constructor|].
  destruct (outcome _) as [data|]; [apply IH|constructor].
Qed.

Lemma packageDocuments_trace docs :
  Forall (fun e => is_writing e = true) (trace (packageDocuments w docs)).
Proof.
  unfold packageDocuments. cbn [call bind].
  rewrite (run_eta (bind _ _)). cbn [trace fst].
  constructor; [done|].
  rewrite trace_bind. apply Forall_app. split; [apply writeDocuments_trace|].
  destruct (outcome _); by repeat constructor.
Qed.

End Phases.

(** ** How far a run gets *)

Section Submit.

Context (pkg : CmdPkg) (w : World).

Abbreviation token cfg := (GetString (UserViperConfig cfg) "token").
Abbreviation workspace cfg := (GetString (UserViperConfig cfg) "workspace").
Abbreviation apibaseurl cfg := (GetString (UserViperConfig cfg) "apibaseurl").

Lemma runSubmit_configured cfg flags args :
  String.eqb (token cfg) "" = false ->
  String.eqb (workspace cfg) "" = false ->
  runSubmit pkg w cfg flags args =
  (args' <- resolveArgs pkg w args ;; fromWorkspace pkg w cfg args').
Proof. intros Ht Hw. unfold runSubmit. cbn zeta. by rewrite Ht, Hw. Qed.

Lemma runSubmit_resolved cfg flags args args' ws :
  resolved pkg w cfg args args' ws ->
  runSubmit pkg w cfg flags args =
  (trace (resolveArgs pkg w args) ++ EvWorkspaceNew (workspace cfg) ::
     trace (exerciseDir <- solutionDirs pkg w ws "" args' ;;
            solution <- call (EvNewSolution exerciseDir)
                             (workspace_NewSolution w exerciseDir) ;;
            fromSolution pkg w cfg args' exerciseDir solution),
   outcome (exerciseDir <- solutionDirs pkg w ws "" args' ;;
            solution <- call (EvNewSolution exerciseDir)
                             (workspace_NewSolution w exerciseDir) ;;
            fromSolution pkg w cfg args' exerciseDir solution)).
Proof.
  intros [Ht Hw Hargs Hws].
  rewrite runSubmit_configured by done.
  rewrite (bind_Ok _ _ _ Hargs). unfold fromWorkspace.
  by rewrite (bind_call_Ok _ _ _ _ Hws).
Qed.

Lemma runSubmit_located cfg flags args args' ws dir solution :
  located pkg w cfg args args' ws dir solution ->
  runSubmit pkg w cfg flags args =
  (locatedTrace pkg w cfg args args' ws dir
     ++ trace (fromSolution pkg w cfg args' dir solution),
   outcome (fromSolution pkg w cfg args' dir solution)).
Proof.
  intros [Hres Hdir Hsol].
  rewrite (runSubmit_resolved _ _ _ _ _ Hres).
  rewrite (bind_Ok _ _ _ Hdir), (bind_call_Ok _ _ _ _ Hsol).
  cbn [trace outcome fst snd]. unfold locatedTrace.
  by rewrite <- !app_assoc, <- app_comm_cons, <- app_assoc.
Qed.

Lemma locatedTrace_location cfg args args' ws dir :
  Forall (fun e => is_location e = true) (locatedTrace pkg w cfg args args' ws dir).
Proof.
  unfold locatedTrace. apply Forall_app. split.
  - eapply Forall_impl; [apply resolveArgs_trace|]. by intros [].
  - constructor; [done|]. apply Forall_app. split; [|by repeat constructor].
    eapply Forall_impl; [apply solutionDirs_trace|]. by intros [].
Qed.

Lemma locatedTrace_before_collection cfg args args' ws dir :
  Forall (fun e => before_collection e = true) (locatedTrace pkg w cfg args args' ws dir).
Proof. eapply Forall_impl; [apply locatedTrace_location|]. by intros []. Qed.

Lemma runSubmit_collected cfg flags args args' ws dir solution exercise :
  collected pkg w cfg args args' ws dir solution exercise ->
  runSubmit pkg w cfg flags args =
  (collectedTrace pkg w cfg args args' ws dir
     ++ trace (if Nat.eqb (length (Documents exercise)) 0
               then fail (errorsNew msgNoFiles)
               else body <- packageDocuments w (Documents exercise) ;;
                    transmit w (UserViperConfig cfg) solution body),
   outcome (if Nat.eqb (length (Documents exercise)) 0
            then fail (errorsNew msgNoFiles)
            else body <- packageDocuments w (Documents exercise) ;;
                 transmit w (UserViperConfig cfg) solution body)).
Proof.
  intros [Hloc Hreq Hex].
  rewrite (runSubmit_located _ _ _ _ _ _ _ Hloc).
  unfold fromSolution. rewrite Hreq. cbn [negb].
  rewrite (bind_Ok _ _ _ Hex). cbn [trace outcome fst snd].
  unfold collectedTrace. by rewrite <- !app_assoc.
Qed.

Lemma collectedTrace_before_packaging cfg args args' ws dir :
  Forall (fun e => before_packaging e = true) (collectedTrace pkg w cfg args args' ws dir).
Proof.
  unfold collectedTrace. apply Forall_app. split.
  - eapply Forall_impl; [apply locatedTrace_before_collection|].
    intros e. unfold before_collection. by intros [_ ?]%andb_prop.
  - eapply Forall_impl; [apply collectDocuments_trace|]. by intros [| | | | | | | | | | | | | | | | | |[]].
Qed.

End Submit.

(** ** The properties of the submission pipeline *)

Section Properties.

Context (pkg : CmdPkg) (w : World).

Abbreviation token cfg := (GetString (UserViperConfig cfg) "token").
Abbreviation workspace cfg := (GetString (UserViperConfig cfg) "workspace").
Abbreviation apibaseurl cfg := (GetString (UserViperConfig cfg) "apibaseurl").

(** C6: when the token is the empty string the run fails with the
    welcome message that points to the settings page, and when the
    token is set but the workspace is the empty string it fails with
    the message to run configure again; in both cases the run has made
    no call at all: no argument was looked at, nothing was resolved on
    the file system, nothing was sent. *)
Theorem missing_configuration_fails_first cfg flags args :
  token cfg = "" \/ workspace cfg = "" ->
  trace (runSubmit pkg w cfg flags args) = [] /\
  (token cfg = "" ->
   outcome (runSubmit pkg w cfg flags args) =
   Err (Errorf (msgWelcomePleaseConfigure pkg)
          [config_SettingsURL pkg (apibaseurl cfg); BinaryName pkg])) /\
  (token cfg <> "" ->
   outcome (runSubmit pkg w cfg flags args) =
   Err (Errorf (msgRerunConfigure pkg) [BinaryName pkg])).
Proof.
  intros H. unfold runSubmit. cbn zeta.
  destruct (String.eqb_spec (token cfg) "") as [Ht|Ht].
  - by repeat split.
  - destruct H as [H|H]; [done|].
    rewrite H. by repeat split.
Qed.

(** What [fmt.Errorf] makes of the message of lines 140-148. *)
Lemma Sprintf_msgNotRequester binary exercise track :
  Sprintf msgNotRequester [binary; exercise; track] =
  LF +:+ LF +:+
  "    The solution you are submitting is not connected to your account." +:+ LF +:+
  "    Please re-download the exercise to make sure it has the data it needs." +:+ LF +:+ LF +:+
  "        " +:+ binary +:+ " download --exercise=" +:+ exercise +:+
  " --track=" +:+ track +:+ LF +:+ LF +:+ TAB +:+ TAB.
Proof. reflexivity. Qed.

(** C7: a run that has found the solution of its arguments, and finds
    it is not the requester's, fails with the message that names the
    download command with the exercise and the track of the solution;
    up to there it has collected no document, built no request and sent
    nothing. *)
Theorem not_requester_fails_before_collection cfg flags args args' ws dir solution :
  located pkg w cfg args args' ws dir solution ->
  IsRequester solution = false ->
  outcome (runSubmit pkg w cfg flags args) =
    Err (errorString
      (LF +:+ LF +:+
       "    The solution you are submitting is not connected to your account." +:+ LF +:+
       "    Please re-download the exercise to make sure it has the data it needs." +:+ LF +:+ LF +:+
       "        " +:+ BinaryName pkg +:+ " download --exercise=" +:+ Exercise solution +:+
       " --track=" +:+ Track solution +:+ LF +:+ LF +:+ TAB +:+ TAB)) /\
  Forall (fun e => is_collection e = false /\ is_packaging e = false /\
                   is_network e = false)
         (trace (runSubmit pkg w cfg flags args)).
Proof.
  intros Hloc Hreq.
  rewrite (runSubmit_located _ _ _ _ _ _ _ _ _ Hloc).
  unfold fromSolution. rewrite Hreq. cbn [negb trace outcome fst snd fail].
  split.
  - unfold Errorf. by rewrite Sprintf_msgNotRequester.
  - rewrite app_nil_r.
    eapply Forall_impl; [apply locatedTrace_before_collection|].
    intros e. unfold before_collection, before_packaging.
    intros [?%negb_true_iff [?%negb_true_iff ?%negb_true_iff]%andb_prop]%andb_prop.
    done.
Qed.

(** The second loop fails as soon as the directory of an argument
    differs from the directory it holds. *)
Lemma solutionDirs_differ ws (l : list string) cur :
  (forall a, a ∈ l -> exists d, ws_SolutionDir w ws a = Ok d /\ d <> "") ->
  (cur <> "" /\ exists a d, a ∈ l /\ ws_SolutionDir w ws a = Ok d /\ d <> cur) \/
  (exists a b da db, a ∈ l /\ b ∈ l /\ ws_SolutionDir w ws a = Ok da /\
                     ws_SolutionDir w ws b = Ok db /\ da <> db) ->
  outcome (solutionDirs pkg w ws cur l) = Err (errorsNew msgDifferentSolutions).
Proof.
  revert cur. induction l as [|x l IH]; intros cur Hall Hex.
  - destruct Hex as [(_ & a & d & Ha & _)|(a & b & da & db & Ha & _)];
      by apply elem_of_nil in Ha.
  - destruct (Hall x) as (d & Hd & Hne); [left|].
    cbn [solutionDirs]. rewrite outcome_bind.
    assert (outcome (mapErr
              (fun err => if IsMissingMetadata err
                          then errorsNew (msgMissingMetadata pkg) else err)
              (call (EvSolutionDir x) (ws_SolutionDir w ws x))) = Ok d) as ->.
    { apply outcome_mapErr_Ok. by rewrite Hd. }
    destruct (negb (String.eqb cur "") && negb (String.eqb d cur)) eqn:Hcmp; [done|].
    apply IH.
    { intros a Ha. apply Hall. by right. }
    left. split; [done|].
    assert (cur = "" \/ d = cur) as Hcur.
    { apply andb_false_iff in Hcmp as [H|H]; apply negb_false_iff in H;
        apply String.eqb_eq in H; auto. }
    assert (forall a da, a ∈ x :: l -> ws_SolutionDir w ws a = Ok da -> da <> d ->
                         a ∈ l) as Hrest.
    { intros a da [->|Ha]%elem_of_cons Hda Hdiff; [congruence|done]. }
    destruct Hex as [(Hc & a & da & Ha & Hda & Hdiff)|
                     (a & b & da & db & Ha & Hb & Hda & Hdb & Hdiff)].
    + destruct Hcur as [->| ->]; [done|].
      exists a, da. eauto.
    + destruct (decide (da = d)) as [->|Hda'].
      * exists b, db. split_and!; eauto.
      * exists a, da. split_and!; eauto.
Qed.

Lemma resolveArgs_Ok args args' :
  outcome (resolveArgs pkg w args) = Ok args' <->
  Forall2 (fun a a' => outcome (resolveArg pkg w a) = Ok a') args args'.
Proof.
  revert args'. induction args as [|a args IH]; intros args'; cbn [resolveArgs].
  - split.
    + intros [= <-]. constructor.
    + by intros ->%Forall2_nil_inv_l.
  - rewrite outcome_bind. split.
    + destruct (outcome (resolveArg pkg w a)) as [a'|] eqn:Ha; [|done].
      rewrite outcome_bind.
      destruct (outcome (resolveArgs pkg w args)) as [rest|] eqn:Hrest; [|done].
      intros [= <-]. constructor; [done|]. by apply IH.
    + intros (a' & rest & Ha & Hrest & ->)%Forall2_cons_inv_l.
      rewrite Ha, outcome_bind. apply IH in Hrest. by rewrite Hrest.
Qed.

(** C1: when the arguments of an invocation resolve to files of two
    or more different solution directories, the run fails with the
    error of lines 120-126, "You are submitting files belonging to
    different solutions", in whatever order the arguments are given,
    and it has then built no part of a request and sent nothing.  A
    solution directory is a path and so not the empty string, which
    line 119 reads as "no directory yet". *)
Theorem different_solutions_rejected cfg flags args args' ws :
  resolved pkg w cfg args args' ws ->
  (forall a, a ∈ args' -> exists d, ws_SolutionDir w ws a = Ok d /\ d <> "") ->
  (exists a b da db, a ∈ args' /\ b ∈ args' /\ ws_SolutionDir w ws a = Ok da /\
                     ws_SolutionDir w ws b = Ok db /\ da <> db) ->
  forall args2, Permutation args args2 ->
    outcome (runSubmit pkg w cfg flags args2) = Err (errorsNew msgDifferentSolutions) /\
    Forall (fun e => is_packaging e = false /\ is_network e = false)
           (trace (runSubmit pkg w cfg flags args2)).
Proof.
  intros [Ht Hw Hargs Hws] Hall Hdiff args2 Hperm.
  apply resolveArgs_Ok in Hargs.
  destruct (Permutation_Forall2 Hperm Hargs) as (args2' & Hperm' & Hargs2).
  apply resolveArgs_Ok in Hargs2.
  assert (outcome (solutionDirs pkg w ws "" args2') =
          Err (errorsNew msgDifferentSolutions)) as Hfail.
  { apply solutionDirs_differ.
    - intros a Ha. apply Hall. by rewrite Hperm'.
    - right. destruct Hdiff as (a & b & da & db & Ha & Hb & H).
      exists a, b, da, db. by rewrite <- !Hperm'. }
  rewrite (runSubmit_resolved pkg w cfg flags args2 args2' ws) by done.
  rewrite (bind_Err _ _ _ Hfail). cbn [trace outcome fst snd].
  split; [done|].
  apply Forall_app. split.
  - eapply Forall_impl; [apply resolveArgs_trace|]. by intros [].
  - constructor; [done|].
    eapply Forall_impl; [apply solutionDirs_trace|]. by intros [].
Qed.

(** *** Packaging and sending *)

Lemma elem_of_trace_bind {A B} (m : M A) (k : A -> M B) e :
  e ∈ trace (bind m k) ->
  e ∈ trace m \/ exists a, outcome m = Ok a /\ e ∈ trace (k a).
Proof.
  rewrite trace_bind. intros [H|H]%elem_of_app; [by left|].
  destruct (outcome m) as [a|]; [right; by exists a|by apply elem_of_nil in H].
Qed.

Lemma not_elem_of_class (P : event -> bool) (t : list event) e :
  Forall (fun e => P e = true) t -> P e = false -> e ∉ t.
Proof.
  intros Hall HP Hin. rewrite Forall_forall in Hall.
  apply Hall in Hin. congruence.
Qed.

Lemma writeLast_snoc ps p data :
  writeLast (ps ++ [p]) data =
  ps ++ [{| FormName := FormName p; FileName := FileName p;
            Content := Content p ++ data |}].
Proof. unfold writeLast. by rewrite reverse_snoc, reverse_involutive. Qed.

Lemma writeDocuments_Ok wr docs wr' :
  outcome (writeDocuments w wr docs) = Ok wr' ->
  Boundary wr' = Boundary wr /\ Closed wr' = Closed wr /\
  exists ps, Parts wr' = Parts wr ++ ps /\ Forall2 (part_of w) docs ps.
Proof.
  revert wr. induction docs as [|doc rest IH]; intros wr; cbn [writeDocuments].
  - intros [= <-]. split_and!; [done..|]. exists []. by rewrite app_nil_r.
  - rewrite outcome_bind. unfold os_Open.
    destruct (os_OpenErr w (Filepath doc)); [done|]. cbn [call outcome snd Name].
    rewrite outcome_bind. cbn [call outcome snd CreateFormFile].
    rewrite outcome_bind. cbn [call outcome snd].
    destruct (io_Copy w (Filepath doc)) as [data|] eqn:Hdata; [|done].
    intros (Hb & Hc & ps & Hps & Hall)%IH. cbn in Hb, Hc, Hps.
    split_and!; [done..|].
    rewrite writeLast_snoc in Hps. cbn in Hps.
    eexists (_ :: ps). split.
    + by rewrite Hps, <- app_assoc.
    + constructor; [|done]. by split_and!.
Qed.

Lemma writeDocuments_succeeds wr docs :
  (forall doc, doc ∈ docs ->
     os_OpenErr w (Filepath doc) = None /\
     exists data, io_Copy w (Filepath doc) = Ok data) ->
  exists wr', outcome (writeDocuments w wr docs) = Ok wr'.
Proof.
  revert wr. induction docs as [|doc rest IH]; intros wr Hall; cbn [writeDocuments].
  - by eexists.
  - destruct (Hall doc) as (Hopen & data & Hdata); [left|].
    rewrite outcome_bind. unfold os_Open. rewrite Hopen. cbn [call outcome snd Name].
    rewrite outcome_bind. cbn [call outcome snd CreateFormFile].
    rewrite outcome_bind, Hdata. cbn [call outcome snd].
    apply IH. intros d Hd. apply Hall. by right.
Qed.

Lemma packageDocuments_eq docs :
  packageDocuments w docs =
  (EvNewWriter :: trace (writeDocuments w (NewWriter (randomBoundary w)) docs) ++
     match outcome (writeDocuments w (NewWriter (randomBoundary w)) docs) with
     | Ok _ => [EvWriterClose]
     | Err _ => []
     end,
   match outcome (writeDocuments w (NewWriter (randomBoundary w)) docs) with
   | Ok wr => WriterClose wr
   | Err e => Err e
   end).
Proof.
  unfold packageDocuments. rewrite (bind_call_Ok _ _ _ _ eq_refl).
  rewrite trace_bind, outcome_bind.
  by destruct (outcome (writeDocuments _ _ _)).
Qed.

Lemma packageDocuments_Ok docs body :
  outcome (packageDocuments w docs) = Ok body ->
  Boundary body = randomBoundary w /\ Closed body = true /\
  Forall2 (part_of w) docs (Parts body) /\
  exists t, trace (packageDocuments w docs) = t ++ [EvWriterClose] /\
            Forall (fun e => is_writing e = true) t.
Proof.
  rewrite packageDocuments_eq. cbn [outcome trace fst snd].
  destruct (outcome (writeDocuments _ _ _)) as [wr|] eqn:Hwr; [|done].
  intros [= <-]. cbn.
  pose proof (writeDocuments_trace w (NewWriter (randomBoundary w)) docs) as Ht.
  apply writeDocuments_Ok in Hwr as (Hb & _ & ps & -> & Hps).
  split_and!; [done..|].
  exists (EvNewWriter :: trace (writeDocuments w (NewWriter (randomBoundary w)) docs)).
  split; [done|]. by constructor.
Qed.

Lemma packageDocuments_succeeds docs :
  (forall doc, doc ∈ docs ->
     os_OpenErr w (Filepath doc) = None /\
     exists data, io_Copy w (Filepath doc) = Ok data) ->
  exists body, outcome (packageDocuments w docs) = Ok body.
Proof.
  intros H. rewrite packageDocuments_eq. cbn [outcome snd].
  destruct (writeDocuments_succeeds (NewWriter (randomBoundary w)) docs H) as [wr ->].
  by eexists.
Qed.

Lemma transmit_eq usrCfg solution body client :
  api_NewClient w (GetString usrCfg "token") (GetString usrCfg "apibaseurl") = Ok client ->
  client_NewRequestErr w client "PATCH" (submitURL usrCfg solution) = None ->
  transmit w usrCfg solution body =
  (EvNewClient (GetString usrCfg "token") (GetString usrCfg "apibaseurl") ::
   EvNewRequest "PATCH" (submitURL usrCfg solution) body ::
   EvHeaderSet "Content-Type" (FormDataContentType body) ::
   EvDo (requestOf w usrCfg solution client body) ::
   match client_Do w client (requestOf w usrCfg solution client body) with
   | Ok resp =>
       EvReadFrom ::
       match RespBody resp with
       | Ok _ =>
           [EvFprintf Err_ (Sprintf msgSubmitted
              [if AutoApprove solution then suffixAutoApprove else suffixView]);
            EvFprintf Out (Sprintf fmtURL [URL solution])]
       | Err _ => []
       end
   | Err _ => []
   end,
   match client_Do w client (requestOf w usrCfg solution client body) with
   | Ok resp =>
       match RespBody resp with
       | Ok _ => Ok tt
       | Err e => Err e
       end
   | Err e => Err e
   end).
Proof.
  intros Hclient Hreq. unfold transmit.
  rewrite (bind_call_Ok _ _ _ _ Hclient). cbn zeta.
  unfold client_NewRequest. rewrite Hreq.
  rewrite (bind_call_Ok _ _ _ _ eq_refl), (bind_call_Ok _ _ _ _ eq_refl).
  fold (requestOf w usrCfg solution client body).
  destruct (client_Do w client _) as [resp|e]; [|done].
  cbn [call bind trace outcome fst snd].
  by destruct (RespBody resp).
Qed.

(** Whatever happens in [transmit], a request that is sent is the
    PATCH of the body it was given. *)
Lemma transmit_sends usrCfg solution body req :
  EvDo req ∈ trace (transmit w usrCfg solution body) ->
  exists client, req = requestOf w usrCfg solution client body.
Proof.
  destruct (api_NewClient w (GetString usrCfg "token") (GetString usrCfg "apibaseurl"))
    as [client|e] eqn:Hclient.
  2:{ unfold transmit. rewrite Hclient. cbn.
      intros [H|H]%elem_of_cons; [done|by apply elem_of_nil in H]. }
  destruct (client_NewRequestErr w client "PATCH" (submitURL usrCfg solution))
    as [e|] eqn:Hreq.
  - unfold transmit. rewrite (bind_call_Ok _ _ _ _ Hclient). cbn zeta.
    unfold client_NewRequest. rewrite Hreq. cbn.
    intros H. repeat (apply elem_of_cons in H as [H|H]; [done|]).
    by apply elem_of_nil in H.
  - rewrite (transmit_eq _ _ _ _ Hclient Hreq). cbn [trace fst].
    intros H. do 3 (apply elem_of_cons in H as [H|H]; [done|]).
    apply elem_of_cons in H as [[= ->]|H]; [by exists client|].
    destruct (client_Do w client _) as [resp|]; [|by apply elem_of_nil in H].
    apply elem_of_cons in H as [H|H]; [done|].
    destruct (RespBody resp); [|by apply elem_of_nil in H].
    repeat (apply elem_of_cons in H as [H|H]; [done|]).
    by apply elem_of_nil in H.
Qed.

(** *** Every run, whatever the collaborators answer *)

Lemma before_collection_packaging (t : list event) :
  Forall (fun e => before_collection e = true) t ->
  Forall (fun e => before_packaging e = true) t.
Proof.
  intros H. eapply Forall_impl; [exact H|].
  intros e. unfold before_collection. by intros [_ ?]%andb_prop.
Qed.

(** A run either stops before line 185, having built and sent nothing,
    or it has collected at least one document. *)
Lemma runSubmit_cases cfg flags args :
  Forall (fun e => before_packaging e = true) (trace (runSubmit pkg w cfg flags args)) \/
  exists args' ws dir solution exercise,
    collected pkg w cfg args args' ws dir solution exercise /\
    Documents exercise <> [].
Proof.
  destruct (String.eqb (token cfg) "") eqn:Ht.
  { left. unfold runSubmit. cbn zeta. rewrite Ht. constructor. }
  destruct (String.eqb (workspace cfg) "") eqn:Hw.
  { left. unfold runSubmit. cbn zeta. rewrite Ht, Hw. constructor. }
  destruct (outcome (resolveArgs pkg w args)) as [args'|e] eqn:Hargs.
  2:{ left. rewrite runSubmit_configured, (bind_Err _ _ _ Hargs) by done.
      eapply Forall_impl; [apply resolveArgs_trace|]. by intros []. }
  destruct (workspace_New w (workspace cfg)) as [ws|e] eqn:Hws.
  2:{ left. rewrite runSubmit_configured, (bind_Ok _ _ _ Hargs) by done.
      unfold fromWorkspace. rewrite Hws. cbn.
      apply Forall_app. split; [|by repeat constructor].
      eapply Forall_impl; [apply resolveArgs_trace|]. by intros []. }
  assert (resolved pkg w cfg args args' ws) as Hres by done.
  destruct (outcome (solutionDirs pkg w ws "" args')) as [dir|e] eqn:Hdir.
  2:{ left. rewrite (runSubmit_resolved _ _ _ _ _ _ _ Hres), (bind_Err _ _ _ Hdir).
      cbn [trace fst]. apply Forall_app. split.
      - eapply Forall_impl; [apply resolveArgs_trace|]. by intros [].
      - constructor; [done|].
        eapply Forall_impl; [apply solutionDirs_trace|]. by intros []. }
  destruct (workspace_NewSolution w dir) as [solution|e] eqn:Hsol.
  2:{ left. rewrite (runSubmit_resolved _ _ _ _ _ _ _ Hres), (bind_Ok _ _ _ Hdir).
      rewrite Hsol. cbn [call bind trace fst].
      apply Forall_app. split.
      - eapply Forall_impl; [apply resolveArgs_trace|]. by intros [].
      - constructor; [done|]. apply Forall_app. split; [|by repeat constructor].
        eapply Forall_impl; [apply solutionDirs_trace|]. by intros []. }
  assert (located pkg w cfg args args' ws dir solution) as Hloc by done.
  rewrite (runSubmit_located _ _ _ _ _ _ _ _ _ Hloc). cbn [trace fst].
  unfold fromSolution.
  destruct (IsRequester solution) eqn:Hreq; cbn [negb].
  2:{ left. cbn. rewrite app_nil_r.
      apply before_collection_packaging, locatedTrace_before_collection. }
  destruct (outcome (collectDocuments w (exerciseAt w dir) args')) as [ex|e] eqn:Hex.
  2:{ left. rewrite (bind_Err _ _ _ Hex). cbn [trace fst].
      apply Forall_app. split.
      - apply before_collection_packaging, locatedTrace_before_collection.
      - eapply Forall_impl; [apply collectDocuments_trace|].
        by intros [| | | | | | | | | | | | | | | | | |[]]. }
  destruct (Documents ex) as [|doc docs] eqn:Hdocs.
  - left. rewrite (bind_Ok _ _ _ Hex), Hdocs. cbn. rewrite app_nil_r.
    apply Forall_app. split.
    + apply before_collection_packaging, locatedTrace_before_collection.
    + eapply Forall_impl; [apply collectDocuments_trace|].
      by intros [| | | | | | | | | | | | | | | | | |[]].
  - right. exists args', ws, dir, solution, ex. split; [done|]. by rewrite Hdocs.
Qed.

Lemma length_nonzero {X} (l : list X) : l <> [] -> Nat.eqb (length l) 0 = false.
Proof. by destruct l. Qed.

(** A run that has collected documents goes on to package and send
    them. *)
Lemma runSubmit_packaging cfg flags args args' ws dir solution exercise :
  collected pkg w cfg args args' ws dir solution exercise ->
  Documents exercise <> [] ->
  runSubmit pkg w cfg flags args =
  (collectedTrace pkg w cfg args args' ws dir ++
     trace (body <- packageDocuments w (Documents exercise) ;;
            transmit w (UserViperConfig cfg) solution body),
   outcome (body <- packageDocuments w (Documents exercise) ;;
            transmit w (UserViperConfig cfg) solution body)).
Proof.
  intros Hcol Hdocs.
  rewrite (runSubmit_collected _ _ _ _ _ _ _ _ _ _ Hcol).
  by rewrite (length_nonzero _ Hdocs).
Qed.

(** A request that is sent is the PATCH of the packaged documents of
    this run. *)
Lemma runSubmit_sends cfg flags args req :
  EvDo req ∈ trace (runSubmit pkg w cfg flags args) ->
  exists args' ws dir solution exercise client body,
    collected pkg w cfg args args' ws dir solution exercise /\
    Documents exercise <> [] /\
    outcome (packageDocuments w (Documents exercise)) = Ok body /\
    req = requestOf w (UserViperConfig cfg) solution client body.
Proof.
  intros Hin.
  destruct (runSubmit_cases cfg flags args)
    as [Hquiet|(args' & ws & dir & solution & ex & Hcol & Hdocs)].
  { exfalso. by eapply (not_elem_of_class before_packaging), Hin. }
  rewrite (runSubmit_packaging _ _ _ _ _ _ _ _ Hcol Hdocs) in Hin.
  cbn [trace fst] in Hin. apply elem_of_app in Hin as [Hin|Hin].
  { exfalso.
    by eapply (not_elem_of_class before_packaging), Hin;
      [apply collectedTrace_before_packaging|]. }
  apply elem_of_trace_bind in Hin as [Hin|(body & Hbody & Hin)].
  { exfalso.
    by eapply (not_elem_of_class is_writing), Hin; [apply packageDocuments_trace|]. }
  apply transmit_sends in Hin as [client ->].
  by exists args', ws, dir, solution, ex, client, body.
Qed.

(** The header of the request is set after the writer is closed. *)
Lemma header_set_after_close cfg flags args t1 k v t2 :
  trace (runSubmit pkg w cfg flags args) = t1 ++ EvHeaderSet k v :: t2 ->
  EvWriterClose ∈ t1.
Proof.
  intros Heq.
  assert (EvHeaderSet k v ∈ trace (runSubmit pkg w cfg flags args)) as Hin.
  { rewrite Heq. apply elem_of_app. right. left. }
  destruct (runSubmit_cases cfg flags args)
    as [Hquiet|(args' & ws & dir & solution & ex & Hcol & Hdocs)].
  { exfalso. by eapply (not_elem_of_class before_packaging), Hin. }
  rewrite (runSubmit_packaging _ _ _ _ _ _ _ _ Hcol Hdocs) in Heq.
  cbn [trace fst] in Heq.
  apply app_split_at in Heq as (t1' & -> & Heq).
  2:{ by eapply (not_elem_of_class before_packaging);
        [apply collectedTrace_before_packaging|]. }
  rewrite trace_bind in Heq.
  apply app_split_at in Heq as (t1'' & -> & Heq).
  2:{ by eapply (not_elem_of_class is_writing); [apply packageDocuments_trace|]. }
  destruct (outcome (packageDocuments w (Documents ex))) as [body|] eqn:Hbody.
  2:{ by destruct t1''. }
  apply packageDocuments_Ok in Hbody as (_ & _ & _ & t & -> & _).
  rewrite !elem_of_app. right. left. right. left.
Qed.

(** *** Collecting the documents *)

Lemma bind_assoc {A B C} (m : M A) (f : A -> M B) (g : B -> M C) :
  bind (bind m f) g = bind m (fun a => bind (f a) g).
Proof.
  destruct m as [t [a|e]]; cbn; [|done].
  destruct (f a) as [t' [b|e]]; cbn; [|done].
  destruct (g b) as [t'' r]. by rewrite app_assoc.
Qed.

Lemma bind_ext {A B} (m : M A) (f g : A -> M B) :
  (forall a, f a = g a) -> bind m f = bind m g.
Proof. intros H. destruct m as [t [a|e]]; cbn; [by rewrite H|done]. Qed.

Lemma bind_ret_l {A B} (a : A) (k : A -> M B) : bind (ret a) k = k a.
Proof. cbn. by destruct (k a). Qed.

(** The loop over a list in two pieces is the loop over the first and
    then, with the exercise as it then is, the loop over the second. *)
Lemma collectDocuments_app ex l1 l2 :
  collectDocuments w ex (l1 ++ l2) =
  (ex1 <- collectDocuments w ex l1 ;; collectDocuments w ex1 l2).
Proof.
  revert ex. induction l1 as [|file l1 IH]; intros ex.
  - cbn [app collectDocuments]. by rewrite bind_ret_l.
  - cbn [app collectDocuments]. rewrite bind_assoc.
    apply bind_ext. intros info.
    destruct (Size info =? 0); rewrite bind_assoc; apply bind_ext; intros; apply IH.
Qed.

(** What [fmt.Fprintf] makes of the warning of lines 160-166. *)
Lemma Sprintf_msgSkippingEmpty file :
  Sprintf msgSkippingEmpty [file] =
  LF +:+ LF +:+
  "    WARNING: Skipping empty file" +:+ LF +:+
  "             " +:+ file +:+ LF +:+ LF +:+ TAB +:+ TAB.
Proof. reflexivity. Qed.

Lemma collectDocuments_empty_file ex file rest info :
  os_Stat w file = Ok info ->
  Size info = 0 ->
  collectDocuments w ex (file :: rest) =
  (EvStat file :: EvFprintf Err_ (Sprintf msgSkippingEmpty [file]) ::
     trace (collectDocuments w ex rest),
   outcome (collectDocuments w ex rest)).
Proof.
  intros Hstat Hsize. cbn [collectDocuments].
  rewrite (bind_call_Ok _ _ _ _ Hstat), Hsize. cbn [Z.eqb].
  unfold Fprintf. by rewrite (bind_call_Ok _ _ _ _ eq_refl).
Qed.

Lemma collectDocuments_written_Out ex l :
  written Out (trace (collectDocuments w ex l)) = [].
Proof.
  pose proof (collectDocuments_trace w ex l) as H.
  induction H as [|e t He _ IH]; [done|].
  unfold written in *. cbn. rewrite IH.
  by destruct e as [| | | | | | | | | | | | | | | | | |[]].
Qed.

(** C3: a run that has collected documents, can open and read the
    file of each, and gets a client and a request from package api,
    closes the writer, then makes the client and the request, then sets
    the Content-Type header, and no header was set before; the body of
    the request is the closed writer; it has one part per document, in
    the order of the documents, each with the field name "files[]", the
    path of the document as its file name and the bytes of the file of
    the document as its content; the header is the content type of that
    writer, which ends in its boundary.  And in every run, whatever the
    collaborators answer, a header is set only after the writer is
    closed. *)
Theorem multipart_body_of_documents cfg flags args args' ws dir solution exercise client :
  collected pkg w cfg args args' ws dir solution exercise ->
  Documents exercise <> [] ->
  (forall doc, doc ∈ Documents exercise ->
     os_OpenErr w (Filepath doc) = None /\
     exists data, io_Copy w (Filepath doc) = Ok data) ->
  api_NewClient w (token cfg) (apibaseurl cfg) = Ok client ->
  client_NewRequestErr w client "PATCH" (submitURL (UserViperConfig cfg) solution) = None ->
  (exists body t1 t2,
     trace (runSubmit pkg w cfg flags args) =
       t1 ++ EvWriterClose ::
             EvNewClient (token cfg) (apibaseurl cfg) ::
             EvNewRequest "PATCH" (submitURL (UserViperConfig cfg) solution) body ::
             EvHeaderSet "Content-Type" (FormDataContentType body) :: t2 /\
     (forall k v, EvHeaderSet k v ∉ t1) /\
     Closed body = true /\
     Forall2 (fun doc part =>
                FormName part = "files[]" /\ FileName part = Path doc /\
                io_Copy w (Filepath doc) = Ok (Content part))
             (Documents exercise) (Parts body) /\
     FormDataContentType body = "multipart/form-data; boundary=" +:+ Boundary body) /\
  (forall t1 k v t2,
     trace (runSubmit pkg w cfg flags args) = t1 ++ EvHeaderSet k v :: t2 ->
     EvWriterClose ∈ t1).
Proof.
  intros Hcol Hdocs Hfiles Hclient Hreq.
  split; [|apply header_set_after_close].
  destruct (packageDocuments_succeeds _ Hfiles) as [body Hbody].
  rewrite (runSubmit_packaging _ _ _ _ _ _ _ _ Hcol Hdocs). cbn [trace fst].
  rewrite (bind_Ok _ _ _ Hbody). cbn [trace fst].
  rewrite (transmit_eq _ _ _ _ Hclient Hreq). cbn [trace fst].
  apply packageDocuments_Ok in Hbody as (_ & Hclosed & Hparts & t & -> & Ht).
  exists body, (collectedTrace pkg w cfg args args' ws dir ++ t). eexists.
  split_and!; [|..|done|done|done].
  - rewrite <- !app_assoc. cbn. reflexivity.
  - intros k v [Hin|Hin]%elem_of_app.
    + by eapply (not_elem_of_class before_packaging), Hin;
        [apply collectedTrace_before_packaging|].
    + by eapply (not_elem_of_class is_writing), Hin.
Qed.

(** *** The request and the report *)

Lemma append_nil_r (s : string) : s +:+ "" = s.
Proof.
  induction s as [|c s IH]; [done|].
  change (String c s +:+ "") with (String c (s +:+ "")). by rewrite IH.
Qed.

Lemma submitURL_eq usrCfg solution :
  submitURL usrCfg solution =
  GetString usrCfg "apibaseurl" +:+ "/solutions/" +:+ ID solution.
Proof.
  unfold submitURL.
  change (Sprintf "%s/solutions/%s" [GetString usrCfg "apibaseurl"; ID solution])
    with (GetString usrCfg "apibaseurl" +:+ "/solutions/" +:+ (ID solution +:+ "")).
  by rewrite append_nil_r.
Qed.

Lemma Sprintf_msgSubmitted suffix :
  Sprintf msgSubmitted [suffix] =
  LF +:+ LF +:+
  "    Your solution has been submitted successfully." +:+ LF +:+
  "    " +:+ suffix +:+ LF.
Proof. reflexivity. Qed.

Lemma Sprintf_fmtURL url : Sprintf fmtURL [url] = "    " +:+ url +:+ LF +:+ LF.
Proof. reflexivity. Qed.

Lemma written_app s t1 t2 : written s (t1 ++ t2) = written s t1 ++ written s t2.
Proof. apply omap_app. Qed.

Lemma written_none (P : event -> bool) s t :
  Forall (fun e => P e = true) t ->
  (forall s' text, P (EvFprintf s' text) = false) ->
  written s t = [].
Proof.
  intros Hall HP. induction Hall as [|e t He _ IH]; [done|].
  unfold written in *. cbn. rewrite IH.
  destruct e; try done. by rewrite HP in He.
Qed.

Lemma filter_network_none (P : event -> bool) t :
  Forall (fun e => P e = true) t ->
  (forall req, P (EvDo req) = false) ->
  List.filter is_network t = [].
Proof.
  intros Hall HP. induction Hall as [|e t He _ IH]; [done|].
  cbn. rewrite IH. destruct e; try done. by rewrite HP in He.
Qed.

(** C5: a run that has packaged its documents in [body], gets a
    client and a request from package api, and whose request the
    server answers with a response that can be read, ends without
    error.  The one call it makes to the network sends a request with
    method PATCH, to the URL made of the API base URL, "/solutions/" and
    the ID of the solution, with [body] as its body and the content
    type of [body] as its Content-Type.  The error stream gets the
    warnings of the empty files and then the confirmation, which ends
    in the auto-approve sentence when the solution is auto-approved and
    in "View it at:" otherwise.  The output stream gets one string: the
    URL of the solution after four spaces and before two line feeds. *)
Theorem request_sent_and_reported cfg flags args args' ws dir solution exercise
    body client resp data :
  collected pkg w cfg args args' ws dir solution exercise ->
  Documents exercise <> [] ->
  outcome (packageDocuments w (Documents exercise)) = Ok body ->
  api_NewClient w (token cfg) (apibaseurl cfg) = Ok client ->
  client_NewRequestErr w client "PATCH" (submitURL (UserViperConfig cfg) solution) = None ->
  client_Do w client (requestOf w (UserViperConfig cfg) solution client body) = Ok resp ->
  RespBody resp = Ok data ->
  exists req,
    outcome (runSubmit pkg w cfg flags args) = Ok tt /\
    List.filter is_network (trace (runSubmit pkg w cfg flags args)) = [EvDo req] /\
    Method req = "PATCH" /\
    ReqURL req = apibaseurl cfg +:+ "/solutions/" +:+ ID solution /\
    Body req = body /\
    Header req !! "Content-Type" = Some (FormDataContentType body) /\
    written Err_ (trace (runSubmit pkg w cfg flags args)) =
      written Err_ (trace (collectDocuments w (exerciseAt w dir) args')) ++
      [LF +:+ LF +:+
       "    Your solution has been submitted successfully." +:+ LF +:+
       "    " +:+
       (if AutoApprove solution
        then "You can complete the exercise and unlock the next core exercise at:" +:+ LF
        else "View it at:" +:+ LF +:+ LF +:+ "    ") +:+ LF] /\
    written Out (trace (runSubmit pkg w cfg flags args)) =
      ["    " +:+ URL solution +:+ LF +:+ LF].
Proof.
  intros Hcol Hdocs Hbody Hclient Hreq Hdo Hread.
  exists (requestOf w (UserViperConfig cfg) solution client body).
  rewrite (runSubmit_packaging _ _ _ _ _ _ _ _ Hcol Hdocs).
  rewrite (bind_Ok _ _ _ Hbody), (transmit_eq _ _ _ _ Hclient Hreq), Hdo, Hread.
  cbn [trace outcome fst snd].
  pose proof (packageDocuments_trace w (Documents exercise)) as Hpack.
  pose proof (locatedTrace_location pkg w cfg args args' ws dir) as Hloc.
  pose proof (collectDocuments_trace w (exerciseAt w dir) args') as Hcoll.
  split_and!.
  - done.
  - rewrite !List.filter_app.
    rewrite (filter_network_none _ _ (collectedTrace_before_packaging pkg w cfg args args' ws dir))
      by done.
    by rewrite (filter_network_none _ _ Hpack) by done.
  - done.
  - cbn. apply submitURL_eq.
  - done.
  - cbn. apply lookup_insert_eq.
  - unfold collectedTrace. rewrite !written_app.
    rewrite (written_none _ Err_ _ Hloc) by done.
    rewrite (written_none _ Err_ _ Hpack) by done.
    cbn. rewrite Sprintf_msgSubmitted. by destruct (AutoApprove solution).
  - unfold collectedTrace. rewrite !written_app.
    rewrite (written_none _ Out _ Hloc) by done.
    rewrite (written_none _ Out _ Hpack) by done.
    rewrite collectDocuments_written_Out.
    cbn. by rewrite Sprintf_fmtURL.
Qed.

(** *** Order and duplicates *)

Lemma collectDocuments_Ok ex l ex' :
  outcome (collectDocuments w ex l) = Ok ex' ->
  ExFilepath ex' = ExFilepath ex /\
  exists docs,
    Documents ex' = Documents ex ++ docs /\
    Forall2 (fun file doc => workspace_NewDocument w (ExFilepath ex) file = Ok doc)
            (List.filter (nonEmpty w) l) docs.
Proof.
  revert ex. induction l as [|file l IH]; intros ex; cbn [collectDocuments].
  - intros [= <-]. split; [done|]. exists []. by rewrite app_nil_r.
  - rewrite outcome_bind. cbn [call outcome snd List.filter]. unfold nonEmpty at 1.
    destruct (os_Stat w file) as [info|]; [|done].
    destruct (Size info =? 0); cbn [negb].
    + rewrite outcome_bind. cbn [Fprintf call outcome snd]. apply IH.
    + rewrite outcome_bind. cbn [call outcome snd].
      destruct (workspace_NewDocument w (ExFilepath ex) file) as [doc|] eqn:Hdoc;
        [|done].
      intros (Hpath & docs & Hdocs & Hall)%IH. cbn in Hpath, Hdocs, Hall.
      split; [done|]. exists (doc :: docs). split.
      * by rewrite Hdocs, <- app_assoc.
      * by constructor.
Qed.

Lemma Forall2_compose {X Y Z} (R : X -> Y -> Prop) (S : Y -> Z -> Prop) l1 l2 l3 :
  Forall2 R l1 l2 -> Forall2 S l2 l3 ->
  Forall2 (fun x z => exists y, R x y /\ S y z) l1 l3.
Proof.
  intros H. revert l3. induction H as [|x y l1 l2 HR _ IH]; intros l3 HS.
  - apply Forall2_nil_inv_l in HS as ->. constructor.
  - apply Forall2_cons_inv_l in HS as (z & l3' & HS & Hrest & ->).
    constructor; [by exists y|by apply IH].
Qed.

Lemma Forall2_filter_both {X Y} (R : X -> Y -> Prop) (p : X -> bool) (q : Y -> bool) l k :
  Forall2 R l k ->
  (forall x y, R x y -> p x = q y) ->
  Forall2 R (List.filter p l) (List.filter q k).
Proof.
  intros H Hpq. induction H as [|x y l k HR _ IH]; [constructor|].
  cbn. rewrite <- (Hpq _ _ HR). destruct (p x); [by constructor|done].
Qed.

Lemma filter_lookup {X} (p : X -> bool) (l : list X) i x :
  l !! i = Some x -> p x = true -> exists i', List.filter p l !! i' = Some x.
Proof.
  intros Hi Hp. apply list_elem_of_lookup, list_elem_of_In, List.filter_In.
  split; [|done]. apply list_elem_of_In, list_elem_of_lookup. by exists i.
Qed.

Lemma filter_lookup_two {X} (p : X -> bool) (l : list X) i j x :
  (i < j)%nat -> l !! i = Some x -> l !! j = Some x -> p x = true ->
  exists i' j', (i' < j')%nat /\
    List.filter p l !! i' = Some x /\ List.filter p l !! j' = Some x.
Proof.
  revert i j. induction l as [|y l IH]; intros i j Hlt Hi Hj Hp; [done|].
  destruct j as [|j]; [lia|]. cbn in Hj.
  destruct i as [|i]; cbn in Hi.
  - injection Hi as ->. cbn. rewrite Hp.
    destruct (filter_lookup p l j x Hj Hp) as [k Hk].
    exists 0%nat, (S k). split_and!; [lia|done|done].
  - destruct (IH i j) as (i' & j' & Hlt' & Hi' & Hj'); [lia|done..|].
    cbn. destruct (p y).
    + exists (S i'), (S j'). split_and!; [lia|done|done].
    + by exists i', j'.
Qed.

Lemma part_of_file_unique root file part1 part2 :
  part_of_file w root file part1 -> part_of_file w root file part2 -> part1 = part2.
Proof.
  intros (doc1 & Hdoc1 & Hn1 & Hf1 & Hc1) (doc2 & Hdoc2 & Hn2 & Hf2 & Hc2).
  assert (doc2 = doc1) as -> by congruence.
  destruct part1, part2. cbn in *. congruence.
Qed.

(** The parts of the body of a run, against its resolved arguments. *)
Lemma parts_of_resolved cfg args args' ws dir solution exercise body :
  collected pkg w cfg args args' ws dir solution exercise ->
  outcome (packageDocuments w (Documents exercise)) = Ok body ->
  Forall2 (part_of_file w (ExFilepath (exerciseAt w dir)))
          (List.filter (nonEmpty w) args') (Parts body).
Proof.
  intros [_ _ Hex] Hbody.
  apply collectDocuments_Ok in Hex as (_ & docs & Hdocs & Hall).
  cbn in Hdocs. subst docs.
  apply packageDocuments_Ok in Hbody as (_ & _ & Hparts & _).
  eapply Forall2_impl; [exact (Forall2_compose _ _ _ _ _ Hall Hparts)|].
  intros file part (doc & Hdoc & Hpart). by exists doc.
Qed.

(** *** The parts in the trace of a run *)

Lemma location_not_collection e : is_collection e = true -> is_location e = false.
Proof. destruct e; try done. Qed.

Lemma location_not_writing e : is_writing e = true -> is_location e = false.
Proof. by destruct e. Qed.

Lemma location_not_sending e : is_sending e = true -> is_location e = false.
Proof. by destruct e. Qed.

Lemma transmit_trace usrCfg solution body :
  Forall (fun e => is_sending e = true) (trace (transmit w usrCfg solution body)).
Proof.
  unfold transmit.
  rewrite trace_bind. apply Forall_app. split; [by repeat constructor|].
  cbn [call outcome snd].
  destruct (api_NewClient w _ _) as [client|]; [|constructor]. cbn zeta.
  rewrite trace_bind. apply Forall_app. split; [by repeat constructor|].
  cbn [call outcome snd].
  destruct (client_NewRequest w client _ _ _) as [req|]; [|constructor].
  rewrite trace_bind. apply Forall_app. split; [by repeat constructor|].
  cbn [call outcome snd].
  rewrite trace_bind. apply Forall_app. split; [by repeat constructor|].
  cbn [call outcome snd].
  destruct (client_Do w client _) as [resp|]; [|constructor].
  rewrite trace_bind. apply Forall_app. split; [by repeat constructor|].
  cbn [call outcome snd].
  destruct (RespBody resp); [|constructor].
  rewrite trace_bind. apply Forall_app. split; by repeat constructor.
Qed.

Lemma formFiles_app t1 t2 : formFiles (t1 ++ t2) = formFiles t1 ++ formFiles t2.
Proof. apply omap_app. Qed.

Lemma formFiles_none (P : event -> bool) t :
  Forall (fun e => P e = true) t ->
  (forall fieldname filename, P (EvCreateFormFile fieldname filename) = false) ->
  formFiles t = [].
Proof.
  intros Hall HP. induction Hall as [|e t He _ IH]; [done|].
  unfold formFiles in *. cbn. rewrite IH.
  destruct e; try done. by rewrite HP in He.
Qed.

Lemma writeDocuments_formFiles wr docs wr' :
  outcome (writeDocuments w wr docs) = Ok wr' ->
  formFiles (trace (writeDocuments w wr docs)) =
  (fun doc => ("files[]", Path doc)) <$> docs.
Proof.
  revert wr. induction docs as [|doc rest IH]; intros wr; cbn [writeDocuments]; [done|].
  rewrite outcome_bind, trace_bind. unfold os_Open.
  destruct (os_OpenErr w (Filepath doc)); [done|].
  cbn [call outcome trace fst snd Name].
  rewrite outcome_bind, trace_bind. cbn [call outcome trace fst snd CreateFormFile].
  rewrite outcome_bind, trace_bind. cbn [call outcome trace fst snd].
  destruct (io_Copy w (Filepath doc)) as [data|]; [|done].
  intros H. rewrite fmap_cons, <- (IH _ H). done.
Qed.

Lemma packageDocuments_formFiles docs body :
  outcome (packageDocuments w docs) = Ok body ->
  formFiles (trace (packageDocuments w docs)) =
  (fun part => (FormName part, FileName part)) <$> Parts body.
Proof.
  intros Hbody.
  destruct (packageDocuments_Ok _ _ Hbody) as (_ & _ & Hparts & _).
  revert Hbody. rewrite packageDocuments_eq. cbn [outcome trace fst snd].
  destruct (outcome (writeDocuments _ _ _)) as [wr|] eqn:Hwr; [|done]. intros _.
  change (EvNewWriter :: ?l) with ([EvNewWriter] ++ l).
  rewrite !formFiles_app, (writeDocuments_formFiles _ _ _ Hwr).
  change (formFiles [EvNewWriter]) with (@nil (string * string)).
  change (formFiles [EvWriterClose]) with (@nil (string * string)).
  rewrite app_nil_r. cbn [app].
  clear Hwr. induction Hparts as [|doc part docs' parts (Hn & Hf & _) _ IH]; [done|].
  rewrite !fmap_cons, IH. by rewrite Hn, Hf.
Qed.

(** The request a run sends, for a run whose collected documents are
    known. *)
Lemma runSubmit_sends_collected cfg flags args args' ws dir solution exercise req :
  collected pkg w cfg args args' ws dir solution exercise ->
  EvDo req ∈ trace (runSubmit pkg w cfg flags args) ->
  Documents exercise <> [] /\
  exists client body,
    outcome (packageDocuments w (Documents exercise)) = Ok body /\
    req = requestOf w (UserViperConfig cfg) solution client body.
Proof.
  intros Hcol Hin.
  destruct (Documents exercise) as [|doc docs] eqn:Hdocs.
  { exfalso. rewrite (runSubmit_collected _ _ _ _ _ _ _ _ _ _ Hcol), Hdocs in Hin.
    cbn in Hin. rewrite app_nil_r in Hin.
    by eapply (not_elem_of_class before_packaging), Hin;
      [apply collectedTrace_before_packaging|]. }
  split; [done|]. rewrite <- Hdocs in *.
  assert (Documents exercise <> []) as Hne by by rewrite Hdocs.
  rewrite (runSubmit_packaging _ _ _ _ _ _ _ _ Hcol Hne) in Hin.
  cbn [trace fst] in Hin. apply elem_of_app in Hin as [Hin|Hin].
  { exfalso.
    by eapply (not_elem_of_class before_packaging), Hin;
      [apply collectedTrace_before_packaging|]. }
  apply elem_of_trace_bind in Hin as [Hin|(body & Hbody & Hin)].
  { exfalso.
    by eapply (not_elem_of_class is_writing), Hin; [apply packageDocuments_trace|]. }
  apply transmit_sends in Hin as [client ->].
  by exists client, body.
Qed.

(** The form files of a run are those of the body it packages. *)
Lemma runSubmit_formFiles cfg flags args args' ws dir solution exercise body :
  collected pkg w cfg args args' ws dir solution exercise ->
  outcome (packageDocuments w (Documents exercise)) = Ok body ->
  formFiles (trace (runSubmit pkg w cfg flags args)) =
  (fun part => (FormName part, FileName part)) <$> Parts body.
Proof.
  intros Hcol Hbody.
  pose proof (collectedTrace_before_packaging pkg w cfg args args' ws dir) as Hpre.
  destruct (Documents exercise) as [|doc docs] eqn:Hdocs.
  - rewrite (runSubmit_collected _ _ _ _ _ _ _ _ _ _ Hcol), Hdocs.
    cbn [length Nat.eqb trace fst fail]. rewrite app_nil_r.
    apply packageDocuments_Ok in Hbody as (_ & _ & Hparts & _).
    apply Forall2_nil_inv_l in Hparts. rewrite Hparts.
    by rewrite (formFiles_none _ _ Hpre).
  - rewrite <- Hdocs in *.
    assert (Documents exercise <> []) as Hne by by rewrite Hdocs.
    rewrite (runSubmit_packaging _ _ _ _ _ _ _ _ Hcol Hne). cbn [trace fst].
    rewrite (bind_Ok _ _ _ Hbody). cbn [trace fst].
    rewrite !formFiles_app, (formFiles_none _ _ Hpre) by done.
    rewrite (formFiles_none _ _ (transmit_trace _ _ _)) by done.
    rewrite app_nil_r. cbn [app]. by apply packageDocuments_formFiles.
Qed.

(** C9: the parts of the packaged body are in the order of the
    command line.  The arguments resolve one by one, in their order, to
    the files [args']; the parts of the body are, one by one and in
    that order, the parts of the arguments whose file is not empty:
    at every position, the file name of the part is the path of the
    document of that argument and its content the bytes of its file.
    The empty files are left out and nothing is reordered.  The form
    files the run creates are, in the order of its calls, those parts;
    a request that the run sends has this body; and the run sends it
    when the body has a part and package api gives a client and a
    request. *)
Theorem parts_in_argument_order cfg flags args args' ws dir solution exercise body :
  collected pkg w cfg args args' ws dir solution exercise ->
  outcome (packageDocuments w (Documents exercise)) = Ok body ->
  Forall2 (fun arg file => outcome (resolveArg pkg w arg) = Ok file) args args' /\
  Forall2 (fun arg part =>
             exists file doc,
               outcome (resolveArg pkg w arg) = Ok file /\
               workspace_NewDocument w (ExFilepath (exerciseAt w dir)) file = Ok doc /\
               FormName part = "files[]" /\ FileName part = Path doc /\
               io_Copy w (Filepath doc) = Ok (Content part))
          (List.filter (nonEmptyArg pkg w) args) (Parts body) /\
  length (Parts body) = length (List.filter (nonEmpty w) args') /\
  formFiles (trace (runSubmit pkg w cfg flags args)) =
    (fun part => (FormName part, FileName part)) <$> Parts body /\
  (forall req, EvDo req ∈ trace (runSubmit pkg w cfg flags args) -> Body req = body) /\
  (forall client,
     Parts body <> [] ->
     api_NewClient w (token cfg) (apibaseurl cfg) = Ok client ->
     client_NewRequestErr w client "PATCH" (submitURL (UserViperConfig cfg) solution) = None ->
     EvDo (requestOf w (UserViperConfig cfg) solution client body)
       ∈ trace (runSubmit pkg w cfg flags args)).
Proof.
  intros Hcol Hbody.
  pose proof (parts_of_resolved _ _ _ _ _ _ _ _ Hcol Hbody) as Hparts.
  assert (Forall2 (fun arg file => outcome (resolveArg pkg w arg) = Ok file) args args')
    as Hargs.
  { destruct Hcol as [[[_ _ Hargs _] _ _] _ _]. by apply resolveArgs_Ok. }
  split_and!; [done| |by rewrite (Forall2_length _ _ _ Hparts)| | |].
  - assert (Forall2 (fun arg file => outcome (resolveArg pkg w arg) = Ok file)
              (List.filter (nonEmptyArg pkg w) args) (List.filter (nonEmpty w) args')) as Hkept.
    { apply Forall2_filter_both; [done|].
      intros arg file H. unfold nonEmptyArg. by rewrite H. }
    eapply Forall2_impl; [exact (Forall2_compose _ _ _ _ _ Hkept Hparts)|].
    intros arg part (file & Hfile & doc & Hdoc & Hn & Hf & Hc).
    by exists file, doc.
  - by eapply runSubmit_formFiles.
  - intros req Hin.
    destruct (runSubmit_sends_collected _ _ _ _ _ _ _ _ _ Hcol Hin)
      as (_ & client & body' & Hbody' & ->).
    cbn. congruence.
  - intros client Hne Hclient Hreq.
    assert (Documents exercise <> []) as Hdocs.
    { intros Hnil. rewrite Hnil in Hbody.
      apply packageDocuments_Ok in Hbody as (_ & _ & Hnone & _).
      by apply Forall2_nil_inv_l in Hnone. }
    rewrite (runSubmit_packaging _ _ _ _ _ _ _ _ Hcol Hdocs). cbn [trace fst].
    rewrite (bind_Ok _ _ _ Hbody), (transmit_eq _ _ _ _ Hclient Hreq). cbn [trace fst].
    rewrite !elem_of_app. right. right. do 3 right. left.
Qed.

(** C10: nothing removes duplicates.  When two arguments, at
    different places of the command line, resolve to the same file,
    the same path twice or two symlinks to one target, and the file is
    not empty, the packaged body has that file's part at two different
    places, with the same file name and the same content, and the
    request that is sent has this body. *)
Theorem duplicates_are_submitted_twice cfg flags args args' ws dir solution exercise
    body client i j a b file :
  collected pkg w cfg args args' ws dir solution exercise ->
  outcome (packageDocuments w (Documents exercise)) = Ok body ->
  api_NewClient w (token cfg) (apibaseurl cfg) = Ok client ->
  client_NewRequestErr w client "PATCH" (submitURL (UserViperConfig cfg) solution) = None ->
  i <> j ->
  args !! i = Some a ->
  args !! j = Some b ->
  outcome (resolveArg pkg w a) = Ok file ->
  outcome (resolveArg pkg w b) = Ok file ->
  nonEmpty w file = true ->
  exists i' j' part req,
    i' <> j' /\
    Parts body !! i' = Some part /\
    Parts body !! j' = Some part /\
    part_of_file w (ExFilepath (exerciseAt w dir)) file part /\
    EvDo req ∈ trace (runSubmit pkg w cfg flags args) /\
    Body req = body.
Proof.
  intros Hcol Hbody Hclient Hreq Hij Hi Hj Ha Hb Hne.
  pose proof (parts_of_resolved _ _ _ _ _ _ _ _ Hcol Hbody) as Hparts.
  assert (Forall2 (fun arg file => outcome (resolveArg pkg w arg) = Ok file) args args')
    as Hargs.
  { destruct Hcol as [[[_ _ Hargs _] _ _] _ _]. by apply resolveArgs_Ok. }
  assert (args' !! i = Some file) as Hi'.
  { destruct (Forall2_lookup_l _ _ _ _ _ Hargs Hi) as (f & Hf & Hres). congruence. }
  assert (args' !! j = Some file) as Hj'.
  { destruct (Forall2_lookup_l _ _ _ _ _ Hargs Hj) as (f & Hf & Hres). congruence. }
  assert (exists i' j', (i' < j')%nat /\
            List.filter (nonEmpty w) args' !! i' = Some file /\
            List.filter (nonEmpty w) args' !! j' = Some file) as (i' & j' & Hlt & Hki & Hkj).
  { destruct (decide (i < j)%nat).
    - by apply (filter_lookup_two (nonEmpty w) args' i j).
    - apply (filter_lookup_two (nonEmpty w) args' j i); [lia|done..]. }
  destruct (Forall2_lookup_l _ _ _ _ _ Hparts Hki) as (part1 & Hp1 & Hpart1).
  destruct (Forall2_lookup_l _ _ _ _ _ Hparts Hkj) as (part2 & Hp2 & Hpart2).
  assert (part2 = part1) as -> by by eapply part_of_file_unique.
  exists i', j', part1, (requestOf w (UserViperConfig cfg) solution client body).
  split_and!; [lia|done..| |done].
  assert (Documents exercise <> []) as Hdocs.
  { intros Hnil. rewrite Hnil in Hbody.
    apply packageDocuments_Ok in Hbody as (_ & _ & Hnone & _).
    apply Forall2_nil_inv_l in Hnone. by rewrite Hnone in Hp1. }
  rewrite (runSubmit_packaging _ _ _ _ _ _ _ _ Hcol Hdocs). cbn [trace fst].
  rewrite (bind_Ok _ _ _ Hbody), (transmit_eq _ _ _ _ Hclient Hreq). cbn [trace fst].
  rewrite !elem_of_app. right. right. do 3 right. left.
Qed.

Lemma collectDocuments_warnings ex l ex' :
  outcome (collectDocuments w ex l) = Ok ex' ->
  written Err_ (trace (collectDocuments w ex l)) =
  warning <$> List.filter (fun file => negb (nonEmpty w file)) l.
Proof.
  revert ex. induction l as [|file l IH]; intros ex; cbn [collectDocuments]; [done|].
  rewrite outcome_bind, trace_bind. cbn [call outcome trace fst snd List.filter].
  unfold nonEmpty at 1.
  destruct (os_Stat w file) as [info|]; [|done].
  destruct (Size info =? 0); cbn [negb].
  - rewrite outcome_bind, trace_bind. cbn [Fprintf call outcome trace fst snd].
    intros H. rewrite fmap_cons, <- (IH _ H). done.
  - rewrite outcome_bind, trace_bind. cbn [call outcome trace fst snd].
    destruct (workspace_NewDocument w (ExFilepath ex) file) as [doc|]; [|done].
    intros H. by rewrite <- (IH _ H).
Qed.

Lemma bind_after_two {A B} (e1 e2 : event) (m : M A) (k : A -> M B) :
  bind (e1 :: e2 :: trace m, outcome m) k =
  (e1 :: e2 :: trace (bind m k), outcome (bind m k)).
Proof. destruct m as [t [a|e]]; cbn; [by destruct (k a)|done]. Qed.

Lemma runSubmit_fromCollection cfg flags args before after ws dir solution ex1 :
  located pkg w cfg args (before ++ after) ws dir solution ->
  IsRequester solution = true ->
  outcome (collectDocuments w (exerciseAt w dir) before) = Ok ex1 ->
  runSubmit pkg w cfg flags args =
  (locatedTrace pkg w cfg args (before ++ after) ws dir ++
     trace (collectDocuments w (exerciseAt w dir) before) ++
     trace (fromCollection w (UserViperConfig cfg) solution ex1 after),
   outcome (fromCollection w (UserViperConfig cfg) solution ex1 after)).
Proof.
  intros Hloc Hreq Hbefore.
  rewrite (runSubmit_located _ _ _ _ _ _ _ _ _ Hloc).
  unfold fromSolution, fromCollection. rewrite Hreq. cbn [negb].
  rewrite collectDocuments_app, bind_assoc, (bind_Ok _ _ _ Hbefore).
  done.
Qed.

(** C2: (1) when the third loop of a run comes to a file of size
    zero, the run writes the warning with the path of the file to the
    error stream, right after the stat of the file, and goes on with
    the files after it, the documents collected so far unchanged: the
    file gives no document and the run does not fail there.  (2) In a
    run that has gone through the loop, the error stream has got, in
    the order of the arguments, one warning for each file of size zero
    and the output stream nothing; the documents are those of the files
    that are not empty; and a request that the run sends has one part
    for each of these files and none for an empty one.  (3) A run that
    ends the loop without any document fails with the error of lines
    177-182, "No files found to submit", and has built and sent
    nothing.  (4) Whatever the run, a request that is sent has at least
    one part. *)
Theorem empty_files_skipped :
  (forall cfg flags args before file after ws dir solution ex1 info,
     located pkg w cfg args (before ++ file :: after) ws dir solution ->
     IsRequester solution = true ->
     outcome (collectDocuments w (exerciseAt w dir) before) = Ok ex1 ->
     os_Stat w file = Ok info ->
     Size info = 0 ->
     runSubmit pkg w cfg flags args =
     (locatedTrace pkg w cfg args (before ++ file :: after) ws dir ++
        trace (collectDocuments w (exerciseAt w dir) before) ++
        EvStat file ::
        EvFprintf Err_
          (LF +:+ LF +:+
           "    WARNING: Skipping empty file" +:+ LF +:+
           "             " +:+ file +:+ LF +:+ LF +:+ TAB +:+ TAB) ::
        trace (fromCollection w (UserViperConfig cfg) solution ex1 after),
      outcome (fromCollection w (UserViperConfig cfg) solution ex1 after))) /\
  (forall cfg flags args args' ws dir solution exercise,
     collected pkg w cfg args args' ws dir solution exercise ->
     (exists rest,
        trace (runSubmit pkg w cfg flags args) =
          collectedTrace pkg w cfg args args' ws dir ++ rest /\
        written Err_ (collectedTrace pkg w cfg args args' ws dir) =
          (fun file =>
             LF +:+ LF +:+
             "    WARNING: Skipping empty file" +:+ LF +:+
             "             " +:+ file +:+ LF +:+ LF +:+ TAB +:+ TAB)
          <$> List.filter (fun file => negb (nonEmpty w file)) args' /\
        written Out (collectedTrace pkg w cfg args args' ws dir) = []) /\
     Forall2 (fun file doc =>
                workspace_NewDocument w (ExFilepath (exerciseAt w dir)) file = Ok doc)
             (List.filter (nonEmpty w) args') (Documents exercise) /\
     (forall req,
        EvDo req ∈ trace (runSubmit pkg w cfg flags args) ->
        Forall2 (part_of_file w (ExFilepath (exerciseAt w dir)))
                (List.filter (nonEmpty w) args') (Parts (Body req)))) /\
  (forall cfg flags args args' ws dir solution exercise,
     collected pkg w cfg args args' ws dir solution exercise ->
     Documents exercise = [] ->
     outcome (runSubmit pkg w cfg flags args) = Err (errorsNew msgNoFiles) /\
     Forall (fun e => is_packaging e = false /\ is_network e = false)
            (trace (runSubmit pkg w cfg flags args))) /\
  (forall cfg flags args req,
     EvDo req ∈ trace (runSubmit pkg w cfg flags args) ->
     Parts (Body req) <> []).
Proof.
  split_and!.
  - intros cfg flags args before file after ws dir solution ex1 info
      Hloc Hreq Hbefore Hstat Hsize.
    rewrite (runSubmit_fromCollection _ _ _ _ _ _ _ _ _ Hloc Hreq Hbefore).
    unfold fromCollection.
    rewrite (collectDocuments_empty_file _ _ _ _ Hstat Hsize), Sprintf_msgSkippingEmpty.
    by rewrite bind_after_two.
  - intros cfg flags args args' ws dir solution ex Hcol. split_and!.
    + eexists. split_and!.
      * rewrite (runSubmit_collected _ _ _ _ _ _ _ _ _ _ Hcol). cbn [trace fst]. reflexivity.
      * unfold collectedTrace. rewrite written_app.
        rewrite (written_none _ Err_ _ (locatedTrace_location pkg w cfg args args' ws dir))
          by done.
        rewrite (collectDocuments_warnings _ _ _ (col_exercise _ _ _ _ _ _ _ _ _ Hcol)).
        cbn [app]. apply list_fmap_ext. intros _ file _.
        unfold warning. apply Sprintf_msgSkippingEmpty.
      * unfold collectedTrace. rewrite written_app.
        rewrite (written_none _ Out _ (locatedTrace_location pkg w cfg args args' ws dir))
          by done.
        by rewrite collectDocuments_written_Out.
    + destruct (collectDocuments_Ok _ _ _ (col_exercise _ _ _ _ _ _ _ _ _ Hcol))
        as (_ & docs & Hdocs & Hall).
      cbn in Hdocs. by rewrite Hdocs.
    + intros req Hin.
      destruct (runSubmit_sends_collected _ _ _ _ _ _ _ _ _ Hcol Hin)
        as (_ & client & body & Hbody & ->).
      cbn. by eapply parts_of_resolved.
  - intros cfg flags args args' ws dir solution ex Hcol Hdocs.
    rewrite (runSubmit_collected _ _ _ _ _ _ _ _ _ _ Hcol), Hdocs.
    cbn. split; [done|]. rewrite app_nil_r.
    eapply Forall_impl; [apply collectedTrace_before_packaging|].
    intros e. unfold before_packaging.
    by intros [?%negb_true_iff ?%negb_true_iff]%andb_prop.
  - intros cfg flags args req Hin.
    apply runSubmit_sends in Hin
      as (args' & ws & dir & solution & ex & client & body & _ & Hdocs & Hbody & ->).
    apply packageDocuments_Ok in Hbody as (_ & _ & Hparts & _).
    cbn. intros Hnil. rewrite Hnil in Hparts.
    by apply Forall2_nil_inv_r in Hparts.
Qed.

(** The solution a run loads: the directory of its one call to
    [workspace.NewSolution]. *)
Lemma fromSolution_trace cfg args' dir solution :
  Forall (fun e => is_location e = false)
         (trace (fromSolution pkg w cfg args' dir solution)).
Proof.
  unfold fromSolution. destruct (IsRequester solution); cbn [negb]; [|constructor].
  rewrite trace_bind. apply Forall_app. split.
  { eapply Forall_impl; [apply collectDocuments_trace|]. apply location_not_collection. }
  destruct (outcome (collectDocuments _ _ _)) as [ex|]; [|constructor].
  destruct (Nat.eqb _ _); [constructor|].
  rewrite trace_bind. apply Forall_app. split.
  { eapply Forall_impl; [apply packageDocuments_trace|]. apply location_not_writing. }
  destruct (outcome (packageDocuments _ _)) as [body|]; [|constructor].
  eapply Forall_impl; [apply transmit_trace|]. apply location_not_sending.
Qed.

Lemma loaded_solution cfg flags args args' ws dir solution :
  located pkg w cfg args args' ws dir solution ->
  EvNewSolution dir ∈ trace (runSubmit pkg w cfg flags args) /\
  forall d, EvNewSolution d ∈ trace (runSubmit pkg w cfg flags args) -> d = dir.
Proof.
  intros Hloc. rewrite (runSubmit_located _ _ _ _ _ _ _ _ _ Hloc). cbn [trace fst].
  unfold locatedTrace. split.
  - apply elem_of_app. left. apply elem_of_app. right. apply elem_of_cons. right.
    apply elem_of_app. right. left.
  - intros d [Hin|Hin]%elem_of_app.
    + apply elem_of_app in Hin as [Hin|Hin].
      { exfalso.
        by eapply (not_elem_of_class is_resolution), Hin; [apply resolveArgs_trace|]. }
      apply elem_of_cons in Hin as [Hin|Hin]; [done|].
      apply elem_of_app in Hin as [Hin|Hin].
      { exfalso.
        by eapply (not_elem_of_class is_solutionDir), Hin; [apply solutionDirs_trace|]. }
      apply list_elem_of_singleton in Hin. by injection Hin.
    + exfalso. pose proof (fromSolution_trace cfg args' dir solution) as Hall.
      rewrite Forall_forall in Hall. by apply Hall in Hin.
Qed.

End Properties.

(** ** Directory arguments *)

Section Directories.

Context (pkg : CmdPkg) (w : World).

(** An argument that [os.Lstat] reports as a directory ends the first
    loop with the message of lines 84-95. *)
Lemma resolveArg_directory arg path info :
  filepath_Abs w arg = Ok path ->
  os_Lstat w path = Ok info ->
  IsDir info = true ->
  resolveArg pkg w arg =
  ([EvAbs arg; EvLstat path], Err (Errorf msgDirectory [path; BinaryName pkg])).
Proof.
  intros Habs Hlstat Hdir. unfold resolveArg.
  rewrite (bind_call_Ok _ _ _ _ Habs), Hlstat. cbn. by rewrite Hdir.
Qed.

Lemma Sprintf_msgDirectory path binary :
  Sprintf msgDirectory [path; binary] =
  LF +:+ LF +:+
  "    You are submitting a directory, which is not currently supported." +:+ LF +:+ LF +:+
  "        " +:+ path +:+ LF +:+ LF +:+
  "    Please change into the directory and provide the path to the file(s) you wish to submit" +:+ LF +:+ LF +:+
  "        " +:+ binary +:+ " submit FILENAME" +:+ LF +:+ LF +:+
  TAB +:+ TAB +:+ TAB.
Proof. reflexivity. Qed.

(** A run whose arguments resolve up to a directory is rejected with
    that message, before the workspace is looked at. *)
Lemma directory_rejected cfg flags before before' arg path info after :
  String.eqb (GetString (UserViperConfig cfg) "token") "" = false ->
  String.eqb (GetString (UserViperConfig cfg) "workspace") "" = false ->
  outcome (resolveArgs pkg w before) = Ok before' ->
  filepath_Abs w arg = Ok path ->
  os_Lstat w path = Ok info ->
  IsDir info = true ->
  runSubmit pkg w cfg flags (before ++ arg :: after) =
  (trace (resolveArgs pkg w before) ++ [EvAbs arg; EvLstat path],
   Err (Errorf msgDirectory [path; BinaryName pkg])).
Proof.
  intros Ht Hw Hbefore Habs Hlstat Hdir.
  rewrite runSubmit_configured by done.
  assert (resolveArgs pkg w (before ++ arg :: after) =
          (trace (resolveArgs pkg w before) ++ [EvAbs arg; EvLstat path],
           Err (Errorf msgDirectory [path; BinaryName pkg]))) as ->; [|done].
  clear Ht Hw. revert before' Hbefore.
  induction before as [|x before IH]; intros before' Hbefore.
  - cbn [app resolveArgs trace fst ret].
    by rewrite (resolveArg_directory _ _ _ Habs Hlstat Hdir).
  - cbn [app resolveArgs] in *. rewrite outcome_bind in Hbefore.
    destruct (outcome (resolveArg pkg w x)) as [x'|] eqn:Hx; [|done].
    rewrite outcome_bind in Hbefore.
    destruct (outcome (resolveArgs pkg w before)) as [rest|] eqn:Hrest; [|done].
    rewrite (bind_Ok _ _ _ Hx), (IH rest eq_refl). cbn [bind trace outcome fst snd].
    rewrite trace_bind, Hx, trace_bind, Hrest. cbn. by rewrite app_nil_r, app_assoc.
Qed.

End Directories.

(** C4: the directory test of line 83 is made on what [os.Lstat]
    says of the argument, and [Lstat] does not follow a symlink.  In
    the workspace of [Fixture], [link] is a symlink to the directory
    [sub]: [Lstat] reports a symlink, [Stat] a directory.  The run on
    [link] is not rejected with the directory message: the argument is
    replaced by the directory it leads to, the directory becomes a
    document, a part is opened for it, and the run ends on the error of
    reading a directory.  The run on [sub] itself is rejected with the
    message. *)
Theorem symlinked_directory_not_rejected :
  os_Lstat Fixture.w "/ws/go/hello/link" =
    Ok {| Mode := ModeSymlink; Size := 16 |} /\
  os_Stat Fixture.w "/ws/go/hello/link" = Ok {| Mode := ModeDir; Size := 4096 |} /\
  runSubmit Fixture.pkg Fixture.w Fixture.cfg ∅ ["link"] =
    ([EvAbs "link"; EvLstat "/ws/go/hello/link"; EvEvalSymlinks "/ws/go/hello/link";
      EvWorkspaceNew "/ws"; EvSolutionDir "/ws/go/hello/sub";
      EvNewSolution "/ws/go/hello"; EvStat "/ws/go/hello/sub";
      EvNewDocument "/ws/go/hello" "/ws/go/hello/sub"; EvNewWriter;
      EvOpen "/ws/go/hello/sub"; EvCreateFormFile "files[]" "sub";
      EvCopy "/ws/go/hello/sub"],
     Err (PathError "read" "/ws/go/hello/sub" EISDIR)) /\
  outcome (runSubmit Fixture.pkg Fixture.w Fixture.cfg ∅ ["link"]) <>
    Err (Errorf msgDirectory ["/ws/go/hello/link"; "exercism"]) /\
  runSubmit Fixture.pkg Fixture.w Fixture.cfg ∅ ["sub"] =
    ([EvAbs "sub"; EvLstat "/ws/go/hello/sub"],
     Err (Errorf msgDirectory ["/ws/go/hello/sub"; "exercism"])).
Proof.
  split_and!; try (vm_compute; reflexivity).
  vm_compute. discriminate.
Qed.

(** ** Configuration precedence, proved *)

Module ConfigPrecedence.

Import ConfigResolver.

Lemma flag_first (flags persisted : gmap string string) key value :
  flags !! key = Some value -> GetString (resolve flags persisted) key = value.
Proof.
  intros H. unfold GetString, resolve.
  by rewrite <- (assoc_L (∪)), (lookup_union_Some_l _ _ _ _ H).
Qed.

Lemma persisted_second (flags persisted : gmap string string) key value :
  flags !! key = None -> persisted !! key = Some value ->
  GetString (resolve flags persisted) key = value.
Proof.
  intros Hf Hp. unfold GetString, resolve.
  by rewrite <- (assoc_L (∪)), (lookup_union_r _ _ _ Hf), (lookup_union_Some_l _ _ _ _ Hp).
Qed.

Lemma default_last (flags persisted : gmap string string) key :
  flags !! key = None -> persisted !! key = None ->
  GetString (resolve flags persisted) key = GetString defaults key.
Proof.
  intros Hf Hp. unfold GetString, resolve.
  by rewrite <- (assoc_L (∪)), (lookup_union_r _ _ _ Hf), (lookup_union_r _ _ _ Hp).
Qed.

(** C8: with no flag and no persisted value for it, the API base URL
    resolves to "https://api.exercism.com/v1"; a value given by a flag
    is the resolved value of its key whatever is persisted; a key no
    flag gives keeps its persisted value; the persisted token
    "token-c" and workspace "/workspace-c" with the flag [--token c]
    resolve to the token "c" and the workspace "/workspace-c"; and all
    the rows of the table of [TestConfigure] pass. *)
Theorem config_precedence :
  (forall flags persisted : gmap string string,
     flags !! "apibaseurl" = None -> persisted !! "apibaseurl" = None ->
     apiBaseURL (effective flags persisted) = "https://api.exercism.com/v1") /\
  (forall (flags persisted : gmap string string) key value,
     flags !! key = Some value ->
     GetString (resolve flags persisted) key = value) /\
  (forall (flags persisted : gmap string string) key value,
     flags !! key = None -> persisted !! key = Some value ->
     GetString (resolve flags persisted) key = value) /\
  (let c := effective (parseFlags ["--token"; "c"])
                      {[ "token" := "token-c"; "workspace" := "/workspace-c" ]} in
   token c = "c" /\ workspaceRoot c = "/workspace-c") /\
  forallb passes tests = true.
Proof.
  split_and!.
  - intros flags persisted Hf Hp. cbn. by rewrite default_last.
  - apply flag_first.
  - apply persisted_second.
  - vm_compute. done.
  - vm_compute. done.
Qed.

End ConfigPrecedence.

(** ** The theorems on the workspace of [Fixture] *)

Module Runs.

Import Fixture.

Lemma args0_resolved : resolved pkg w cfg args0 args0' ws0.
Proof. split; vm_compute; reflexivity. Qed.

Lemma args0_located : located pkg w cfg args0 args0' ws0 "/ws/go/hello" hello.
Proof. split; [apply args0_resolved|vm_compute; reflexivity..]. Qed.

Lemma args0_collected :
  collected pkg w cfg args0 args0' ws0 "/ws/go/hello" hello exercise0.
Proof. split; [apply args0_located|vm_compute; reflexivity..]. Qed.

Lemma empty_collected :
  collected pkg w cfg ["empty.go"] ["/ws/go/hello/empty.go"] ws0 "/ws/go/hello" hello
    {| ExFilepath := "/ws/go/hello"; Documents := [] |}.
Proof. repeat split; vm_compute; reflexivity. Qed.

Lemma bob_located :
  located pkg w cfg ["/ws/go/bob/bob.go"] ["/ws/go/bob/bob.go"] ws0 "/ws/go/bob" bob.
Proof. repeat split; vm_compute; reflexivity. Qed.

Lemma two_solutions_resolved :
  resolved pkg w cfg ["hello.go"; "/ws/go/leap/leap.go"]
    ["/ws/go/hello/hello.go"; "/ws/go/leap/leap.go"] ws0.
Proof. split; vm_compute; reflexivity. Qed.

Lemma different_solutions_rejected_witness :
  outcome (runSubmit pkg w cfg ∅ ["/ws/go/leap/leap.go"; "hello.go"]) =
    Err (errorsNew msgDifferentSolutions) /\
  Forall (fun e => is_packaging e = false /\ is_network e = false)
         (trace (runSubmit pkg w cfg ∅ ["/ws/go/leap/leap.go"; "hello.go"])).
Proof.
  apply (different_solutions_rejected pkg w cfg ∅
           ["hello.go"; "/ws/go/leap/leap.go"]
           ["/ws/go/hello/hello.go"; "/ws/go/leap/leap.go"] ws0).
  - apply two_solutions_resolved.
  - intros a [->|[->|[]%elem_of_nil]%elem_of_cons]%elem_of_cons;
      eexists; (split; [vm_compute; reflexivity|discriminate]).
  - exists "/ws/go/hello/hello.go", "/ws/go/leap/leap.go", "/ws/go/hello", "/ws/go/leap".
    split_and!; [by left|by right; left|vm_compute; reflexivity..|discriminate].
  - apply perm_swap.
Defined.

Lemma empty_files_skipped_witness :
  runSubmit pkg w cfg ∅ args0 =
    (locatedTrace pkg w cfg args0
       (["/ws/go/hello/hello.go"] ++ "/ws/go/hello/empty.go" :: ["/ws/go/hello/hello.go"])
       ws0 "/ws/go/hello" ++
     trace (collectDocuments w (exerciseAt w "/ws/go/hello") ["/ws/go/hello/hello.go"]) ++
     EvStat "/ws/go/hello/empty.go" ::
     EvFprintf Err_
       (LF +:+ LF +:+ "    WARNING: Skipping empty file" +:+ LF +:+
        "             " +:+ "/ws/go/hello/empty.go" +:+ LF +:+ LF +:+ TAB +:+ TAB) ::
     trace (fromCollection w (UserViperConfig cfg) hello
              {| ExFilepath := "/ws/go/hello"; Documents := [helloDoc] |}
              ["/ws/go/hello/hello.go"]),
     outcome (fromCollection w (UserViperConfig cfg) hello
                {| ExFilepath := "/ws/go/hello"; Documents := [helloDoc] |}
                ["/ws/go/hello/hello.go"])) /\
  Forall2 (fun file doc =>
             workspace_NewDocument w (ExFilepath (exerciseAt w "/ws/go/hello")) file = Ok doc)
          (List.filter (nonEmpty w) args0') (Documents exercise0) /\
  outcome (runSubmit pkg w cfg ∅ ["empty.go"]) = Err (errorsNew msgNoFiles) /\
  Parts body0 <> [].
Proof.
  destruct (empty_files_skipped pkg w) as (Hskip & Hrun & Hnone & Hsent).
  split_and!.
  - apply (Hskip cfg ∅ args0 ["/ws/go/hello/hello.go"] "/ws/go/hello/empty.go"
             ["/ws/go/hello/hello.go"] ws0 "/ws/go/hello" hello
             {| ExFilepath := "/ws/go/hello"; Documents := [helloDoc] |}
             {| Mode := ModeRegular; Size := 0 |});
      [apply args0_located|reflexivity|vm_compute; reflexivity..].
  - apply (Hrun cfg ∅ args0 args0' ws0 "/ws/go/hello" hello exercise0).
    apply args0_collected.
  - apply (Hnone cfg ∅ ["empty.go"] ["/ws/go/hello/empty.go"] ws0 "/ws/go/hello" hello
             {| ExFilepath := "/ws/go/hello"; Documents := [] |});
      [apply empty_collected|reflexivity].
  - apply (Hsent cfg ∅ args0 (requestOf w (UserViperConfig cfg) hello client0 body0)).
    apply list_elem_of_lookup. exists 31%nat. vm_compute. reflexivity.
Defined.

Lemma exercise0_files doc :
  doc ∈ Documents exercise0 ->
  os_OpenErr w (Filepath doc) = None /\
  exists data, io_Copy w (Filepath doc) = Ok data.
Proof.
  intros [->|[->|[]%elem_of_nil]%elem_of_cons]%elem_of_cons;
    (split; [vm_compute; reflexivity|eexists; vm_compute; reflexivity]).
Qed.

Lemma body0_packaged : outcome (packageDocuments w (Documents exercise0)) = Ok body0.
Proof. vm_compute. reflexivity. Qed.

Lemma multipart_body_of_documents_witness :
  (exists body t1 t2,
     trace (runSubmit pkg w cfg ∅ args0) =
       t1 ++ EvWriterClose ::
             EvNewClient "abc123" "https://api.exercism.com/v1" ::
             EvNewRequest "PATCH" (submitURL (UserViperConfig cfg) hello) body ::
             EvHeaderSet "Content-Type" (FormDataContentType body) :: t2 /\
     (forall k v, EvHeaderSet k v ∉ t1) /\
     Closed body = true /\
     Forall2 (fun doc part =>
                FormName part = "files[]" /\ FileName part = Path doc /\
                io_Copy w (Filepath doc) = Ok (Content part))
             [helloDoc; helloDoc] (Parts body) /\
     FormDataContentType body = "multipart/form-data; boundary=" +:+ Boundary body) /\
  (forall t1 k v t2,
     trace (runSubmit pkg w cfg ∅ args0) = t1 ++ EvHeaderSet k v :: t2 ->
     EvWriterClose ∈ t1).
Proof.
  apply (multipart_body_of_documents pkg w cfg ∅ args0 args0' ws0 "/ws/go/hello"
           hello exercise0 client0).
  - apply args0_collected.
  - discriminate.
  - apply exercise0_files.
  - reflexivity.
  - reflexivity.
Defined.

Lemma request_sent_and_reported_witness :
  exists req,
    outcome (runSubmit pkg w cfg ∅ args0) = Ok tt /\
    List.filter is_network (trace (runSubmit pkg w cfg ∅ args0)) = [EvDo req] /\
    Method req = "PATCH" /\
    ReqURL req = "https://api.exercism.com/v1" +:+ "/solutions/" +:+ "1a2b3c" /\
    Body req = body0 /\
    Header req !! "Content-Type" = Some (FormDataContentType body0) /\
    written Err_ (trace (runSubmit pkg w cfg ∅ args0)) =
      written Err_ (trace (collectDocuments w (exerciseAt w "/ws/go/hello") args0')) ++
      [LF +:+ LF +:+
       "    Your solution has been submitted successfully." +:+ LF +:+
       "    " +:+ ("View it at:" +:+ LF +:+ LF +:+ "    ") +:+ LF] /\
    written Out (trace (runSubmit pkg w cfg ∅ args0)) =
      ["    " +:+ "https://exercism.io/my/solutions/1a2b3c" +:+ LF +:+ LF].
Proof.
  apply (request_sent_and_reported pkg w cfg ∅ args0 args0' ws0 "/ws/go/hello"
           hello exercise0 body0 client0 {| RespBody := Ok [] |} []).
  - apply args0_collected.
  - discriminate.
  - apply body0_packaged.
  - reflexivity.
  - reflexivity.
  - reflexivity.
  - reflexivity.
Defined.

Lemma missing_configuration_fails_first_witness :
  trace (runSubmit pkg w noToken ∅ args0) = [] /\
  outcome (runSubmit pkg w noToken ∅ args0) =
    Err (Errorf (msgWelcomePleaseConfigure pkg)
           [config_SettingsURL pkg ""; "exercism"]).
Proof.
  destruct (missing_configuration_fails_first pkg w noToken ∅ args0)
    as (Htrace & Htoken & _).
  - left. reflexivity.
  - split; [exact Htrace|]. apply Htoken. reflexivity.
Defined.

Lemma not_requester_fails_before_collection_witness :
  outcome (runSubmit pkg w cfg ∅ ["/ws/go/bob/bob.go"]) =
    Err (errorString
      (LF +:+ LF +:+
       "    The solution you are submitting is not connected to your account." +:+ LF +:+
       "    Please re-download the exercise to make sure it has the data it needs." +:+ LF +:+ LF +:+
       "        " +:+ "exercism" +:+ " download --exercise=" +:+ "bob" +:+
       " --track=" +:+ "go" +:+ LF +:+ LF +:+ TAB +:+ TAB)) /\
  Forall (fun e => is_collection e = false /\ is_packaging e = false /\
                   is_network e = false)
         (trace (runSubmit pkg w cfg ∅ ["/ws/go/bob/bob.go"])).
Proof.
  apply (not_requester_fails_before_collection pkg w cfg ∅ ["/ws/go/bob/bob.go"]
           ["/ws/go/bob/bob.go"] ws0 "/ws/go/bob" bob).
  - apply bob_located.
  - reflexivity.
Defined.

Lemma parts_in_argument_order_witness :
  Forall2 (fun arg file => outcome (resolveArg pkg w arg) = Ok file) args0 args0' /\
  Forall2 (fun arg part =>
             exists file doc,
               outcome (resolveArg pkg w arg) = Ok file /\
               workspace_NewDocument w (ExFilepath (exerciseAt w "/ws/go/hello")) file
                 = Ok doc /\
               FormName part = "files[]" /\ FileName part = Path doc /\
               io_Copy w (Filepath doc) = Ok (Content part))
          (List.filter (nonEmptyArg pkg w) args0) (Parts body0) /\
  length (Parts body0) = length (List.filter (nonEmpty w) args0') /\
  formFiles (trace (runSubmit pkg w cfg ∅ args0)) =
    [("files[]", "hello.go"); ("files[]", "hello.go")] /\
  EvDo (requestOf w (UserViperConfig cfg) hello client0 body0)
    ∈ trace (runSubmit pkg w cfg ∅ args0).
Proof.
  destruct (parts_in_argument_order pkg w cfg ∅ args0 args0' ws0 "/ws/go/hello" hello
              exercise0 body0)
    as (Hargs & Hparts & Hlen & Hfiles & _ & Hsent).
  - apply args0_collected.
  - apply body0_packaged.
  - split_and!; [exact Hargs|exact Hparts|exact Hlen|exact Hfiles|].
    apply Hsent; [discriminate|reflexivity..].
Defined.

Lemma duplicates_are_submitted_twice_witness :
  exists i' j' part req,
    i' <> j' /\
    Parts body0 !! i' = Some part /\
    Parts body0 !! j' = Some part /\
    part_of_file w (ExFilepath (exerciseAt w "/ws/go/hello")) "/ws/go/hello/hello.go" part /\
    EvDo req ∈ trace (runSubmit pkg w cfg ∅ args0) /\
    Body req = body0.
Proof.
  apply (duplicates_are_submitted_twice pkg w cfg ∅ args0 args0' ws0 "/ws/go/hello"
           hello exercise0 body0 client0 0%nat 2%nat "hello.go" "alias.go"
           "/ws/go/hello/hello.go").
  - apply args0_collected.
  - apply body0_packaged.
  - reflexivity.
  - reflexivity.
  - lia.
  - reflexivity.
  - reflexivity.
  - vm_compute. reflexivity.
  - vm_compute. reflexivity.
  - vm_compute. reflexivity.
Defined.

Lemma config_precedence_witness :
  ConfigResolver.apiBaseURL (ConfigResolver.effective {[ "token" := "c" ]}
     {[ "token" := "token-c"; "workspace" := "/workspace-c" ]})
    = "https://api.exercism.com/v1" /\
  GetString (ConfigResolver.resolve {[ "token" := "c" ]}
     {[ "token" := "token-c"; "workspace" := "/workspace-c" ]}) "token" = "c" /\
  GetString (ConfigResolver.resolve {[ "token" := "c" ]}
     {[ "token" := "token-c"; "workspace" := "/workspace-c" ]}) "workspace"
    = "/workspace-c".
Proof.
  destruct ConfigPrecedence.config_precedence as (Hdefault & Hflag & Hpersisted & _).
  split_and!.
  - apply Hdefault; reflexivity.
  - apply Hflag. reflexivity.
  - apply Hpersisted; reflexivity.
Defined.

End Runs.

(** ** The first loop: what ends it and what it gives *)

Section FirstLoop.

Context (pkg : CmdPkg) (w : World).

Abbreviation token cfg := (GetString (UserViperConfig cfg) "token").
Abbreviation workspace cfg := (GetString (UserViperConfig cfg) "workspace").

(** The loop ends at the first argument that fails: the arguments
    after it are not looked at. *)
Lemma resolveArgs_stops before before' arg after e :
  outcome (resolveArgs pkg w before) = Ok before' ->
  outcome (resolveArg pkg w arg) = Err e ->
  resolveArgs pkg w (before ++ arg :: after) =
  (trace (resolveArgs pkg w before) ++ trace (resolveArg pkg w arg), Err e).
Proof.
  revert before'. induction before as [|x before IH]; intros before' Hbefore Harg.
  - cbn [app resolveArgs trace fst ret]. by rewrite (bind_Err _ _ _ Harg).
  - cbn [app resolveArgs] in *. rewrite outcome_bind in Hbefore.
    destruct (outcome (resolveArg pkg w x)) as [x'|] eqn:Hx; [|done].
    rewrite outcome_bind in Hbefore.
    destruct (outcome (resolveArgs pkg w before)) as [rest|] eqn:Hrest; [|done].
    rewrite (bind_Ok _ _ _ Hx), (IH rest eq_refl Harg). cbn [bind trace outcome fst snd].
    rewrite trace_bind, Hx, trace_bind, Hrest. cbn. by rewrite app_nil_r, !app_assoc.
Qed.

Lemma runSubmit_stops_at_argument cfg flags before before' arg after e :
  String.eqb (token cfg) "" = false ->
  String.eqb (workspace cfg) "" = false ->
  outcome (resolveArgs pkg w before) = Ok before' ->
  outcome (resolveArg pkg w arg) = Err e ->
  runSubmit pkg w cfg flags (before ++ arg :: after) =
  (trace (resolveArgs pkg w before) ++ trace (resolveArg pkg w arg), Err e).
Proof.
  intros Ht Hw Hbefore Harg.
  rewrite runSubmit_configured by done.
  by rewrite (resolveArgs_stops _ _ _ after _ Hbefore Harg).
Qed.

Lemma Sprintf_msgFileNotFound path :
  Sprintf msgFileNotFound [path] =
  LF +:+ LF +:+
  "    The file you are trying to submit cannot be found." +:+ LF +:+ LF +:+
  "        " +:+ path +:+ LF +:+ LF +:+ TAB +:+ TAB.
Proof. reflexivity. Qed.

(** X1: an argument that does not exist ([os.Lstat] fails with an
    error that [os.IsNotExist] accepts), after arguments that resolve,
    ends the run with the message of lines 72-79, which names the
    absolute path of the argument; the error of [Lstat] itself is not
    returned.  The run has then made the calls of the arguments before
    it and [Abs] and [Lstat] on this one, and nothing else: the
    arguments after it are not looked at and the workspace is not
    opened. *)
Theorem missing_file_reported cfg flags before before' arg path e after :
  String.eqb (token cfg) "" = false ->
  String.eqb (workspace cfg) "" = false ->
  outcome (resolveArgs pkg w before) = Ok before' ->
  filepath_Abs w arg = Ok path ->
  os_Lstat w path = Err e ->
  IsNotExist e = true ->
  runSubmit pkg w cfg flags (before ++ arg :: after) =
  (trace (resolveArgs pkg w before) ++ [EvAbs arg; EvLstat path],
   Err (errorString
     (LF +:+ LF +:+
      "    The file you are trying to submit cannot be found." +:+ LF +:+ LF +:+
      "        " +:+ path +:+ LF +:+ LF +:+ TAB +:+ TAB))).
Proof.
  intros Ht Hw Hbefore Habs Hlstat Hne.
  assert (resolveArg pkg w arg =
          ([EvAbs arg; EvLstat path], Err (Errorf msgFileNotFound [path]))) as Harg.
  { unfold resolveArg. rewrite (bind_call_Ok _ _ _ _ Habs), Hlstat. cbn.
    by rewrite Hne. }
  rewrite (runSubmit_stops_at_argument cfg flags before before' arg after
             (Errorf msgFileNotFound [path])) by (done || by rewrite Harg).
  rewrite Harg. unfold Errorf. by rewrite Sprintf_msgFileNotFound.
Qed.

(** X2: the other failures of the first loop are returned as they
    are: the error of [filepath.Abs], an error of [os.Lstat] that is
    not a not-exist error, and the error of [filepath.EvalSymlinks] on
    an argument that exists and is not a directory.  In each case the
    run stops at that call. *)
Theorem resolution_error_returned cfg flags before before' arg after e t :
  String.eqb (token cfg) "" = false ->
  String.eqb (workspace cfg) "" = false ->
  outcome (resolveArgs pkg w before) = Ok before' ->
  (filepath_Abs w arg = Err e /\ t = [EvAbs arg]) \/
  (exists path,
     filepath_Abs w arg = Ok path /\ os_Lstat w path = Err e /\
     IsNotExist e = false /\ t = [EvAbs arg; EvLstat path]) \/
  (exists path info,
     filepath_Abs w arg = Ok path /\ os_Lstat w path = Ok info /\
     IsDir info = false /\ filepath_EvalSymlinks w path = Err e /\
     t = [EvAbs arg; EvLstat path; EvEvalSymlinks path]) ->
  runSubmit pkg w cfg flags (before ++ arg :: after) =
  (trace (resolveArgs pkg w before) ++ t, Err e).
Proof.
  intros Ht Hw Hbefore Hcase.
  assert (resolveArg pkg w arg = (t, Err e)) as Harg.
  { unfold resolveArg.
    destruct Hcase as [[Habs ->]|[(path & Habs & Hlstat & Hne & ->)|
                                  (path & info & Habs & Hlstat & Hdir & Heval & ->)]].
    - by rewrite Habs.
    - rewrite (bind_call_Ok _ _ _ _ Habs), Hlstat. cbn. by rewrite Hne.
    - rewrite (bind_call_Ok _ _ _ _ Habs), Hlstat. cbn. by rewrite Hdir, Heval. }
  rewrite (runSubmit_stops_at_argument cfg flags before before' arg after e)
    by (done || by rewrite Harg).
  by rewrite Harg.
Qed.

(** X3: an argument that [os.Lstat] reports as a directory, after
    arguments that resolve, ends the run with the message of lines
    84-95, which names the absolute path of the directory and the
    command to use, [BinaryName submit FILENAME].  [EvalSymlinks] is
    not called on it, the arguments after it are not looked at and the
    workspace is not opened. *)
Theorem directory_argument_message cfg flags before before' arg path info after :
  String.eqb (token cfg) "" = false ->
  String.eqb (workspace cfg) "" = false ->
  outcome (resolveArgs pkg w before) = Ok before' ->
  filepath_Abs w arg = Ok path ->
  os_Lstat w path = Ok info ->
  IsDir info = true ->
  runSubmit pkg w cfg flags (before ++ arg :: after) =
  (trace (resolveArgs pkg w before) ++ [EvAbs arg; EvLstat path],
   Err (errorString
     (LF +:+ LF +:+
      "    You are submitting a directory, which is not currently supported." +:+ LF +:+ LF +:+
      "        " +:+ path +:+ LF +:+ LF +:+
      "    Please change into the directory and provide the path to the file(s) you wish to submit" +:+ LF +:+ LF +:+
      "        " +:+ BinaryName pkg +:+ " submit FILENAME" +:+ LF +:+ LF +:+
      TAB +:+ TAB +:+ TAB))).
Proof.
  intros Ht Hw Hbefore Habs Hlstat Hdir.
  assert (resolveArg pkg w arg =
          ([EvAbs arg; EvLstat path],
           Err (Errorf msgDirectory [path; BinaryName pkg]))) as Harg.
  { unfold resolveArg. rewrite (bind_call_Ok _ _ _ _ Habs), Hlstat. cbn.
    by rewrite Hdir. }
  rewrite (runSubmit_stops_at_argument cfg flags before before' arg after
             (Errorf msgDirectory [path; BinaryName pkg])) by (done || by rewrite Harg).
  rewrite Harg. unfold Errorf. by rewrite Sprintf_msgDirectory.
Qed.

Lemma resolveArg_Ok arg src :
  outcome (resolveArg pkg w arg) = Ok src <->
  exists path info,
    filepath_Abs w arg = Ok path /\ os_Lstat w path = Ok info /\
    IsDir info = false /\ filepath_EvalSymlinks w path = Ok src.
Proof.
  unfold resolveArg. split.
  - destruct (filepath_Abs w arg) as [path|] eqn:Habs; [|done].
    rewrite (bind_call_Ok _ _ _ _ eq_refl). cbn [outcome snd].
    destruct (os_Lstat w path) as [info|] eqn:Hlstat; [|done]. cbn.
    destruct (IsDir info) eqn:Hdir; [done|]. cbn. intros H.
    by exists path, info.
  - intros (path & info & Habs & Hlstat & Hdir & Heval).
    rewrite (bind_call_Ok _ _ _ _ Habs), Hlstat. cbn. by rewrite Hdir.
Qed.

(** X4: the first loop succeeds exactly when every argument has an
    absolute path, [os.Lstat] finds something there that is not a
    directory, and its symlinks resolve; what it leaves in [args] is
    then, argument by argument and in the same order, the resolved
    path: as many paths as arguments, none dropped or moved. *)
Theorem resolved_arguments args args' :
  outcome (resolveArgs pkg w args) = Ok args' <->
  Forall2 (fun arg src =>
             exists path info,
               filepath_Abs w arg = Ok path /\ os_Lstat w path = Ok info /\
               IsDir info = false /\ filepath_EvalSymlinks w path = Ok src)
          args args'.
Proof.
  rewrite resolveArgs_Ok. split; intros H; eapply Forall2_impl; try exact H;
    intros arg src; apply resolveArg_Ok.
Qed.

End FirstLoop.

(** ** The second loop: the solution directory *)

Section SecondLoop.

Context (pkg : CmdPkg) (w : World).

Abbreviation token cfg := (GetString (UserViperConfig cfg) "token").
Abbreviation workspace cfg := (GetString (UserViperConfig cfg) "workspace").

Lemma solutionDirs_app ws cur l1 l2 :
  solutionDirs pkg w ws cur (l1 ++ l2) =
  (d <- solutionDirs pkg w ws cur l1 ;; solutionDirs pkg w ws d l2).
Proof.
  revert cur. induction l1 as [|a l1 IH]; intros cur.
  - cbn [app solutionDirs]. by rewrite bind_ret_l.
  - cbn [app solutionDirs]. rewrite bind_assoc. apply bind_ext. intros d.
    destruct (_ && _); [done|apply IH].
Qed.

(** X5: when [ws.SolutionDir] fails on an argument, after arguments
    it found a directory for, the run ends there: with the
    missing-metadata message of the package when the error is the
    missing-metadata one, and with the error as it is otherwise.  The
    last call of the run is that [SolutionDir]: no solution is loaded
    and nothing is collected, built or sent. *)
Theorem solution_dir_error_reported cfg flags args before a after ws cur e :
  resolved pkg w cfg args (before ++ a :: after) ws ->
  outcome (solutionDirs pkg w ws "" before) = Ok cur ->
  ws_SolutionDir w ws a = Err e ->
  runSubmit pkg w cfg flags args =
  (trace (resolveArgs pkg w args) ++ EvWorkspaceNew (workspace cfg) ::
     trace (solutionDirs pkg w ws "" before) ++ [EvSolutionDir a],
   Err (if IsMissingMetadata e then errorsNew (msgMissingMetadata pkg) else e)).
Proof.
  intros Hres Hbefore Ha.
  rewrite (runSubmit_resolved _ _ _ _ _ _ _ Hres).
  rewrite solutionDirs_app, bind_assoc, (bind_Ok _ _ _ Hbefore).
  cbn [solutionDirs trace outcome fst snd]. rewrite Ha.
  cbn [call mapErr bind trace outcome fst snd].
  by destruct (IsMissingMetadata e).
Qed.

Lemma solutionDirs_Ok ws (l : list string) cur d :
  outcome (solutionDirs pkg w ws cur l) = Ok d ->
  (forall a da, a ∈ l -> ws_SolutionDir w ws a = Ok da -> da <> "") ->
  (forall a, a ∈ l -> ws_SolutionDir w ws a = Ok d) /\
  (l = [] -> d = cur) /\ (cur <> "" -> d = cur).
Proof.
  revert cur. induction l as [|a l IH]; intros cur Hd Hne.
  - injection Hd as ->. split_and!; [by intros a Ha%elem_of_nil|done..].
  - cbn [solutionDirs] in Hd. rewrite outcome_bind in Hd.
    destruct (ws_SolutionDir w ws a) as [da|] eqn:Ha; cbn in Hd; [|done].
    destruct (negb (String.eqb cur "") && negb (String.eqb da cur)) eqn:Hcmp; [done|].
    assert (da <> "") as Hda by (eapply Hne; [left|done]).
    destruct (IH da Hd) as (Hall & _ & Hcur).
    { intros b db Hb. apply Hne. by right. }
    specialize (Hcur Hda). subst d.
    split_and!; [|done|].
    + intros b [->|Hb]%elem_of_cons; [done|by apply Hall].
    + intros Hc. apply andb_false_iff in Hcmp as [H|H]; apply negb_false_iff in H;
        apply String.eqb_eq in H; done.
Qed.

(** X6: when the run has found its solution directory, every
    resolved argument belongs to it: [ws.SolutionDir] gives that one
    directory for each of them (the directories being paths, not the
    empty string). *)
Theorem one_solution_directory cfg args args' ws dir solution :
  located pkg w cfg args args' ws dir solution ->
  (forall a da, a ∈ args' -> ws_SolutionDir w ws a = Ok da -> da <> "") ->
  forall a, a ∈ args' -> ws_SolutionDir w ws a = Ok dir.
Proof.
  intros [_ Hdir _] Hne. by destruct (solutionDirs_Ok _ _ _ _ Hdir Hne) as (H & _).
Qed.

(** The converse: arguments of one directory pass the loop. *)
Lemma solutionDirs_same ws (l : list string) cur d :
  (forall a, a ∈ l -> ws_SolutionDir w ws a = Ok d) ->
  cur = "" \/ cur = d ->
  l <> [] ->
  outcome (solutionDirs pkg w ws cur l) = Ok d.
Proof.
  revert cur. induction l as [|a l IH]; intros cur Hall Hcur Hl; [done|].
  cbn [solutionDirs]. rewrite outcome_bind, (Hall a) by left. cbn.
  assert (negb (String.eqb cur "") && negb (String.eqb d cur) = false) as ->.
  { destruct Hcur as [->| ->]; [done|]. by rewrite String.eqb_refl, andb_false_r. }
  destruct l as [|b l]; [done|].
  apply IH; [|by right|done]. intros x Hx. apply Hall. by right.
Qed.

(** X7: with no argument at all, the run, once configured, opens the
    workspace and asks for the solution of the empty directory name,
    makes no other call, and always fails: with the error of
    [workspace.NewSolution], with the not-requester message, or, the
    solution being the requester's, with "No files found to submit". *)
Theorem no_arguments cfg flags ws :
  String.eqb (token cfg) "" = false ->
  String.eqb (workspace cfg) "" = false ->
  workspace_New w (workspace cfg) = Ok ws ->
  runSubmit pkg w cfg flags [] =
  ([EvWorkspaceNew (workspace cfg); EvNewSolution ""],
   match workspace_NewSolution w "" with
   | Err e => Err e
   | Ok solution =>
       if IsRequester solution
       then Err (errorsNew msgNoFiles)
       else Err (Errorf msgNotRequester
                   [BinaryName pkg; Exercise solution; Track solution])
   end).
Proof.
  intros Ht Hw Hws.
  rewrite (runSubmit_resolved pkg w cfg flags [] [] ws) by done.
  cbn [resolveArgs solutionDirs ret trace outcome fst snd app bind call].
  destruct (workspace_NewSolution w "") as [solution|]; [|done].
  unfold fromSolution. by destruct (IsRequester solution).
Qed.

End SecondLoop.

(** ** The third loop and what the run prints *)

Section Output.

Context (pkg : CmdPkg) (w : World).

Abbreviation token cfg := (GetString (UserViperConfig cfg) "token").
Abbreviation workspace cfg := (GetString (UserViperConfig cfg) "workspace").
Abbreviation apibaseurl cfg := (GetString (UserViperConfig cfg) "apibaseurl").

(** X8: when [os.Stat] fails on a file, or [workspace.NewDocument]
    on a file that is not empty, after files the loop has gone through,
    the run ends with that error as it is.  It stops at that call: the
    files after it are not looked at, and nothing is built or sent. *)
Theorem collection_error_returned cfg flags args before file after ws dir solution
    ex1 e t :
  located pkg w cfg args (before ++ file :: after) ws dir solution ->
  IsRequester solution = true ->
  outcome (collectDocuments w (exerciseAt w dir) before) = Ok ex1 ->
  (os_Stat w file = Err e /\ t = [EvStat file]) \/
  (exists info,
     os_Stat w file = Ok info /\ Size info <> 0 /\
     workspace_NewDocument w (ExFilepath (exerciseAt w dir)) file = Err e /\
     t = [EvStat file; EvNewDocument (ExFilepath (exerciseAt w dir)) file]) ->
  runSubmit pkg w cfg flags args =
  (locatedTrace pkg w cfg args (before ++ file :: after) ws dir ++
     trace (collectDocuments w (exerciseAt w dir) before) ++ t,
   Err e).
Proof.
  intros Hloc Hreq Hbefore Hcase.
  rewrite (runSubmit_located _ _ _ _ _ _ _ _ _ Hloc).
  unfold fromSolution. rewrite Hreq. cbn [negb].
  rewrite collectDocuments_app, bind_assoc, (bind_Ok _ _ _ Hbefore).
  cbn [trace outcome fst snd].
  destruct (collectDocuments_Ok _ _ _ _ Hbefore) as (Hpath & _).
  assert (collectDocuments w ex1 (file :: after) = (t, Err e)) as Hfile.
  { cbn [collectDocuments].
    destruct Hcase as [[Hstat ->]|(info & Hstat & Hsize & Hdoc & ->)].
    - by rewrite Hstat.
    - rewrite (bind_call_Ok _ _ _ _ Hstat).
      apply Z.eqb_neq in Hsize. rewrite Hsize. cbn [trace outcome fst snd].
      by rewrite Hpath, Hdoc. }
  by rewrite Hfile.
Qed.

(** What [transmit] prints and sends, however it ends. *)
Lemma transmit_outputs usrCfg solution body :
  written Err_ (trace (transmit w usrCfg solution body)) =
    match outcome (transmit w usrCfg solution body) with
    | Ok _ => [Sprintf msgSubmitted
                 [if AutoApprove solution then suffixAutoApprove else suffixView]]
    | Err _ => []
    end /\
  written Out (trace (transmit w usrCfg solution body)) =
    match outcome (transmit w usrCfg solution body) with
    | Ok _ => [Sprintf fmtURL [URL solution]]
    | Err _ => []
    end /\
  (length (List.filter is_network (trace (transmit w usrCfg solution body))) <= 1)%nat.
Proof.
  destruct (api_NewClient w (GetString usrCfg "token") (GetString usrCfg "apibaseurl"))
    as [client|e] eqn:Hclient.
  2:{ unfold transmit. rewrite Hclient. cbn. split_and!; [done..|lia]. }
  destruct (client_NewRequestErr w client "PATCH" (submitURL usrCfg solution))
    as [e|] eqn:Hreq.
  - unfold transmit. rewrite (bind_call_Ok _ _ _ _ Hclient). cbn zeta.
    unfold client_NewRequest. rewrite Hreq. cbn. split_and!; [done..|lia].
  - rewrite (transmit_eq _ _ _ _ _ Hclient Hreq). cbn [trace outcome fst snd].
    destruct (client_Do w client _) as [resp|]; [|cbn; split_and!; [done..|lia]].
    destruct (RespBody resp); cbn; split_and!; done || lia.
Qed.

(** The same for the whole of lines 176-244. *)
Lemma packaging_outputs usrCfg solution docs :
  let tail := (body <- packageDocuments w docs ;; transmit w usrCfg solution body) in
  written Err_ (trace tail) =
    match outcome tail with
    | Ok _ => [Sprintf msgSubmitted
                 [if AutoApprove solution then suffixAutoApprove else suffixView]]
    | Err _ => []
    end /\
  written Out (trace tail) =
    match outcome tail with
    | Ok _ => [Sprintf fmtURL [URL solution]]
    | Err _ => []
    end /\
  (length (List.filter is_network (trace tail)) <= 1)%nat.
Proof.
  cbn zeta. rewrite trace_bind, outcome_bind, !written_app, List.filter_app.
  pose proof (packageDocuments_trace w docs) as Hpack.
  rewrite (written_none _ Err_ _ Hpack), (written_none _ Out _ Hpack) by done.
  rewrite (filter_network_none _ _ Hpack) by done.
  destruct (outcome (packageDocuments w docs)) as [body|].
  - apply transmit_outputs.
  - cbn. split_and!; [done..|lia].
Qed.

(** A run either ends in an error before line 185, with calls of the
    loops alone, or it has collected at least one document. *)
Lemma runSubmit_early_or_collected cfg flags args :
  (Forall (fun e => is_early e = true) (trace (runSubmit pkg w cfg flags args)) /\
   exists e, outcome (runSubmit pkg w cfg flags args) = Err e) \/
  exists args' ws dir solution exercise,
    collected pkg w cfg args args' ws dir solution exercise /\
    Documents exercise <> [].
Proof.
  assert (forall t, Forall (fun e => is_location e = true) t ->
                    Forall (fun e => is_early e = true) t) as Hloc_early.
  { intros t H. eapply Forall_impl; [exact H|].
    intros e He. unfold is_early. by rewrite He. }
  assert (forall t, Forall (fun e => is_collection e = true) t ->
                    Forall (fun e => is_early e = true) t) as Hcol_early.
  { intros t H. eapply Forall_impl; [exact H|].
    intros e He. unfold is_early. by rewrite He, orb_true_r. }
  assert (forall t, Forall (fun e => is_resolution e = true) t ->
                    Forall (fun e => is_early e = true) t) as Hres_early.
  { intros t H. eapply Forall_impl; [exact H|]. by intros []. }
  assert (forall t, Forall (fun e => is_solutionDir e = true) t ->
                    Forall (fun e => is_early e = true) t) as Hdir_early.
  { intros t H. eapply Forall_impl; [exact H|]. by intros []. }
  destruct (String.eqb (token cfg) "") eqn:Ht.
  { left. unfold runSubmit. cbn zeta. rewrite Ht. split; [constructor|by eexists]. }
  destruct (String.eqb (workspace cfg) "") eqn:Hw.
  { left. unfold runSubmit. cbn zeta. rewrite Ht, Hw. split; [constructor|by eexists]. }
  destruct (outcome (resolveArgs pkg w args)) as [args'|e] eqn:Hargs.
  2:{ left. rewrite runSubmit_configured, (bind_Err _ _ _ Hargs) by done.
      split; [|by eexists]. apply Hres_early, resolveArgs_trace. }
  destruct (workspace_New w (workspace cfg)) as [ws|e] eqn:Hws.
  2:{ left. rewrite runSubmit_configured, (bind_Ok _ _ _ Hargs) by done.
      unfold fromWorkspace. rewrite Hws. cbn. split; [|by eexists].
      apply Forall_app. split; [|by repeat constructor].
      apply Hres_early, resolveArgs_trace. }
  assert (resolved pkg w cfg args args' ws) as Hres by done.
  destruct (outcome (solutionDirs pkg w ws "" args')) as [dir|e] eqn:Hdir.
  2:{ left. rewrite (runSubmit_resolved _ _ _ _ _ _ _ Hres), (bind_Err _ _ _ Hdir).
      cbn [trace outcome fst snd]. split; [|by eexists]. apply Forall_app. split.
      - apply Hres_early, resolveArgs_trace.
      - constructor; [done|]. apply Hdir_early, solutionDirs_trace. }
  destruct (workspace_NewSolution w dir) as [solution|e] eqn:Hsol.
  2:{ left. rewrite (runSubmit_resolved _ _ _ _ _ _ _ Hres), (bind_Ok _ _ _ Hdir).
      rewrite Hsol. cbn [call bind trace outcome fst snd]. split; [|by eexists].
      apply Forall_app. split.
      - apply Hres_early, resolveArgs_trace.
      - constructor; [done|]. apply Forall_app. split; [|by repeat constructor].
        apply Hdir_early, solutionDirs_trace. }
  assert (located pkg w cfg args args' ws dir solution) as Hloc by done.
  rewrite (runSubmit_located _ _ _ _ _ _ _ _ _ Hloc). cbn [trace outcome fst snd].
  unfold fromSolution.
  destruct (IsRequester solution) eqn:Hreq; cbn [negb].
  2:{ left. cbn. rewrite app_nil_r. split; [|by eexists].
      apply Hloc_early, locatedTrace_location. }
  destruct (outcome (collectDocuments w (exerciseAt w dir) args')) as [ex|e] eqn:Hex.
  2:{ left. rewrite (bind_Err _ _ _ Hex). cbn [trace outcome fst snd].
      split; [|by eexists]. apply Forall_app. split.
      - apply Hloc_early, locatedTrace_location.
      - apply Hcol_early, collectDocuments_trace. }
  destruct (Documents ex) as [|doc docs] eqn:Hdocs.
  - left. rewrite (bind_Ok _ _ _ Hex), Hdocs. cbn. rewrite app_nil_r.
    split; [|by eexists]. apply Forall_app. split.
    + apply Hloc_early, locatedTrace_location.
    + apply Hcol_early, collectDocuments_trace.
  - right. exists args', ws, dir, solution, ex. split; [done|]. by rewrite Hdocs.
Qed.

Lemma written_Out_early t :
  Forall (fun e => is_early e = true) t -> written Out t = [].
Proof.
  intros H. induction H as [|e t He _ IH]; [done|].
  unfold written in *. cbn. rewrite IH.
  by destruct e as [| | | | | | | | | | | | | | | | | |[]].
Qed.

(** X9: what a run that has gone through the third loop writes to
    the error stream is, in the order of the arguments, one warning for
    each file of size zero, and after them the confirmation when the run
    ends without error, and nothing when it ends in an error. *)
Theorem error_stream_of_run cfg flags args args' ws dir solution exercise :
  collected pkg w cfg args args' ws dir solution exercise ->
  written Err_ (trace (runSubmit pkg w cfg flags args)) =
  (warning <$> List.filter (fun file => negb (nonEmpty w file)) args') ++
  match outcome (runSubmit pkg w cfg flags args) with
  | Ok _ =>
      [LF +:+ LF +:+
       "    Your solution has been submitted successfully." +:+ LF +:+
       "    " +:+
       (if AutoApprove solution then suffixAutoApprove else suffixView) +:+ LF]
  | Err _ => []
  end.
Proof.
  intros Hcol.
  rewrite (runSubmit_collected _ _ _ _ _ _ _ _ _ _ Hcol). cbn [trace outcome fst snd].
  unfold collectedTrace. rewrite !written_app.
  rewrite (written_none _ Err_ _ (locatedTrace_location pkg w cfg args args' ws dir))
    by done.
  rewrite (collectDocuments_warnings _ _ _ _ (col_exercise _ _ _ _ _ _ _ _ _ Hcol)).
  cbn [app]. f_equal.
  destruct (Nat.eqb (length (Documents exercise)) 0); [done|].
  destruct (packaging_outputs (UserViperConfig cfg) solution (Documents exercise))
    as (Herr & _). cbn zeta in Herr. rewrite Herr.
  destruct (outcome _); [|done]. by rewrite Sprintf_msgSubmitted.
Qed.

(** X10: the output stream gets something only from a run that ends
    without error: a run that ends in an error, wherever it does, has
    written nothing to it; a run that ends without error has written
    one string, the URL of the solution it loaded, after four spaces
    and before two line feeds.  The solution it loaded is the one of
    the directory of its call to [workspace.NewSolution], the only such
    call of the run. *)
Theorem output_stream_of_run cfg flags args :
  match outcome (runSubmit pkg w cfg flags args) with
  | Err _ => written Out (trace (runSubmit pkg w cfg flags args)) = []
  | Ok _ =>
      exists dir solution,
        EvNewSolution dir ∈ trace (runSubmit pkg w cfg flags args) /\
        (forall d, EvNewSolution d ∈ trace (runSubmit pkg w cfg flags args) -> d = dir) /\
        workspace_NewSolution w dir = Ok solution /\
        written Out (trace (runSubmit pkg w cfg flags args)) =
          ["    " +:+ URL solution +:+ LF +:+ LF]
  end.
Proof.
  destruct (runSubmit_early_or_collected cfg flags args)
    as [[Hearly [e He]]|(args' & ws & dir & solution & ex & Hcol & Hdocs)].
  { rewrite He. by apply written_Out_early. }
  destruct (loaded_solution pkg w cfg flags args args' ws dir solution
              (col_located _ _ _ _ _ _ _ _ _ Hcol)) as (Hin & Huniq).
  assert (written Out (trace (runSubmit pkg w cfg flags args)) =
          match outcome (runSubmit pkg w cfg flags args) with
          | Ok _ => ["    " +:+ URL solution +:+ LF +:+ LF]
          | Err _ => []
          end) as Hout.
  { rewrite (runSubmit_packaging _ _ _ _ _ _ _ _ _ _ Hcol Hdocs).
    cbn [trace outcome fst snd]. unfold collectedTrace. rewrite !written_app.
    rewrite (written_none _ Out _ (locatedTrace_location pkg w cfg args args' ws dir))
      by done.
    rewrite collectDocuments_written_Out. cbn [app].
    destruct (packaging_outputs (UserViperConfig cfg) solution (Documents ex))
      as (_ & Hout & _). cbn zeta in Hout. rewrite Hout.
    destruct (outcome _); [|done]. by rewrite Sprintf_fmtURL. }
  destruct (outcome (runSubmit pkg w cfg flags args)); [|done].
  exists dir, solution. split_and!; [done|done|apply Hcol|done].
Qed.

(** X11: no run sends more than one request: there is no retry. *)
Theorem at_most_one_request cfg flags args :
  (length (List.filter is_network (trace (runSubmit pkg w cfg flags args))) <= 1)%nat.
Proof.
  destruct (runSubmit_cases pkg w cfg flags args)
    as [Hquiet|(args' & ws & dir & solution & ex & Hcol & Hdocs)].
  { rewrite (filter_network_none _ _ Hquiet) by done. cbn. lia. }
  rewrite (runSubmit_packaging _ _ _ _ _ _ _ _ _ _ Hcol Hdocs).
  cbn [trace fst]. rewrite List.filter_app.
  rewrite (filter_network_none _ _ (collectedTrace_before_packaging pkg w cfg args args' ws dir))
    by done.
  by destruct (packaging_outputs (UserViperConfig cfg) solution (Documents ex))
    as (_ & _ & H).
Qed.

End Output.

(** ** Packaging, sending and the whole command *)

Section Sending.

Context (pkg : CmdPkg) (w : World).

Abbreviation token cfg := (GetString (UserViperConfig cfg) "token").
Abbreviation workspace cfg := (GetString (UserViperConfig cfg) "workspace").
Abbreviation apibaseurl cfg := (GetString (UserViperConfig cfg) "apibaseurl").

Lemma writeDocuments_app wr l1 l2 :
  writeDocuments w wr (l1 ++ l2) =
  (wr1 <- writeDocuments w wr l1 ;; writeDocuments w wr1 l2).
Proof.
  revert wr. induction l1 as [|doc l1 IH]; intros wr.
  - cbn [app writeDocuments]. by rewrite bind_ret_l.
  - cbn [app writeDocuments]. rewrite bind_assoc. apply bind_ext. intros file.
    rewrite bind_assoc. apply bind_ext. intros wr1.
    rewrite bind_assoc. apply bind_ext. intros data. apply IH.
Qed.

Lemma os_Open_None name :
  os_OpenErr w name = None -> os_Open w name = Ok {| Name := name |}.
Proof. intros H. unfold os_Open. by rewrite H. Qed.

Lemma writeDocuments_opened wr docs :
  (forall doc, doc ∈ docs ->
     os_OpenErr w (Filepath doc) = None /\
     exists data, io_Copy w (Filepath doc) = Ok data) ->
  opened (trace (writeDocuments w wr docs)) = Filepath <$> docs.
Proof.
  revert wr. induction docs as [|doc rest IH]; intros wr Hall; [done|].
  destruct (Hall doc) as (Hopen & data & Hdata); [left|].
  cbn [writeDocuments].
  rewrite (bind_call_Ok _ _ _ _ (os_Open_None _ Hopen)). cbn [trace outcome fst snd Name].
  unfold CreateFormFile.
  rewrite (bind_call_Ok _ _ _ _ eq_refl). cbn [trace outcome fst snd].
  rewrite (bind_call_Ok _ _ _ _ Hdata). cbn [trace outcome fst snd].
  unfold opened in *. cbn. rewrite IH; [done|].
  intros d Hd. apply Hall. by right.
Qed.

Lemma opened_none (P : event -> bool) t :
  Forall (fun e => P e = true) t ->
  (forall path, P (EvOpen path) = false) ->
  opened t = [].
Proof.
  intros Hall HP. induction Hall as [|e t He _ IH]; [done|].
  unfold opened in *. cbn. rewrite IH.
  destruct e; try done. by rewrite HP in He.
Qed.

Lemma opened_app t1 t2 : opened (t1 ++ t2) = opened t1 ++ opened t2.
Proof. apply omap_app. Qed.

(** X12: when a document cannot be opened, or its file cannot be
    read, after documents that were written, the run ends with that
    error as it is.  The writer is not closed, no client or request is
    made, nothing is sent, and the files the run has opened are those
    of the documents up to this one: the documents after it are never
    opened. *)
Theorem packaging_error_returned cfg flags args args' ws dir solution exercise
    before doc after e t :
  collected pkg w cfg args args' ws dir solution exercise ->
  Documents exercise = before ++ doc :: after ->
  (forall d, d ∈ before ->
     os_OpenErr w (Filepath d) = None /\
     exists data, io_Copy w (Filepath d) = Ok data) ->
  (os_OpenErr w (Filepath doc) = Some e /\ t = [EvOpen (Filepath doc)]) \/
  (os_OpenErr w (Filepath doc) = None /\ io_Copy w (Filepath doc) = Err e /\
   t = [EvOpen (Filepath doc); EvCreateFormFile "files[]" (Path doc);
        EvCopy (Filepath doc)]) ->
  runSubmit pkg w cfg flags args =
    (collectedTrace pkg w cfg args args' ws dir ++
       EvNewWriter ::
       trace (writeDocuments w (NewWriter (randomBoundary w)) before) ++ t,
     Err e) /\
  opened (trace (runSubmit pkg w cfg flags args)) = Filepath <$> (before ++ [doc]) /\
  List.filter is_network (trace (runSubmit pkg w cfg flags args)) = [].
Proof.
  intros Hcol Hdocs Hbefore Hcase.
  assert (Documents exercise <> []) as Hne by (rewrite Hdocs; by destruct before).
  destruct (writeDocuments_succeeds w (NewWriter (randomBoundary w)) before Hbefore)
    as [wr1 Hwr1].
  assert (forall wr, writeDocuments w wr (doc :: after) = (t, Err e)) as Hdoc.
  { intros wr. cbn [writeDocuments].
    destruct Hcase as [[Hopen ->]|(Hopen & Hcopy & ->)].
    - unfold os_Open. by rewrite Hopen.
    - rewrite (bind_call_Ok _ _ _ _ (os_Open_None _ Hopen)).
      cbn [trace outcome fst snd Name]. unfold CreateFormFile.
      rewrite (bind_call_Ok _ _ _ _ eq_refl). cbn [trace outcome fst snd].
      by rewrite Hcopy. }
  assert (runSubmit pkg w cfg flags args =
    (collectedTrace pkg w cfg args args' ws dir ++
       EvNewWriter ::
       trace (writeDocuments w (NewWriter (randomBoundary w)) before) ++ t,
     Err e)) as Hrun.
  { rewrite (runSubmit_packaging _ _ _ _ _ _ _ _ _ _ Hcol Hne).
    rewrite packageDocuments_eq, Hdocs, writeDocuments_app.
    rewrite (bind_Ok _ _ _ Hwr1), Hdoc. cbn [trace outcome fst snd bind].
    by rewrite app_nil_r. }
  split; [done|]. rewrite Hrun. cbn [trace fst].
  pose proof (collectedTrace_before_packaging pkg w cfg args args' ws dir) as Hpre.
  pose proof (writeDocuments_trace w (NewWriter (randomBoundary w)) before) as Hwd.
  split.
  - rewrite opened_app, (opened_none _ _ Hpre) by done.
    change (EvNewWriter :: ?l) with ([EvNewWriter] ++ l).
    rewrite !opened_app, (writeDocuments_opened _ _ Hbefore), fmap_app.
    change (opened [EvNewWriter]) with (@nil string). cbn [app]. f_equal.
    by destruct Hcase as [[_ ->]|(_ & _ & ->)].
  - rewrite List.filter_app, (filter_network_none _ _ Hpre) by done.
    cbn [app List.filter is_network]. rewrite List.filter_app.
    rewrite (filter_network_none _ _ Hwd) by done.
    by destruct Hcase as [[_ ->]|(_ & _ & ->)].
Qed.

(** X13: when the request is made and [client.Do] fails, or the
    body of the response cannot be read, the run ends with that error
    as it is; the request has been sent once and is not sent again. *)
Theorem transport_error_returned cfg flags args args' ws dir solution exercise
    body client e :
  collected pkg w cfg args args' ws dir solution exercise ->
  Documents exercise <> [] ->
  outcome (packageDocuments w (Documents exercise)) = Ok body ->
  api_NewClient w (token cfg) (apibaseurl cfg) = Ok client ->
  client_NewRequestErr w client "PATCH" (submitURL (UserViperConfig cfg) solution) = None ->
  client_Do w client (requestOf w (UserViperConfig cfg) solution client body) = Err e \/
  (exists resp,
     client_Do w client (requestOf w (UserViperConfig cfg) solution client body) = Ok resp /\
     RespBody resp = Err e) ->
  outcome (runSubmit pkg w cfg flags args) = Err e /\
  List.filter is_network (trace (runSubmit pkg w cfg flags args)) =
    [EvDo (requestOf w (UserViperConfig cfg) solution client body)].
Proof.
  intros Hcol Hdocs Hbody Hclient Hreq Hcase.
  rewrite (runSubmit_packaging _ _ _ _ _ _ _ _ _ _ Hcol Hdocs).
  rewrite (bind_Ok _ _ _ Hbody), (transmit_eq _ _ _ _ _ Hclient Hreq).
  cbn [trace outcome fst snd].
  pose proof (collectedTrace_before_packaging pkg w cfg args args' ws dir) as Hpre.
  pose proof (packageDocuments_trace w (Documents exercise)) as Hpack.
  rewrite !List.filter_app, (filter_network_none _ _ Hpre),
    (filter_network_none _ _ Hpack) by done.
  destruct Hcase as [Hdo|(resp & Hdo & Hread)]; rewrite Hdo; [done|].
  by rewrite Hread.
Qed.

(** X14: whatever the collaborators answer, a request that a run
    sends is a PATCH to the API base URL of the configuration followed
    by "/solutions/" and the ID of the solution that the run loaded,
    which is the requester's: the solution of the directory of its
    call to [workspace.NewSolution], the only such call of the run.
    The body of the request is a closed multipart writer with at least
    one part, every part under the field name "files[]"; and its
    Content-Type is "multipart/form-data; boundary=" followed by the
    boundary of that body. *)
Theorem sent_request_shape cfg flags args req :
  EvDo req ∈ trace (runSubmit pkg w cfg flags args) ->
  Method req = "PATCH" /\
  (exists dir solution,
     EvNewSolution dir ∈ trace (runSubmit pkg w cfg flags args) /\
     (forall d, EvNewSolution d ∈ trace (runSubmit pkg w cfg flags args) -> d = dir) /\
     workspace_NewSolution w dir = Ok solution /\ IsRequester solution = true /\
     ReqURL req = apibaseurl cfg +:+ "/solutions/" +:+ ID solution) /\
  Closed (Body req) = true /\
  Parts (Body req) <> [] /\
  Forall (fun part => FormName part = "files[]") (Parts (Body req)) /\
  Header req !! "Content-Type" =
    Some ("multipart/form-data; boundary=" +:+ Boundary (Body req)).
Proof.
  intros Hin.
  apply runSubmit_sends in Hin
    as (args' & ws & dir & solution & ex & client & body & Hcol & Hdocs & Hbody & ->).
  destruct (loaded_solution pkg w cfg flags args args' ws dir solution
              (col_located _ _ _ _ _ _ _ _ _ Hcol)) as (Hloaded & Huniq).
  apply packageDocuments_Ok in Hbody as (_ & Hclosed & Hparts & _).
  cbn. split_and!; [done| |done| | |by rewrite lookup_insert_eq].
  - exists dir, solution. split_and!; [done|done|apply Hcol..|apply submitURL_eq].
  - intros Hnil. rewrite Hnil in Hparts. by apply Forall2_nil_inv_r in Hparts.
  - clear Hdocs. induction Hparts as [|doc part docs parts Hpart _ IH]; constructor;
      [apply Hpart|done].
Qed.

(** X15: [runSubmit] has no default for the API base URL: when the
    key "apibaseurl" is not set in the configuration it is given, the
    client is made with the empty base URL and a request that is sent
    goes to "/solutions/" followed by the ID of the solution. *)
Theorem no_default_base_url cfg flags args :
  UserViperConfig cfg !! "apibaseurl" = None ->
  (forall tok url, EvNewClient tok url ∈ trace (runSubmit pkg w cfg flags args) ->
     url = "") /\
  (forall req, EvDo req ∈ trace (runSubmit pkg w cfg flags args) ->
     exists dir solution,
       workspace_NewSolution w dir = Ok solution /\
       ReqURL req = "/solutions/" +:+ ID solution).
Proof.
  intros Hnone.
  assert (apibaseurl cfg = "") as Hurl by (unfold GetString; by rewrite Hnone).
  split.
  - intros tok url Hin.
    destruct (runSubmit_cases pkg w cfg flags args)
      as [Hquiet|(args' & ws & dir & solution & ex & Hcol & Hdocs)].
    { exfalso. by eapply (not_elem_of_class before_packaging), Hin. }
    rewrite (runSubmit_packaging _ _ _ _ _ _ _ _ _ _ Hcol Hdocs) in Hin.
    cbn [trace fst] in Hin. apply elem_of_app in Hin as [Hin|Hin].
    { exfalso.
      by eapply (not_elem_of_class before_packaging), Hin;
        [apply collectedTrace_before_packaging|]. }
    apply elem_of_trace_bind in Hin as [Hin|(body & Hbody & Hin)].
    { exfalso.
      by eapply (not_elem_of_class is_writing), Hin; [apply packageDocuments_trace|]. }
    revert Hin. unfold transmit. rewrite trace_bind. cbn [call trace outcome fst snd].
    intros [Hin|Hin]%elem_of_app.
    + apply list_elem_of_singleton in Hin. injection Hin as -> ->. exact Hurl.
    + exfalso. destruct (api_NewClient w _ _) as [client|]; [|by apply elem_of_nil in Hin].
      cbn zeta in Hin. unfold client_NewRequest in Hin.
      destruct (client_NewRequestErr w client _ _).
      * cbn in Hin. apply elem_of_cons in Hin as [Hin|Hin]; [done|].
        by apply elem_of_nil in Hin.
      * rewrite (bind_call_Ok _ _ _ _ eq_refl), (bind_call_Ok _ _ _ _ eq_refl) in Hin.
        cbn [trace fst] in Hin.
        do 2 (apply elem_of_cons in Hin as [Hin|Hin]; [done|]).
        rewrite trace_bind in Hin. cbn [call trace outcome fst snd] in Hin.
        apply elem_of_app in Hin as [Hin|Hin];
          [by apply list_elem_of_singleton in Hin|].
        destruct (client_Do w client _) as [resp|]; [|by apply elem_of_nil in Hin].
        rewrite trace_bind in Hin. cbn [call trace outcome fst snd] in Hin.
        apply elem_of_app in Hin as [Hin|Hin];
          [by apply list_elem_of_singleton in Hin|].
        destruct (RespBody resp); [|by apply elem_of_nil in Hin].
        cbn in Hin. repeat (apply elem_of_cons in Hin as [Hin|Hin]; [done|]).
        by apply elem_of_nil in Hin.
  - intros req Hin.
    apply runSubmit_sends in Hin
      as (args' & ws & dir & solution & ex & client & body & Hcol & _ & _ & ->).
    exists dir, solution. split; [apply Hcol|].
    cbn. by rewrite submitURL_eq, Hurl.
Qed.

End Sending.

(** ** The whole command *)

Section Command.

Context (pkg : CmdPkg) (w : World).

Abbreviation token cfg := (GetString (UserViperConfig cfg) "token").
Abbreviation workspace cfg := (GetString (UserViperConfig cfg) "workspace").
Abbreviation apibaseurl cfg := (GetString (UserViperConfig cfg) "apibaseurl").

(** The third loop goes through files that can be looked at and whose
    documents can be made. *)
Lemma collectDocuments_succeeds ex (l : list string) :
  (forall file, file ∈ l ->
     exists info, os_Stat w file = Ok info /\
       (Size info <> 0 ->
        exists doc, workspace_NewDocument w (ExFilepath ex) file = Ok doc)) ->
  exists ex', outcome (collectDocuments w ex l) = Ok ex'.
Proof.
  revert ex. induction l as [|file l IH]; intros ex Hall; cbn [collectDocuments].
  - by eexists.
  - destruct (Hall file) as (info & Hstat & Hdoc); [left|].
    rewrite outcome_bind, Hstat. cbn [call outcome snd].
    destruct (Z.eqb_spec (Size info) 0) as [Hz|Hnz].
    + rewrite outcome_bind. cbn [Fprintf call outcome snd].
      apply IH. intros f Hf. apply Hall. by right.
    + destruct (Hdoc Hnz) as [doc Hd].
      rewrite outcome_bind, Hd. cbn [call outcome snd].
      apply IH. cbn. intros f Hf. apply Hall. by right.
Qed.

(** X16: the submission succeeds when everything it asks for is
    there: a token and a workspace are configured, every argument
    resolves, the workspace opens, all resolved files belong to one
    solution directory, the solution loads and is the requester's,
    every file can be looked at, at least one is not empty, each one
    that is not empty gives a document whose file opens and reads, the
    client and the request are made, and the server answers with a
    response that can be read.  The run then ends without error. *)
Theorem submission_succeeds cfg flags args args' ws dir solution client :
  String.eqb (token cfg) "" = false ->
  String.eqb (workspace cfg) "" = false ->
  Forall2 (fun arg src =>
             exists path info,
               filepath_Abs w arg = Ok path /\ os_Lstat w path = Ok info /\
               IsDir info = false /\ filepath_EvalSymlinks w path = Ok src)
          args args' ->
  workspace_New w (workspace cfg) = Ok ws ->
  (forall a, a ∈ args' -> ws_SolutionDir w ws a = Ok dir) ->
  workspace_NewSolution w dir = Ok solution ->
  IsRequester solution = true ->
  (forall file, file ∈ args' ->
     exists info, os_Stat w file = Ok info /\
       (Size info <> 0 ->
        exists doc data,
          workspace_NewDocument w (ExFilepath (exerciseAt w dir)) file = Ok doc /\
          os_OpenErr w (Filepath doc) = None /\
          io_Copy w (Filepath doc) = Ok data)) ->
  (exists file, file ∈ args' /\ nonEmpty w file = true) ->
  api_NewClient w (token cfg) (apibaseurl cfg) = Ok client ->
  client_NewRequestErr w client "PATCH" (submitURL (UserViperConfig cfg) solution) = None ->
  (forall req, exists resp data, client_Do w client req = Ok resp /\ RespBody resp = Ok data) ->
  outcome (runSubmit pkg w cfg flags args) = Ok tt.
Proof.
  intros Ht Hw Hargs Hws Hdirs Hsol Hreq Hfiles (some & Hsome & Hne) Hclient Hnew Hdo.
  assert (outcome (resolveArgs pkg w args) = Ok args') as Hres.
  { apply resolveArgs_Ok. eapply Forall2_impl; [exact Hargs|].
    intros arg src. apply resolveArg_Ok. }
  assert (outcome (solutionDirs pkg w ws "" args') = Ok dir) as Hdir.
  { apply solutionDirs_same; [done|by left|]. intros ->. by apply elem_of_nil in Hsome. }
  destruct (collectDocuments_succeeds (exerciseAt w dir) args') as [ex Hex].
  { intros file Hfile. destruct (Hfiles file Hfile) as (info & Hstat & Hdoc).
    exists info. split; [done|]. intros Hnz.
    destruct (Hdoc Hnz) as (doc & data & Hd & _). by exists doc. }
  assert (collected pkg w cfg args args' ws dir solution ex) as Hcol by done.
  destruct (collectDocuments_Ok _ _ _ _ Hex) as (_ & docs & Hdocs & Hall).
  cbn [exerciseAt Documents app] in Hdocs.
  assert (Documents ex <> []) as Hnonempty.
  { rewrite Hdocs. intros ->. apply Forall2_nil_inv_r in Hall.
    assert (some ∈ List.filter (nonEmpty w) args') as Hin.
    { apply list_elem_of_In, List.filter_In. split; [by apply list_elem_of_In|done]. }
    rewrite Hall in Hin. by apply elem_of_nil in Hin. }
  destruct (packageDocuments_succeeds w (Documents ex)) as [body Hbody].
  { rewrite Hdocs. intros doc Hin.
    apply list_elem_of_lookup in Hin as [i Hi].
    destruct (Forall2_lookup_r _ _ _ _ _ Hall Hi) as (file & Hfile & Hd).
    assert (file ∈ List.filter (nonEmpty w) args') as Hkept
      by (apply list_elem_of_lookup; by exists i).
    apply list_elem_of_In, List.filter_In in Hkept as [Hin%list_elem_of_In Hnz].
    destruct (Hfiles file Hin) as (info & Hstat & Hdoc).
    unfold nonEmpty in Hnz. rewrite Hstat in Hnz.
    apply negb_true_iff, Z.eqb_neq in Hnz.
    destruct (Hdoc Hnz) as (doc' & data & Hd' & Hopen & Hcopy).
    cbn [exerciseAt ExFilepath] in Hd, Hd'.
    assert (doc' = doc) as -> by congruence. split; [done|by exists data]. }
  rewrite (runSubmit_packaging _ _ _ _ _ _ _ _ _ _ Hcol Hnonempty).
  rewrite (bind_Ok _ _ _ Hbody), (transmit_eq _ _ _ _ _ Hclient Hnew).
  cbn [outcome snd].
  destruct (Hdo (requestOf w (UserViperConfig cfg) solution client body))
    as (resp & data & -> & ->).
  done.
Qed.

(** X17: the command itself.  When the user configuration cannot be
    read (there is no such file: the error of [ReadInConfig] is
    dropped), the run fails with the welcome message, whose settings
    URL is made from the empty base URL, and makes no call.  And what
    the "cli" configuration file holds makes no difference to the
    command: two sets of files with the same user configuration give
    the same run. *)
Theorem command_reads_user_configuration files flags args :
  (forall e,
     viper_ReadInConfig files (config_Dir files) "user" "json" = Err e ->
     submitCmd_RunE pkg w files flags args =
     ([], Err (Errorf (msgWelcomePleaseConfigure pkg)
                 [config_SettingsURL pkg ""; BinaryName pkg]))) /\
  (forall files',
     readConfig files' "user" = readConfig files "user" ->
     submitCmd_RunE pkg w files' flags args = submitCmd_RunE pkg w files flags args).
Proof.
  split.
  - intros e He. unfold submitCmd_RunE, readConfig, runSubmit. rewrite He. cbn zeta.
    cbn [UserViperConfig]. unfold GetString. by rewrite !lookup_empty.
  - intros files' Heq. unfold submitCmd_RunE. cbn zeta. by rewrite Heq.
Qed.

End Command.

(** ** The further theorems on the workspaces of [Fixture] and [Faults] *)

Module MoreRuns.

Import Fixture.

Lemma configured_token : String.eqb (GetString (UserViperConfig cfg) "token") "" = false.
Proof. reflexivity. Qed.

Lemma configured_workspace :
  String.eqb (GetString (UserViperConfig cfg) "workspace") "" = false.
Proof. reflexivity. Qed.

Lemma missing_file_reported_witness :
  runSubmit pkg w cfg ∅ (["hello.go"] ++ "nope.go" :: ["empty.go"]) =
  (trace (resolveArgs pkg w ["hello.go"]) ++
     [EvAbs "nope.go"; EvLstat "/ws/go/hello/nope.go"],
   Err (errorString
     (LF +:+ LF +:+
      "    The file you are trying to submit cannot be found." +:+ LF +:+ LF +:+
      "        " +:+ "/ws/go/hello/nope.go" +:+ LF +:+ LF +:+ TAB +:+ TAB))).
Proof.
  apply (missing_file_reported pkg w cfg ∅ ["hello.go"] ["/ws/go/hello/hello.go"]
           "nope.go" "/ws/go/hello/nope.go"
           (PathError "lstat" "/ws/go/hello/nope.go" ENOENT) ["empty.go"]);
    vm_compute; reflexivity.
Defined.

Lemma resolution_error_returned_witness :
  runSubmit pkg Faults.w cfg ∅ (["hello.go"] ++ "dangling.go" :: ["empty.go"]) =
  (trace (resolveArgs pkg Faults.w ["hello.go"]) ++
     [EvAbs "dangling.go"; EvLstat "/ws/go/hello/dangling.go";
      EvEvalSymlinks "/ws/go/hello/dangling.go"],
   Err (PathError "lstat" "/ws/go/hello/gone.go" ENOENT)).
Proof.
  apply (resolution_error_returned pkg Faults.w cfg ∅ ["hello.go"]
           ["/ws/go/hello/hello.go"] "dangling.go" ["empty.go"]);
    [reflexivity|reflexivity|vm_compute; reflexivity|].
  right. right.
  exists "/ws/go/hello/dangling.go", {| Mode := ModeSymlink; Size := 20 |}.
  split_and!; vm_compute; reflexivity.
Defined.

Lemma directory_argument_message_witness :
  runSubmit pkg w cfg ∅ (["hello.go"] ++ "sub" :: ["empty.go"]) =
  (trace (resolveArgs pkg w ["hello.go"]) ++ [EvAbs "sub"; EvLstat "/ws/go/hello/sub"],
   Err (errorString
     (LF +:+ LF +:+
      "    You are submitting a directory, which is not currently supported." +:+ LF +:+ LF +:+
      "        " +:+ "/ws/go/hello/sub" +:+ LF +:+ LF +:+
      "    Please change into the directory and provide the path to the file(s) you wish to submit" +:+ LF +:+ LF +:+
      "        " +:+ "exercism" +:+ " submit FILENAME" +:+ LF +:+ LF +:+
      TAB +:+ TAB +:+ TAB))).
Proof.
  apply (directory_argument_message pkg w cfg ∅ ["hello.go"] ["/ws/go/hello/hello.go"]
           "sub" "/ws/go/hello/sub" {| Mode := ModeDir; Size := 4096 |} ["empty.go"]);
    vm_compute; reflexivity.
Defined.

Lemma resolved_arguments_witness :
  Forall2 (fun arg src =>
             exists path info,
               filepath_Abs w arg = Ok path /\ os_Lstat w path = Ok info /\
               IsDir info = false /\ filepath_EvalSymlinks w path = Ok src)
          args0 args0'.
Proof.
  apply (resolved_arguments pkg w args0 args0'). vm_compute. reflexivity.
Defined.

Lemma solution_dir_error_reported_witness :
  runSubmit pkg Faults.w cfg ∅ ["hello.go"; "/ws/notes.txt"] =
  (trace (resolveArgs pkg Faults.w ["hello.go"; "/ws/notes.txt"]) ++
     EvWorkspaceNew "/ws" ::
     trace (solutionDirs pkg Faults.w ws0 "" ["/ws/go/hello/hello.go"]) ++
     [EvSolutionDir "/ws/notes.txt"],
   Err (errorsNew (msgMissingMetadata pkg))).
Proof.
  apply (solution_dir_error_reported pkg Faults.w cfg ∅ ["hello.go"; "/ws/notes.txt"]
           ["/ws/go/hello/hello.go"] "/ws/notes.txt" [] ws0 "/ws/go/hello"
           ErrMissingMetadata).
  - split; vm_compute; reflexivity.
  - vm_compute. reflexivity.
  - vm_compute. reflexivity.
Defined.

Lemma one_solution_directory_witness :
  Forall (fun a => ws_SolutionDir w ws0 a = Ok "/ws/go/hello") args0'.
Proof.
  apply Forall_forall.
  apply (one_solution_directory pkg w cfg args0 args0' ws0 "/ws/go/hello" hello).
  - apply Runs.args0_located.
  - intros a da [->|[->|[->|[]%elem_of_nil]%elem_of_cons]%elem_of_cons]%elem_of_cons;
      vm_compute; intros [= <-]; discriminate.
Defined.

Lemma no_arguments_witness :
  runSubmit pkg w cfg ∅ [] =
  ([EvWorkspaceNew "/ws"; EvNewSolution ""],
   Err (PathError "open" "/.solution.json" ENOENT)).
Proof.
  apply (no_arguments pkg w cfg ∅ ws0); reflexivity.
Defined.

Lemma denied_located :
  located pkg Faults.denied cfg ["hello.go"; "hello_test.go"]
    (["/ws/go/hello/hello.go"] ++ "/ws/go/hello/hello_test.go" :: [])
    ws0 "/ws/go/hello" hello.
Proof. repeat split; vm_compute; reflexivity. Qed.

Lemma collection_error_returned_witness :
  runSubmit pkg Faults.denied cfg ∅ ["hello.go"; "hello_test.go"] =
  (locatedTrace pkg Faults.denied cfg ["hello.go"; "hello_test.go"]
     (["/ws/go/hello/hello.go"] ++ "/ws/go/hello/hello_test.go" :: [])
     ws0 "/ws/go/hello" ++
     trace (collectDocuments Faults.denied (exerciseAt Faults.denied "/ws/go/hello")
              ["/ws/go/hello/hello.go"]) ++
     [EvStat "/ws/go/hello/hello_test.go"],
   Err (PathError "stat" "/ws/go/hello/hello_test.go" EACCES)).
Proof.
  apply (collection_error_returned pkg Faults.denied cfg ∅
           ["hello.go"; "hello_test.go"] ["/ws/go/hello/hello.go"]
           "/ws/go/hello/hello_test.go" [] ws0 "/ws/go/hello" hello
           {| ExFilepath := "/ws/go/hello"; Documents := [helloDoc] |}).
  - apply denied_located.
  - reflexivity.
  - vm_compute. reflexivity.
  - left. split; vm_compute; reflexivity.
Defined.

Lemma error_stream_of_run_witness :
  written Err_ (trace (runSubmit pkg w cfg ∅ args0)) =
  (warning <$> List.filter (fun file => negb (nonEmpty w file)) args0') ++
  match outcome (runSubmit pkg w cfg ∅ args0) with
  | Ok _ =>
      [LF +:+ LF +:+
       "    Your solution has been submitted successfully." +:+ LF +:+
       "    " +:+ suffixView +:+ LF]
  | Err _ => []
  end.
Proof.
  apply (error_stream_of_run pkg w cfg ∅ args0 args0' ws0 "/ws/go/hello" hello exercise0).
  apply Runs.args0_collected.
Defined.

Lemma link_collected :
  collected pkg w cfg ["hello.go"; "link"]
    ["/ws/go/hello/hello.go"; "/ws/go/hello/sub"] ws0 "/ws/go/hello" hello
    {| ExFilepath := "/ws/go/hello"; Documents := [helloDoc] ++ Faults.subDoc :: [] |}.
Proof. repeat split; vm_compute; reflexivity. Qed.

Lemma packaging_error_returned_witness :
  opened (trace (runSubmit pkg w cfg ∅ ["hello.go"; "link"])) =
    ["/ws/go/hello/hello.go"; "/ws/go/hello/sub"] /\
  outcome (runSubmit pkg w cfg ∅ ["hello.go"; "link"]) =
    Err (PathError "read" "/ws/go/hello/sub" EISDIR) /\
  List.filter is_network (trace (runSubmit pkg w cfg ∅ ["hello.go"; "link"])) = [].
Proof.
  destruct (packaging_error_returned pkg w cfg ∅ ["hello.go"; "link"]
              ["/ws/go/hello/hello.go"; "/ws/go/hello/sub"] ws0 "/ws/go/hello" hello
              {| ExFilepath := "/ws/go/hello";
                 Documents := [helloDoc] ++ Faults.subDoc :: [] |}
              [helloDoc] Faults.subDoc []
              (PathError "read" "/ws/go/hello/sub" EISDIR)
              [EvOpen "/ws/go/hello/sub"; EvCreateFormFile "files[]" "sub";
               EvCopy "/ws/go/hello/sub"])
    as (Hrun & Hopened & Hnet).
  - apply link_collected.
  - reflexivity.
  - intros d [->|[]%elem_of_nil]%elem_of_cons.
    split; [vm_compute; reflexivity|eexists; vm_compute; reflexivity].
  - right. split_and!; vm_compute; reflexivity.
  - split_and!; [exact Hopened| |exact Hnet]. by rewrite Hrun.
Defined.

Lemma offline_collected :
  collected pkg Faults.offline cfg args0 args0' ws0 "/ws/go/hello" hello exercise0.
Proof. repeat split; vm_compute; reflexivity. Qed.

Lemma transport_error_returned_witness :
  outcome (runSubmit pkg Faults.offline cfg ∅ args0) =
    Err (otherError "connection refused") /\
  List.filter is_network (trace (runSubmit pkg Faults.offline cfg ∅ args0)) =
    [EvDo (requestOf Faults.offline (UserViperConfig cfg) hello client0 body0)].
Proof.
  apply (transport_error_returned pkg Faults.offline cfg ∅ args0 args0' ws0
           "/ws/go/hello" hello exercise0 body0 client0).
  - apply offline_collected.
  - discriminate.
  - vm_compute. reflexivity.
  - reflexivity.
  - reflexivity.
  - left. reflexivity.
Defined.

Lemma sent_request_shape_witness :
  Method (requestOf w (UserViperConfig cfg) hello client0 body0) = "PATCH" /\
  Parts (Body (requestOf w (UserViperConfig cfg) hello client0 body0)) <> [].
Proof.
  destruct (sent_request_shape pkg w cfg ∅ args0
              (requestOf w (UserViperConfig cfg) hello client0 body0))
    as (Hmethod & _ & _ & Hparts & _).
  - apply list_elem_of_lookup. exists 31%nat. vm_compute. reflexivity.
  - by split.
Defined.

Lemma no_default_base_url_witness :
  exists dir solution,
    workspace_NewSolution w dir = Ok solution /\
    ReqURL (requestOf w (UserViperConfig Faults.noURL) hello
              {| Token := "abc123"; APIBaseURL := "" |} body0)
      = "/solutions/" +:+ ID solution.
Proof.
  destruct (no_default_base_url pkg w Faults.noURL ∅ args0) as (_ & Hsent).
  - reflexivity.
  - apply Hsent. apply list_elem_of_lookup. exists 31%nat. vm_compute. reflexivity.
Defined.

Lemma submission_succeeds_witness : outcome (runSubmit pkg w cfg ∅ args0) = Ok tt.
Proof.
  apply (submission_succeeds pkg w cfg ∅ args0 args0' ws0 "/ws/go/hello" hello client0).
  - reflexivity.
  - reflexivity.
  - repeat constructor; eexists _, _; split_and!; vm_compute; reflexivity.
  - reflexivity.
  - intros a [->|[->|[->|[]%elem_of_nil]%elem_of_cons]%elem_of_cons]%elem_of_cons;
      vm_compute; reflexivity.
  - reflexivity.
  - reflexivity.
  - intros f [->|[->|[->|[]%elem_of_nil]%elem_of_cons]%elem_of_cons]%elem_of_cons.
    + exists {| Mode := ModeRegular; Size := 13 |}. split; [vm_compute; reflexivity|].
      intros _. exists helloDoc, (src "package hello").
      split_and!; vm_compute; reflexivity.
    + exists {| Mode := ModeRegular; Size := 0 |}. split; [vm_compute; reflexivity|].
      intros H. by destruct H.
    + exists {| Mode := ModeRegular; Size := 13 |}. split; [vm_compute; reflexivity|].
      intros _. exists helloDoc, (src "package hello").
      split_and!; vm_compute; reflexivity.
  - exists "/ws/go/hello/hello.go". split; [left|vm_compute; reflexivity].
  - reflexivity.
  - reflexivity.
  - intros req. exists {| RespBody := Ok [] |}, []. by split.
Defined.

Lemma command_reads_user_configuration_witness :
  submitCmd_RunE pkg w Faults.noFiles ∅ args0 =
  ([], Err (Errorf (msgWelcomePleaseConfigure pkg)
              [config_SettingsURL pkg ""; "exercism"])).
Proof.
  destruct (command_reads_user_configuration pkg w Faults.noFiles ∅ args0) as (Hnone & _).
  apply (Hnone (PathError "open" "/home/user/.config/exercism/user.json" ENOENT)).
  reflexivity.
Defined.

End MoreRuns.
